(** * Family Budget Tool: the derived-ledger engine

    A shallow embedding of the ledger logic of the budgeting page
    (types, date helpers, recurrence test, recurrence projector, goal
    statistics, balance derivation and the local-mode store mutators),
    followed by the properties established about it.

    Modelling conventions.
    - A JavaScript [number] holding money is an exact rational [Q]; the
      binary rounding error of doubles is not modelled.  The idiom
      [+(x).toFixed(2)] is the function [toFixed2].
    - Strings are [string]; [===] on strings is [String.eqb]; relational
      operators on strings are the byte-wise lexicographic order.
    - An optional field is an [option]; JavaScript truthiness of an
      optional string ([undefined] and the empty string are falsy) is
      written out where the source relies on it.
    - Every [setStore (s => ...)] updater of the local (non-cloud) mode is
      a function [Store.t -> Store.t].  Identifiers drawn by [mkId ()]
      are explicit arguments of the mutators.  Of the cloud branches, the
      calls to the remote store are not part of the model; the updater
      that the reload passes to [setStore] is, as a function of the rows
      read from the remote tables.
    - The [Map] of the balance recomputation is a [gmap] keyed by account
      id, the [Map] of the monthly totals a [gmap] keyed by month.
    - A [Date] is modelled by its UTC calendar fields; the environment's
      time zone is a parameter [tz], the offset of local time from UTC in
      minutes (positive east of Greenwich). *)

From Stdlib Require Import ZArith QArith Qround Qabs List String Ascii Bool Lia.
From Stdlib Require Import Sorted Permutation DecimalString.
From stdpp Require Import gmap strings.
Import ListNotations.

Local Open Scope string_scope.
Local Open Scope Z_scope.

(* ====================================================================== *)
(** * Numbers *)
(* ====================================================================== *)

(** [+(x).toFixed(2)]: [toFixed] rounds the magnitude to the nearest
    multiple of 1/100, the larger one on a tie, and keeps the sign; the
    unary plus reads the string back ("-0.00" reads as zero).  Magnitudes
    from 1e21 on, which [toFixed] prints in exponent form, and [NaN] are
    outside the model. *)
Definition toFixed2 (x : Q) : Q :=
  let n := Qfloor (Qabs x * 100 + (1 # 2))%Q in
  if Qle_bool 0 x then n # 100 else (- n) # 100.

(** A value with at most two fraction digits: a whole number of cents. *)
Definition twoDecimals (x : Q) : Prop :=
  (100 * Qnum x) mod Z.pos (Qden x) = 0.

(** [Math.max(a, b)] on rationals. *)
Definition Qmax (a b : Q) : Q := if Qle_bool a b then b else a.

(** JavaScript [a > 0] on numbers. *)
Definition Qpositive (a : Q) : bool := negb (Qle_bool a 0).

(** [s || d] for a string [s]: the empty string is falsy. *)
Definition strOr (s d : string) : string :=
  if String.eqb s "" then d else s.

(** [o || d] for an optional string [o]. *)
Definition optOr (o : option string) (d : string) : string :=
  match o with
  | Some s => strOr s d
  | None => d
  end.

(** Truthiness of an optional string. *)
Definition truthy (o : option string) : bool :=
  match o with
  | Some s => negb (String.eqb s "")
  | None => false
  end.

(** The id tested by [if (v.accountId)]: none when the optional id is
    absent or empty. *)
Definition linkedAccount (o : option string) : option string :=
  match o with
  | Some a => if String.eqb a "" then None else Some a
  | None => None
  end.

(* ====================================================================== *)
(** * Types *)
(* ====================================================================== *)

Definition Id := string.

Inductive Currency := USD | KSH.

Module Income.
Record t := mk {
  id : Id;
  date : string;
  source : string;
  amount : Q;
  accountId : Id;
  notes : option string
}.
End Income.

Inductive RecurrencePeriod := monthly | quarterly | annually.

Module Recurrence.
Record t := mk {
  enabled : bool;
  period : RecurrencePeriod;
  start : string;
  end_ : option string
}.
End Recurrence.

Module Expense.
Record t := mk {
  id : Id;
  date : string;
  category : string;
  amount : Q;
  isRecurring : bool;
  recurrence : option Recurrence.t;
  accountId : Id;
  notes : option string
}.
End Expense.

Inductive AccountType := Savings | Investment_ | Wallet | Bank.

Module Account.
Record t := mk {
  id : Id;
  name : string;
  type : AccountType;
  balance : Q;
  currency : Currency
}.
End Account.

Module Transfer.
Record t := mk {
  id : Id;
  date : string;
  fromAccountId : Id;
  toAccountId : Id;
  amount : Q;
  notes : option string
}.
End Transfer.

Inductive TxnType := Deposit | Withdrawal.
Inductive LinkedType := LIncome | LExpense | LTransfer.

Module AccountTxn.
Record t := mk {
  id : Id;
  date : string;
  accountId : Id;
  type : TxnType;
  amount : Q;
  linkedType : LinkedType;
  linkedId : Id;
  notes : option string;
  transferFromId : option Id;
  transferToId : option Id
}.
End AccountTxn.

Module Project.
Record t := mk {
  id : Id;
  name : string;
  targetAmount : Q;
  targetDate : string;
  notes : option string
}.
End Project.

Module ProjectContribution.
Record t := mk {
  id : Id;
  projectId : Id;
  date : string;
  amount : Q
}.
End ProjectContribution.

Module Investment.
Record t := mk {
  id : Id;
  date : string;
  instrument : string;
  amount : Q;
  accountId : option Id;
  notes : option string
}.
End Investment.

Module Store.
Record t := mk {
  currency : Currency;
  incomes : list Income.t;
  expenses : list Expense.t;
  accounts : list Account.t;
  transfers : list Transfer.t;
  accountTxns : list AccountTxn.t;
  projects : list Project.t;
  projectContribs : list ProjectContribution.t;
  investments : list Investment.t
}.
End Store.

Definition TxnType_eqb (a b : TxnType) : bool :=
  match a, b with
  | Deposit, Deposit | Withdrawal, Withdrawal => true
  | _, _ => false
  end.

Definition LinkedType_eqb (a b : LinkedType) : bool :=
  match a, b with
  | LIncome, LIncome | LExpense, LExpense | LTransfer, LTransfer => true
  | _, _ => false
  end.

(* ====================================================================== *)
(** * Ledger store: local-mode mutators *)
(* ====================================================================== *)

(** [adjust(accounts, accountId, delta)] *)
Definition adjust (accounts : list Account.t) (accountId : Id) (delta : Q)
  : list Account.t :=
  map (fun a =>
         if String.eqb (Account.id a) accountId
         then Account.mk (Account.id a) (Account.name a) (Account.type a)
                (toFixed2 (Account.balance a + delta)) (Account.currency a)
         else a)
      accounts.

(** [accounts.find((a) => a.id === id)?.name || fallback] *)
Definition accountName (accounts : list Account.t) (id : Id) (fallback : string)
  : string :=
  match find (fun a => String.eqb (Account.id a) id) accounts with
  | Some a => strOr (Account.name a) fallback
  | None => fallback
  end.

(** [t.linkedType === ty && t.linkedId === id] *)
Definition linkedTo (ty : LinkedType) (id : Id) (t : AccountTxn.t) : bool :=
  LinkedType_eqb (AccountTxn.linkedType t) ty
  && String.eqb (AccountTxn.linkedId t) id.

(** [addIncome], local branch.  [id] and [txnId] are the two [mkId ()]
    results; the [id] field of the argument is the omitted one. *)
Definition addIncome (id txnId : Id) (inc : Income.t) (s : Store.t) : Store.t :=
  let income :=
    Income.mk id (Income.date inc) (Income.source inc) (Income.amount inc)
      (Income.accountId inc) (Income.notes inc) in
  let accounts := adjust (Store.accounts s) (Income.accountId inc) (Income.amount inc) in
  let accountTxns :=
    AccountTxn.mk txnId (Income.date inc) (Income.accountId inc) Deposit
      (Income.amount inc) LIncome id
      (Some (strOr (Income.source inc) "Income")) None None
    :: Store.accountTxns s in
  Store.mk (Store.currency s) (income :: Store.incomes s) (Store.expenses s)
    accounts (Store.transfers s) accountTxns (Store.projects s)
    (Store.projectContribs s) (Store.investments s).

Definition delIncome (id : Id) (s : Store.t) : Store.t :=
  match find (fun i => String.eqb (Income.id i) id) (Store.incomes s) with
  | None => s
  | Some income =>
    let accounts :=
      adjust (Store.accounts s) (Income.accountId income) (- Income.amount income) in
    let accountTxns :=
      List.filter (fun t => negb (linkedTo LIncome id t)) (Store.accountTxns s) in
    let incomes :=
      List.filter (fun i => negb (String.eqb (Income.id i) id)) (Store.incomes s) in
    Store.mk (Store.currency s) incomes (Store.expenses s) accounts
      (Store.transfers s) accountTxns (Store.projects s)
      (Store.projectContribs s) (Store.investments s)
  end.

Definition addExpense (id txnId : Id) (exp : Expense.t) (s : Store.t) : Store.t :=
  let expense :=
    Expense.mk id (Expense.date exp) (Expense.category exp) (Expense.amount exp)
      (Expense.isRecurring exp) (Expense.recurrence exp) (Expense.accountId exp)
      (Expense.notes exp) in
  let accounts :=
    adjust (Store.accounts s) (Expense.accountId exp) (- Expense.amount exp) in
  let accountTxns :=
    AccountTxn.mk txnId (Expense.date exp) (Expense.accountId exp) Withdrawal
      (Expense.amount exp) LExpense id
      (Some (strOr (Expense.category exp) "Expense")) None None
    :: Store.accountTxns s in
  Store.mk (Store.currency s) (Store.incomes s) (expense :: Store.expenses s)
    accounts (Store.transfers s) accountTxns (Store.projects s)
    (Store.projectContribs s) (Store.investments s).

Definition delExpense (id : Id) (s : Store.t) : Store.t :=
  match find (fun e => String.eqb (Expense.id e) id) (Store.expenses s) with
  | None => s
  | Some expense =>
    let accounts :=
      adjust (Store.accounts s) (Expense.accountId expense) (Expense.amount expense) in
    let accountTxns :=
      List.filter (fun t => negb (linkedTo LExpense id t)) (Store.accountTxns s) in
    let expenses :=
      List.filter (fun e => negb (String.eqb (Expense.id e) id)) (Store.expenses s) in
    Store.mk (Store.currency s) (Store.incomes s) expenses accounts
      (Store.transfers s) accountTxns (Store.projects s)
      (Store.projectContribs s) (Store.investments s)
  end.

(** The balance effect of an investment on its funding account:
    [inv.amount > 0 ? -Math.abs(inv.amount) : Math.abs(inv.amount)]. *)
Definition investmentDelta (amount : Q) : Q :=
  if Qpositive amount then (- Qabs amount)%Q else Qabs amount.

(** [addInvestment], local branch; [id] is the [mkId ()] result. *)
Definition addInvestment (id : Id) (v : Investment.t) (s : Store.t) : Store.t :=
  let inv :=
    Investment.mk id (Investment.date v) (Investment.instrument v)
      (Investment.amount v) (Investment.accountId v) (Investment.notes v) in
  let accounts :=
    match linkedAccount (Investment.accountId inv) with
    | Some a => adjust (Store.accounts s) a (investmentDelta (Investment.amount inv))
    | None => Store.accounts s
    end in
  Store.mk (Store.currency s) (Store.incomes s) (Store.expenses s) accounts
    (Store.transfers s) (Store.accountTxns s) (Store.projects s)
    (Store.projectContribs s) (inv :: Store.investments s).

(** [delInvestment]: the reverting delta is
    [v.amount > 0 ? +v.amount : -v.amount]. *)
Definition delInvestment (id : Id) (s : Store.t) : Store.t :=
  match find (fun x => String.eqb (Investment.id x) id) (Store.investments s) with
  | None => s
  | Some v =>
    let accounts :=
      match linkedAccount (Investment.accountId v) with
      | Some a =>
        adjust (Store.accounts s) a
          (if Qpositive (Investment.amount v)
           then Investment.amount v else (- Investment.amount v)%Q)
      | None => Store.accounts s
      end in
    Store.mk (Store.currency s) (Store.incomes s) (Store.expenses s) accounts
      (Store.transfers s) (Store.accountTxns s) (Store.projects s)
      (Store.projectContribs s)
      (List.filter (fun x => negb (String.eqb (Investment.id x) id)) (Store.investments s))
  end.

(** The guard of [addTransfer]:
    [tr.fromAccountId === tr.toAccountId || tr.amount <= 0]. *)
Definition transferRejected (tr : Transfer.t) : bool :=
  String.eqb (Transfer.fromAccountId tr) (Transfer.toAccountId tr)
  || Qle_bool (Transfer.amount tr) 0.

(** [addTransfer]; [id], [txnId1], [txnId2] are the [mkId ()] results. *)
Definition addTransfer (id txnId1 txnId2 : Id) (tr : Transfer.t) (s : Store.t)
  : Store.t :=
  if transferRejected tr then s else
  let transfer :=
    Transfer.mk id (Transfer.date tr) (Transfer.fromAccountId tr)
      (Transfer.toAccountId tr) (Transfer.amount tr) (Transfer.notes tr) in
  let accounts :=
    adjust (adjust (Store.accounts s) (Transfer.fromAccountId tr) (- Transfer.amount tr))
           (Transfer.toAccountId tr) (Transfer.amount tr) in
  let fromName := accountName (Store.accounts s) (Transfer.fromAccountId tr) "From" in
  let toName := accountName (Store.accounts s) (Transfer.toAccountId tr) "To" in
  let accountTxns :=
    AccountTxn.mk txnId1 (Transfer.date tr) (Transfer.fromAccountId tr) Withdrawal
      (Transfer.amount tr) LTransfer id
      (Some (optOr (Transfer.notes tr) ("Transfer to " ++ toName)))
      (Some (Transfer.fromAccountId tr)) (Some (Transfer.toAccountId tr))
    :: AccountTxn.mk txnId2 (Transfer.date tr) (Transfer.toAccountId tr) Deposit
         (Transfer.amount tr) LTransfer id
         (Some (optOr (Transfer.notes tr) ("Transfer from " ++ fromName)))
         (Some (Transfer.fromAccountId tr)) (Some (Transfer.toAccountId tr))
    :: Store.accountTxns s in
  Store.mk (Store.currency s) (Store.incomes s) (Store.expenses s) accounts
    (transfer :: Store.transfers s) accountTxns (Store.projects s)
    (Store.projectContribs s) (Store.investments s).

Definition delTransfer (id : Id) (s : Store.t) : Store.t :=
  match find (fun t => String.eqb (Transfer.id t) id) (Store.transfers s) with
  | None => s
  | Some tr =>
    let accounts :=
      adjust (adjust (Store.accounts s) (Transfer.fromAccountId tr) (Transfer.amount tr))
             (Transfer.toAccountId tr) (- Transfer.amount tr) in
    let accountTxns :=
      List.filter (fun t => negb (linkedTo LTransfer id t)) (Store.accountTxns s) in
    let transfers :=
      List.filter (fun t => negb (String.eqb (Transfer.id t) id)) (Store.transfers s) in
    Store.mk (Store.currency s) (Store.incomes s) (Store.expenses s) accounts
      transfers accountTxns (Store.projects s)
      (Store.projectContribs s) (Store.investments s)
  end.

(** The journal rewrite of [updateTransfer] for one entry. *)
Definition retargetTransferTxn (edited : Transfer.t) (fromName toName : string)
  (t : AccountTxn.t) : AccountTxn.t :=
  if linkedTo LTransfer (Transfer.id edited) t then
    let isFromSide := TxnType_eqb (AccountTxn.type t) Withdrawal in
    let newAccountId :=
      if isFromSide then Transfer.fromAccountId edited
      else Transfer.toAccountId edited in
    let newNotes :=
      optOr (Transfer.notes edited)
        (if isFromSide then "Transfer to " ++ toName
         else "Transfer from " ++ fromName) in
    AccountTxn.mk (AccountTxn.id t) (Transfer.date edited) newAccountId
      (AccountTxn.type t) (Transfer.amount edited) (AccountTxn.linkedType t)
      (AccountTxn.linkedId t) (Some newNotes)
      (Some (Transfer.fromAccountId edited)) (Some (Transfer.toAccountId edited))
  else t.

(** [(t) => (t.id === edited.id ? edited : t)] *)
Definition replaceTransfer (edited t : Transfer.t) : Transfer.t :=
  if String.eqb (Transfer.id t) (Transfer.id edited) then edited else t.

Definition updateTransfer (edited : Transfer.t) (s : Store.t) : Store.t :=
  match find (fun t => String.eqb (Transfer.id t) (Transfer.id edited))
             (Store.transfers s) with
  | None => s
  | Some original =>
    let accounts := Store.accounts s in
    let accounts := adjust accounts (Transfer.fromAccountId original) (Transfer.amount original) in
    let accounts := adjust accounts (Transfer.toAccountId original) (- Transfer.amount original) in
    let accounts := adjust accounts (Transfer.fromAccountId edited) (- Transfer.amount edited) in
    let accounts := adjust accounts (Transfer.toAccountId edited) (Transfer.amount edited) in
    let transfers := map (replaceTransfer edited) (Store.transfers s) in
    let fromName := accountName (Store.accounts s) (Transfer.fromAccountId edited) "From" in
    let toName := accountName (Store.accounts s) (Transfer.toAccountId edited) "To" in
    let accountTxns :=
      map (retargetTransferTxn edited fromName toName) (Store.accountTxns s) in
    Store.mk (Store.currency s) (Store.incomes s) (Store.expenses s) accounts
      transfers accountTxns (Store.projects s)
      (Store.projectContribs s) (Store.investments s)
  end.

(** [edited.source || t.notes] where [t.notes] is itself optional. *)
Definition strOrOpt (s : string) (o : option string) : option string :=
  if String.eqb s "" then o else Some s.

(** [(i) => (i.id === edited.id ? edited : i)] *)
Definition replaceIncome (edited i : Income.t) : Income.t :=
  if String.eqb (Income.id i) (Income.id edited) then edited else i.

(** The journal rewrite of [updateIncome] for one entry:
    [{ ...t, date, accountId, amount, notes: edited.source || t.notes }]
    on the entries linked to the income. *)
Definition retargetIncomeTxn (edited : Income.t) (t : AccountTxn.t) : AccountTxn.t :=
  if linkedTo LIncome (Income.id edited) t
  then AccountTxn.mk (AccountTxn.id t) (Income.date edited)
         (Income.accountId edited) (AccountTxn.type t)
         (Income.amount edited) (AccountTxn.linkedType t)
         (AccountTxn.linkedId t)
         (strOrOpt (Income.source edited) (AccountTxn.notes t))
         (AccountTxn.transferFromId t) (AccountTxn.transferToId t)
  else t.

Definition updateIncome (edited : Income.t) (s : Store.t) : Store.t :=
  match find (fun i => String.eqb (Income.id i) (Income.id edited))
             (Store.incomes s) with
  | None => s
  | Some original =>
    let accounts :=
      if negb (String.eqb (Income.accountId original) (Income.accountId edited))
      then adjust (adjust (Store.accounts s) (Income.accountId original)
                          (- Income.amount original))
                  (Income.accountId edited) (Income.amount edited)
      else adjust (Store.accounts s) (Income.accountId edited)
                  (Income.amount edited - Income.amount original) in
    let incomes := map (replaceIncome edited) (Store.incomes s) in
    let accountTxns := map (retargetIncomeTxn edited) (Store.accountTxns s) in
    Store.mk (Store.currency s) incomes (Store.expenses s) accounts
      (Store.transfers s) accountTxns (Store.projects s)
      (Store.projectContribs s) (Store.investments s)
  end.

(** [(e) => (e.id === edited.id ? edited : e)] *)
Definition replaceExpense (edited e : Expense.t) : Expense.t :=
  if String.eqb (Expense.id e) (Expense.id edited) then edited else e.

(** The journal rewrite of [updateExpense] for one entry. *)
Definition retargetExpenseTxn (edited : Expense.t) (t : AccountTxn.t) : AccountTxn.t :=
  if linkedTo LExpense (Expense.id edited) t
  then AccountTxn.mk (AccountTxn.id t) (Expense.date edited)
         (Expense.accountId edited) (AccountTxn.type t)
         (Expense.amount edited) (AccountTxn.linkedType t)
         (AccountTxn.linkedId t)
         (strOrOpt (Expense.category edited) (AccountTxn.notes t))
         (AccountTxn.transferFromId t) (AccountTxn.transferToId t)
  else t.

Definition updateExpense (edited : Expense.t) (s : Store.t) : Store.t :=
  match find (fun e => String.eqb (Expense.id e) (Expense.id edited))
             (Store.expenses s) with
  | None => s
  | Some original =>
    let accounts :=
      if negb (String.eqb (Expense.accountId original) (Expense.accountId edited))
      then adjust (adjust (Store.accounts s) (Expense.accountId original)
                          (Expense.amount original))
                  (Expense.accountId edited) (- Expense.amount edited)
      else adjust (Store.accounts s) (Expense.accountId edited)
                  (- (Expense.amount edited - Expense.amount original)) in
    let expenses := map (replaceExpense edited) (Store.expenses s) in
    let accountTxns := map (retargetExpenseTxn edited) (Store.accountTxns s) in
    Store.mk (Store.currency s) (Store.incomes s) expenses accounts
      (Store.transfers s) accountTxns (Store.projects s)
      (Store.projectContribs s) (Store.investments s)
  end.

(** [totalAccountBalances]: [store.accounts.reduce((s, a) => s + a.balance, 0)] *)
Definition totalAccountBalances (accounts : list Account.t) : Q :=
  fold_left (fun s a => (s + Account.balance a)%Q) accounts 0%Q.

(** [emptyStore]; [cashId] is the [mkId ()] result of its one account. *)
Definition emptyStore (cashId : Id) : Store.t :=
  Store.mk USD [] [] [Account.mk cashId "Cash" Wallet 0%Q USD] [] [] [] [] [].

(* ====================================================================== *)
(** * Date and period utilities *)
(* ====================================================================== *)

(** The value of a decimal digit character. *)
Definition digitVal (c : ascii) : option Z :=
  let n := Z.of_N (N_of_ascii c) in
  if (48 <=? n) && (n <=? 57) then Some (n - 48) else None.

Fixpoint digitsVal (acc : Z) (s : string) : option Z :=
  match s with
  | EmptyString => Some acc
  | String c rest =>
    match digitVal c with
    | Some d => digitsVal (acc * 10 + d) rest
    | None => None
    end
  end.

(** [Number(s)] for the strings the date helpers feed it: a run of decimal
    digits is its value, the empty string is 0, anything else stands for
    [NaN] ([None]).  Signs, exponents, fractions, hexadecimal and blanks,
    which [Number] also reads, do not occur in date keys. *)
Definition Number_ (s : string) : option Z := digitsVal 0 s.

(** [s.split("-")] *)
Fixpoint splitDash (cur : string) (s : string) : list string :=
  match s with
  | EmptyString => [cur]
  | String c rest =>
    if Ascii.eqb c "-"%char then cur :: splitDash "" rest
    else splitDash (cur ++ String c "") rest
  end.

(** [const [a, b] = s.split("-").map(Number)]: a missing element is
    [undefined], which behaves as [NaN] in the arithmetic below. *)
Definition splitNumbers (s : string) : option Z * option Z :=
  let parts := splitDash "" s in
  (match nth_error parts 0 with Some p => Number_ p | None => None end,
   match nth_error parts 1 with Some p => Number_ p | None => None end).

(** [ymKey]: [d?.slice(0, 7) ?? ""] *)
Definition ymKey (d : string) : string := substring 0 7 d.

(** [monthsDiff(a, b)]; [None] is [NaN]. *)
Definition monthsDiff (a b : string) : option Z :=
  let '(ya, ma) := splitNumbers a in
  let '(yb, mb) := splitNumbers b in
  match ya, ma, yb, mb with
  | Some ya, Some ma, Some yb, Some mb => Some ((yb - ya) * 12 + (mb - ma))
  | _, _, _, _ => None
  end.

(** [inRangeMonth(ym, startISO, endISO?)] *)
Definition inRangeMonth (ym startISO : string) (endISO : option string) : bool :=
  let sYM := ymKey startISO in
  let eYM := if truthy endISO then option_map ymKey endISO else None in
  if String.eqb sYM "" then false
  else if (truthy eYM && match eYM with Some e => String.ltb e ym | None => false end)
  then false
  else String.leb sYM ym.

(** The anchor date [r?.start || exp.date]. *)
Definition anchorISO (exp : Expense.t) : string :=
  match Expense.recurrence exp with
  | Some r => strOr (Recurrence.start r) (Expense.date exp)
  | None => Expense.date exp
  end.

(** [r?.enabled || exp.isRecurring] *)
Definition recurrenceEnabled (exp : Expense.t) : bool :=
  match Expense.recurrence exp with
  | Some r => Recurrence.enabled r || Expense.isRecurring exp
  | None => Expense.isRecurring exp
  end.

(** [r?.period || "monthly"] *)
Definition recurrencePeriod (exp : Expense.t) : RecurrencePeriod :=
  match Expense.recurrence exp with
  | Some r => Recurrence.period r
  | None => monthly
  end.

(** [r?.end] *)
Definition recurrenceEnd (exp : Expense.t) : option string :=
  match Expense.recurrence exp with
  | Some r => Recurrence.end_ r
  | None => None
  end.

(** [recurrenceOccursThisMonth(exp, ym)] *)
Definition recurrenceOccursThisMonth (exp : Expense.t) (ym : string) : bool :=
  if negb (recurrenceEnabled exp) then false
  else if negb (inRangeMonth ym (anchorISO exp) (recurrenceEnd exp))
  then false
  else
    let diff := monthsDiff (ymKey (anchorISO exp)) ym in
    match diff with
    | None =>
      (* NaN: [diff < 0] and [diff % n === 0] are both false *)
      match recurrencePeriod exp with
      | monthly => true
      | _ => false
      end
    | Some diff =>
      if diff <? 0 then false
      else match recurrencePeriod exp with
           | monthly => true
           | quarterly => Z.rem diff 3 =? 0
           | annually => Z.rem diff 12 =? 0
           end
    end.

(** ** Dates *)

(** A valid [Date], by its UTC calendar fields: [month] in 1..12, [day]
    in 1..31, [minute] the minute of the day.  An invalid date is [None]
    at the places that can produce one. *)
Module Date.
Record t := mk {
  year : Z;
  month : Z;
  day : Z;
  minute : Z
}.
End Date.

Definition isLeap (y : Z) : bool :=
  ((y mod 4 =? 0) && negb (y mod 100 =? 0)) || (y mod 400 =? 0).

Definition daysInMonth (y m : Z) : Z :=
  if m =? 2 then (if isLeap y then 29 else 28)
  else if (m =? 4) || (m =? 6) || (m =? 9) || (m =? 11) then 30
  else 31.

Definition prevDay (d : Date.t) : Date.t :=
  if 1 <? Date.day d
  then Date.mk (Date.year d) (Date.month d) (Date.day d - 1) (Date.minute d)
  else if 1 <? Date.month d
  then Date.mk (Date.year d) (Date.month d - 1)
         (daysInMonth (Date.year d) (Date.month d - 1)) (Date.minute d)
  else Date.mk (Date.year d - 1) 12 31 (Date.minute d).

Definition nextDay (d : Date.t) : Date.t :=
  if Date.day d <? daysInMonth (Date.year d) (Date.month d)
  then Date.mk (Date.year d) (Date.month d) (Date.day d + 1) (Date.minute d)
  else if Date.month d <? 12
  then Date.mk (Date.year d) (Date.month d + 1) 1 (Date.minute d)
  else Date.mk (Date.year d + 1) 1 1 (Date.minute d).

(** The calendar fields [k] minutes later, for [-1440 <= k <= 1440]. *)
Definition shiftMinutes (d : Date.t) (k : Z) : Date.t :=
  let t := Date.minute d + k in
  if t <? 0 then
    let p := prevDay d in Date.mk (Date.year p) (Date.month p) (Date.day p) (t + 1440)
  else if 1440 <=? t then
    let n := nextDay d in Date.mk (Date.year n) (Date.month n) (Date.day n) (t - 1440)
  else Date.mk (Date.year d) (Date.month d) (Date.day d) t.

(** [new Date(s)] for the date-only form [YYYY-MM-DD], which is read as
    midnight UTC; [None] is [Invalid Date].  Other forms that [Date]
    accepts (date-times, [YYYY-MM]) are outside this model. *)
Definition parseISODate (s : string) : option Date.t :=
  if negb (Nat.eqb (String.length s) 10) then None
  else if negb (String.eqb (substring 4 1 s) "-" && String.eqb (substring 7 1 s) "-")
  then None
  else
    match digitsVal 0 (substring 0 4 s),
          digitsVal 0 (substring 5 2 s),
          digitsVal 0 (substring 8 2 s) with
    | Some y, Some m, Some d =>
      if (1 <=? m) && (m <=? 12) && (1 <=? d) && (d <=? daysInMonth y m)
      then Some (Date.mk y m d 0)
      else None
    | _, _, _ => None
    end.

(** [d.getFullYear()], [d.getMonth()] (0-based) and [d.getDate()]: the
    fields of the local time. *)
Definition getFullYear (tz : Z) (d : Date.t) : Z := Date.year (shiftMinutes d tz).
Definition getMonth (tz : Z) (d : Date.t) : Z := Date.month (shiftMinutes d tz) - 1.
Definition getDate (tz : Z) (d : Date.t) : Z := Date.day (shiftMinutes d tz).

(** [new Date(y, monthIndex, day)]: local midnight.  A year in 0..99
    means 1900 + y, and a month index outside 0..11 carries into the
    year.  The source passes [day] in 1..28 only, so no day carry is
    needed. *)
Definition newDateLocal (tz : Z) (y monthIndex day : Z) : Date.t :=
  let y1 := if (0 <=? y) && (y <=? 99) then 1900 + y else y in
  shiftMinutes (Date.mk (y1 + monthIndex / 12) (monthIndex mod 12 + 1) day 0) (- tz).

(** [firstOfMonthFromYM(ym)]: [new Date(y, (m || 1) - 1, 1)]. *)
Definition firstOfMonthFromYM (tz : Z) (ym : string) : option Date.t :=
  match splitNumbers ym with
  | (Some y, m) =>
    let m1 := match m with
              | Some m => if m =? 0 then 1 else m
              | None => 1
              end in
    Some (newDateLocal tz y (m1 - 1) 1)
  | (None, _) => None
  end.

Definition digitChar (n : Z) : ascii := ascii_of_N (Z.to_N (48 + n mod 10)).

Definition pad2 (n : Z) : string :=
  String (digitChar (n / 10)) (String (digitChar n) "").

Definition pad4 (n : Z) : string :=
  String (digitChar (n / 1000)) (String (digitChar (n / 100))
    (String (digitChar (n / 10)) (String (digitChar n) ""))).

Definition pad6 (n : Z) : string :=
  String (digitChar (n / 100000)) (String (digitChar (n / 10000)) (pad4 n)).

(** The well-formed date [YYYY-MM-DD] and month key [YYYY-MM]. *)
Definition isoDate (y m d : Z) : string :=
  pad4 y ++ "-" ++ pad2 m ++ "-" ++ pad2 d.

Definition ymString (y m : Z) : string := pad4 y ++ "-" ++ pad2 m.

(** [d.toISOString().slice(0, 10)]: the UTC date.  Years outside 0..9999
    print in the expanded form with a sign and six digits, of which the
    slice keeps the part up to the month. *)
Definition toISODate (d : Date.t) : string :=
  if (0 <=? Date.year d) && (Date.year d <=? 9999)
  then isoDate (Date.year d) (Date.month d) (Date.day d)
  else (if Date.year d <? 0 then "-" else "+")
         ++ pad6 (Z.abs (Date.year d)) ++ "-" ++ pad2 (Date.month d).

(** The number of the day that starts year [y], counted from 1970-01-01
    (the language definition's [DayFromYear]). *)
Definition dayFromYear (y : Z) : Z :=
  365 * (y - 1970) + (y - 1969) / 4 - (y - 1901) / 100 + (y - 1601) / 400.

Definition daysBeforeMonth (y m : Z) : Z :=
  nth (Z.to_nat (m - 1)) [0; 31; 59; 90; 120; 151; 181; 212; 243; 273; 304; 334] 0
  + (if isLeap y && (2 <? m) then 1 else 0).

(** [d.getTime()]: milliseconds since 1970-01-01T00:00Z. *)
Definition getTime (d : Date.t) : Z :=
  ((dayFromYear (Date.year d) + daysBeforeMonth (Date.year d) (Date.month d)
    + (Date.day d - 1)) * 1440 + Date.minute d) * 60000.

(* ====================================================================== *)
(** * Recurrence projector *)
(* ====================================================================== *)

(** [monthExpensesReal] *)
Definition monthExpensesReal (expenses : list Expense.t) (month : string)
  : list Expense.t :=
  List.filter (fun e => String.eqb (ymKey (Expense.date e)) month) expenses.

(** The date of a projected row:
    [new Date(first.getFullYear(), first.getMonth(),
              Math.min(28, new Date(e.date).getDate() || 1))
       .toISOString().slice(0, 10)]
    with [first = firstOfMonthFromYM(month)].  [None]: [toISOString]
    throws on an invalid date. *)
Definition projectedDate (tz : Z) (month : string) (e : Expense.t) : option string :=
  match firstOfMonthFromYM tz month with
  | None => None
  | Some first =>
    let dom := match parseISODate (Expense.date e) with
               | Some d => getDate tz d
               | None => 1
               end in
    Some (toISODate (newDateLocal tz (getFullYear tz first) (getMonth tz first)
                       (Z.min 28 dom)))
  end.

(** The row pushed for [e]. *)
Definition projectedRow (month date : string) (e : Expense.t) : Expense.t :=
  Expense.mk (Expense.id e ++ "__proj__" ++ month) date (Expense.category e)
    (Expense.amount e) (Expense.isRecurring e) (Expense.recurrence e)
    (Expense.accountId e)
    (Some ((if truthy (Expense.notes e)
            then optOr (Expense.notes e) "" ++ " • " else "")
           ++ "(Projected)")).

(** The [forEach] loop that fills [projected]. *)
Fixpoint projectedRows (tz : Z) (month : string) (es : list Expense.t)
  : option (list Expense.t) :=
  match es with
  | [] => Some []
  | e :: rest =>
    if recurrenceOccursThisMonth e month
       && negb (String.eqb (ymKey (Expense.date e)) month)
    then match projectedDate tz month e, projectedRows tz month rest with
         | Some d, Some rows => Some (projectedRow month d e :: rows)
         | _, _ => None
         end
    else projectedRows tz month rest
  end.

(** Equality of the signatures [`${category}|${amount}|${accountId}`],
    compared by their three components. *)
Definition sameSignature (p r : Expense.t) : bool :=
  String.eqb (Expense.category p) (Expense.category r)
  && Qeq_bool (Expense.amount p) (Expense.amount r)
  && String.eqb (Expense.accountId p) (Expense.accountId r).

(** [monthExpensesProjectedOnly] *)
Definition monthExpensesProjectedOnly (tz : Z) (expenses : list Expense.t)
  (month : string) : option (list Expense.t) :=
  option_map
    (List.filter (fun p => negb (existsb (sameSignature p) (monthExpensesReal expenses month))))
    (projectedRows tz month expenses).

(* ====================================================================== *)
(** * Goal statistics *)
(* ====================================================================== *)

Module ProjectStat.
Record t := mk {
  project : Project.t;
  contributed : Q;
  remaining : Q;
  monthsLeft : option Z;
  requiredMonthly : option Q
}.
End ProjectStat.

(** One element of [projectStats]; [now] is [new Date().getTime()].
    [None] in the last two fields is [NaN] (unreadable target date). *)
Definition projectStat (now : Z) (contribs : list ProjectContribution.t)
  (p : Project.t) : ProjectStat.t :=
  let contributed :=
    fold_left (fun s c => (s + ProjectContribution.amount c)%Q)
      (List.filter (fun c => String.eqb (ProjectContribution.projectId c) (Project.id p))
              contribs)
      0%Q in
  let remaining := Qmax 0 (Project.targetAmount p - contributed) in
  let monthsLeft :=
    match parseISODate (Project.targetDate p) with
    | Some d =>
      Some (Z.max 1
              (Qceiling (inject_Z (getTime d - now)
                         / (inject_Z (1000 * 60 * 60 * 24) * (304 # 10)))%Q))
    | None => None
    end in
  let requiredMonthly :=
    option_map (fun m => toFixed2 (remaining / inject_Z m)) monthsLeft in
  ProjectStat.mk p contributed remaining monthsLeft requiredMonthly.

Definition projectStats (now : Z) (s : Store.t) : list ProjectStat.t :=
  map (projectStat now (Store.projectContribs s)) (Store.projects s).

(* ====================================================================== *)
(** * Balances derived from activity *)
(* ====================================================================== *)

(** [(map.get(k) || 0)] *)
Definition getOr0 (m : gmap string Q) (k : string) : Q :=
  match m !! k with
  | Some x => x
  | None => 0%Q
  end.

(** The [deriveBalances] branch of [hydrateFromSupabase]. *)
Definition deriveBalances (accounts : list Account.t) (incomes : list Income.t)
  (expenses : list Expense.t) (transfers : list Transfer.t)
  (investments : list Investment.t) : list Account.t :=
  let m : gmap string Q :=
    fold_left (fun m a => <[Account.id a := 0%Q]> m) accounts ∅ in
  let m :=
    fold_left
      (fun m i => <[Income.accountId i :=
                      (getOr0 m (Income.accountId i) + Income.amount i)%Q]> m)
      incomes m in
  let m :=
    fold_left
      (fun m e => <[Expense.accountId e :=
                      (getOr0 m (Expense.accountId e) - Expense.amount e)%Q]> m)
      expenses m in
  let m :=
    fold_left
      (fun m t =>
         let m1 := <[Transfer.fromAccountId t :=
                       (getOr0 m (Transfer.fromAccountId t) - Transfer.amount t)%Q]> m in
         <[Transfer.toAccountId t :=
             (getOr0 m1 (Transfer.toAccountId t) + Transfer.amount t)%Q]> m1)
      transfers m in
  let m :=
    fold_left
      (fun m v =>
         match linkedAccount (Investment.accountId v) with
         | Some a => <[a := (getOr0 m a + investmentDelta (Investment.amount v))%Q]> m
         | None => m
         end)
      investments m in
  map (fun a =>
         Account.mk (Account.id a) (Account.name a) (Account.type a)
           (toFixed2 (getOr0 m (Account.id a))) (Account.currency a))
      accounts.

(* ====================================================================== *)
(** * Histories of mutations *)
(* ====================================================================== *)

Inductive Op :=
| AddIncome (id txnId : Id) (inc : Income.t)
| DelIncome (id : Id)
| UpdateIncome (edited : Income.t)
| AddExpense (id txnId : Id) (exp : Expense.t)
| DelExpense (id : Id)
| UpdateExpense (edited : Expense.t)
| AddTransfer (id txnId1 txnId2 : Id) (tr : Transfer.t)
| DelTransfer (id : Id)
| UpdateTransfer (edited : Transfer.t)
| AddInvestment (id : Id) (v : Investment.t)
| DelInvestment (id : Id).

Definition applyOp (o : Op) (s : Store.t) : Store.t :=
  match o with
  | AddIncome id txnId inc => addIncome id txnId inc s
  | DelIncome id => delIncome id s
  | UpdateIncome edited => updateIncome edited s
  | AddExpense id txnId exp => addExpense id txnId exp s
  | DelExpense id => delExpense id s
  | UpdateExpense edited => updateExpense edited s
  | AddTransfer id t1 t2 tr => addTransfer id t1 t2 tr s
  | DelTransfer id => delTransfer id s
  | UpdateTransfer edited => updateTransfer edited s
  | AddInvestment id v => addInvestment id v s
  | DelInvestment id => delInvestment id s
  end.

Definition run (ops : list Op) (s : Store.t) : Store.t :=
  fold_left (fun s o => applyOp o s) ops s.

(** Replaying the surviving income, expense and transfer records of
    [final] on [base], each under its own id, oldest first. *)
Definition replay (base final : Store.t) : Store.t :=
  let s1 :=
    fold_right (fun i s => addIncome (Income.id i) "" i s) base
      (Store.incomes final) in
  let s2 :=
    fold_right (fun e s => addExpense (Expense.id e) "" e s) s1
      (Store.expenses final) in
  fold_right (fun t s => addTransfer (Transfer.id t) "" "" t s) s2
    (Store.transfers final).

(** A journal entry without its own id. *)
Definition stripId (t : AccountTxn.t) : AccountTxn.t :=
  AccountTxn.mk "" (AccountTxn.date t) (AccountTxn.accountId t)
    (AccountTxn.type t) (AccountTxn.amount t) (AccountTxn.linkedType t)
    (AccountTxn.linkedId t) (AccountTxn.notes t)
    (AccountTxn.transferFromId t) (AccountTxn.transferToId t).

(** Two journals hold the same entries, as sets, entry ids ignored. *)
Definition sameJournal (j1 j2 : list AccountTxn.t) : Prop :=
  forall e, In e (map stripId j1) <-> In e (map stripId j2).

(* ====================================================================== *)
(** * Observations on account lists *)
(* ====================================================================== *)

(** The balance of the account found under [id]. *)
Definition balanceOf (accounts : list Account.t) (id : Id) : option Q :=
  option_map Account.balance
    (find (fun a => String.eqb (Account.id a) id) accounts).

(** The same accounts in the same order with equal balances. *)
Definition sameBalances (l1 l2 : list Account.t) : Prop :=
  Forall2 (fun a b => Account.id a = Account.id b
                      /\ (Account.balance a == Account.balance b)%Q) l1 l2.

(** The sum of the balances, from the right. *)
Fixpoint sumBalances (accounts : list Account.t) : Q :=
  match accounts with
  | [] => 0%Q
  | a :: rest => (Account.balance a + sumBalances rest)%Q
  end.

(* ====================================================================== *)
(** * Well-formed recurrence windows *)
(* ====================================================================== *)


(** The character of the digit [d], for [0 <= d <= 9]. *)
Definition digitOf (d : Z) : ascii := ascii_of_N (Z.to_N (48 + d)).

(** A calendar date with a four-digit year. *)
Definition validDate (y m d : Z) : Prop :=
  0 <= y <= 9999 /\ 1 <= m <= 12 /\ 1 <= d <= daysInMonth y m.

(** What a projected row takes from the expense [e] it stands for. *)
Definition projectionOf (month : string) (e row : Expense.t) : Prop :=
  Expense.id row = Expense.id e ++ "__proj__" ++ month
  /\ Expense.category row = Expense.category e
  /\ Expense.amount row = Expense.amount e
  /\ Expense.accountId row = Expense.accountId e.




(* ====================================================================== *)
(** * The journal that the source records stand for *)
(* ====================================================================== *)

(** The entry that [addIncome] writes for the record [i], without its own
    id. *)
Definition incomeEntry (i : Income.t) : AccountTxn.t :=
  AccountTxn.mk "" (Income.date i) (Income.accountId i) Deposit
    (Income.amount i) LIncome (Income.id i)
    (Some (strOr (Income.source i) "Income")) None None.

(** The entry that [addExpense] writes for [e]. *)
Definition expenseEntry (e : Expense.t) : AccountTxn.t :=
  AccountTxn.mk "" (Expense.date e) (Expense.accountId e) Withdrawal
    (Expense.amount e) LExpense (Expense.id e)
    (Some (strOr (Expense.category e) "Expense")) None None.

(** The two entries that [addTransfer] writes for [t]. *)
Definition transferEntries (accounts : list Account.t) (t : Transfer.t)
  : list AccountTxn.t :=
  [AccountTxn.mk "" (Transfer.date t) (Transfer.fromAccountId t) Withdrawal
     (Transfer.amount t) LTransfer (Transfer.id t)
     (Some (optOr (Transfer.notes t)
              ("Transfer to " ++ accountName accounts (Transfer.toAccountId t) "To")))
     (Some (Transfer.fromAccountId t)) (Some (Transfer.toAccountId t));
   AccountTxn.mk "" (Transfer.date t) (Transfer.toAccountId t) Deposit
     (Transfer.amount t) LTransfer (Transfer.id t)
     (Some (optOr (Transfer.notes t)
              ("Transfer from "
               ++ accountName accounts (Transfer.fromAccountId t) "From")))
     (Some (Transfer.fromAccountId t)) (Some (Transfer.toAccountId t))].

Definition expectedOf (accounts : list Account.t) (incomes : list Income.t)
  (expenses : list Expense.t) (transfers : list Transfer.t) : list AccountTxn.t :=
  map incomeEntry incomes ++ map expenseEntry expenses
  ++ flat_map (transferEntries accounts) transfers.

Definition expectedJournal (s : Store.t) : list AccountTxn.t :=
  expectedOf (Store.accounts s) (Store.incomes s) (Store.expenses s)
    (Store.transfers s).

(** The journal holds, as a set and entry ids apart, the entries of the
    records. *)
Definition journalDerivable (s : Store.t) : Prop :=
  forall x, In x (map stripId (Store.accountTxns s)) <-> In x (expectedJournal s).

(** Every stored transfer passes the guard of [addTransfer]. *)
Definition transfersValid (s : Store.t) : Prop :=
  Forall (fun t => transferRejected t = false) (Store.transfers s).

(** Nothing recorded yet. *)
Definition ledgerEmpty (s : Store.t) : Prop :=
  Store.incomes s = [] /\ Store.expenses s = [] /\ Store.transfers s = []
  /\ Store.accountTxns s = [].

(** The mutations for which the journal stays derivable: an edited income
    or expense has a non-empty source or category, an edited transfer
    passes the guard of [addTransfer]. *)
Definition journalOp (o : Op) : bool :=
  match o with
  | UpdateIncome edited => negb (String.eqb (Income.source edited) "")
  | UpdateExpense edited => negb (String.eqb (Expense.category edited) "")
  | UpdateTransfer edited => negb (transferRejected edited)
  | _ => true
  end.

(* ====================================================================== *)
(** * The activity of an account *)
(* ====================================================================== *)

Fixpoint sumQ (l : list Q) : Q :=
  match l with
  | [] => 0%Q
  | x :: rest => (x + sumQ rest)%Q
  end.












(** The balances recomputed from the records of [s]. *)
Definition derivedAccounts (s : Store.t) : list Account.t :=
  deriveBalances (Store.accounts s) (Store.incomes s) (Store.expenses s)
    (Store.transfers s) (Store.investments s).


(* ====================================================================== *)
(** * Further observations *)
(* ====================================================================== *)

(** No journal entry is linked to the record [(ty, id)]. *)
Definition unlinked (ty : LinkedType) (id : Id) (j : list AccountTxn.t) : bool :=
  forallb (fun t => negb (linkedTo ty id t)) j.

(** Every balance is a whole number of cents. *)
Definition centBalances (accounts : list Account.t) : Prop :=
  Forall (fun a => twoDecimals (Account.balance a)) accounts.

(* ====================================================================== *)
(** * Accounts, goals and contributions: local-mode mutators *)
(* ====================================================================== *)

(** [addAccount], local branch; [id] is the [mkId ()] result.  The new
    account goes to the end of the list. *)
Definition addAccount (id : Id) (acc : Account.t) (s : Store.t) : Store.t :=
  Store.mk (Store.currency s) (Store.incomes s) (Store.expenses s)
    (Store.accounts s
     ++ [Account.mk id (Account.name acc) (Account.type acc)
           (Account.balance acc) (Account.currency acc)])
    (Store.transfers s) (Store.accountTxns s) (Store.projects s)
    (Store.projectContribs s) (Store.investments s).

(** [delAccount]: only the list of accounts is filtered. *)
Definition delAccount (id : Id) (s : Store.t) : Store.t :=
  Store.mk (Store.currency s) (Store.incomes s) (Store.expenses s)
    (List.filter (fun a => negb (String.eqb (Account.id a) id)) (Store.accounts s))
    (Store.transfers s) (Store.accountTxns s) (Store.projects s)
    (Store.projectContribs s) (Store.investments s).

(** [addProject], local branch. *)
Definition addProject (id : Id) (p : Project.t) (s : Store.t) : Store.t :=
  Store.mk (Store.currency s) (Store.incomes s) (Store.expenses s)
    (Store.accounts s) (Store.transfers s) (Store.accountTxns s)
    (Store.projects s
     ++ [Project.mk id (Project.name p) (Project.targetAmount p)
           (Project.targetDate p) (Project.notes p)])
    (Store.projectContribs s) (Store.investments s).

(** [delProject], local branch: the goal and its contributions go. *)
Definition delProject (id : Id) (s : Store.t) : Store.t :=
  Store.mk (Store.currency s) (Store.incomes s) (Store.expenses s)
    (Store.accounts s) (Store.transfers s) (Store.accountTxns s)
    (List.filter (fun p => negb (String.eqb (Project.id p) id)) (Store.projects s))
    (List.filter (fun c => negb (String.eqb (ProjectContribution.projectId c) id))
       (Store.projectContribs s))
    (Store.investments s).

(** [addProjectContribution], local branch: the contribution goes to the
    front. *)
Definition addProjectContribution (id : Id) (pc : ProjectContribution.t)
  (s : Store.t) : Store.t :=
  Store.mk (Store.currency s) (Store.incomes s) (Store.expenses s)
    (Store.accounts s) (Store.transfers s) (Store.accountTxns s)
    (Store.projects s)
    (ProjectContribution.mk id (ProjectContribution.projectId pc)
       (ProjectContribution.date pc) (ProjectContribution.amount pc)
     :: Store.projectContribs s)
    (Store.investments s).

(** [delProjectContribution], local branch. *)
Definition delProjectContribution (id : Id) (s : Store.t) : Store.t :=
  Store.mk (Store.currency s) (Store.incomes s) (Store.expenses s)
    (Store.accounts s) (Store.transfers s) (Store.accountTxns s)
    (Store.projects s)
    (List.filter (fun c => negb (String.eqb (ProjectContribution.id c) id))
       (Store.projectContribs s))
    (Store.investments s).

(** The mutations whose journal notes do not quote the name of the account
    [a]: all but the addition and the edit of a transfer from or to [a]. *)
Definition namesNot (a : Id) (o : Op) : bool :=
  match o with
  | AddTransfer _ _ _ tr | UpdateTransfer tr =>
    negb (String.eqb (Transfer.fromAccountId tr) a)
    && negb (String.eqb (Transfer.toAccountId tr) a)
  | _ => true
  end.

(** The statistics of the goal [id], when the store has such a goal. *)
Definition statOf (now : Z) (s : Store.t) (id : Id) : option ProjectStat.t :=
  find (fun st => String.eqb (Project.id (ProjectStat.project st)) id)
    (projectStats now s).

(* ====================================================================== *)
(** * Projected rows in the table of expenses *)
(* ====================================================================== *)

(** [s.includes(sub)] *)
Fixpoint includes (sub s : string) : bool :=
  String.prefix sub s
  || match s with
     | EmptyString => false
     | String _ rest => includes sub rest
     end.

(** The test by which the table of expenses tells a projected row from a
    recorded one: [String(e.id).includes("__proj__")].  A recorded row
    gets the edit and delete buttons, a projected one the label. *)
Definition isProjected (e : Expense.t) : bool :=
  includes "__proj__" (Expense.id e).

(** The recorded expenses of [month] with the signature of [e]. *)
Definition recordedAlike (expenses : list Expense.t) (month : string)
  (e : Expense.t) : bool :=
  existsb (sameSignature e) (monthExpensesReal expenses month).

(* ====================================================================== *)
(** * Monthly totals, the cards and the trend *)
(* ====================================================================== *)

(** [yearFrom]: [d?.slice(0, 4) ?? ""] *)
Definition yearFrom (d : string) : string := substring 0 4 d.

(** [Array.prototype.sort()] without a comparator, on strings: ascending
    in the order of the code units, which on the ASCII text of date keys
    is the order of [String.compare].  The sort is stable; it is written
    here as an insertion sort. *)
Fixpoint insertSorted (k : string) (l : list string) : list string :=
  match l with
  | [] => [k]
  | x :: rest => if String.leb k x then k :: l else x :: insertSorted k rest
  end.

Definition sortStrings (l : list string) : list string :=
  fold_right insertSorted [] l.

(** [Array.from(new Set(l))]: the first occurrences, in their order. *)
Fixpoint uniq (l : list string) : list string :=
  match l with
  | [] => []
  | x :: rest => x :: List.filter (fun y => negb (String.eqb y x)) (uniq rest)
  end.

Module MonthTotal.
Record t := mk {
  month : string;
  total : Q
}.
End MonthTotal.

Section MonthlyTotals.
Context {A : Type} (date : A -> string) (amount : A -> Q).

(** One step of the [forEach] of [monthlyTotals]: a row without a month
    key is skipped. *)
Definition addRow (m : gmap string Q) (r : A) : gmap string Q :=
  let k := ymKey (date r) in
  if String.eqb k "" then m else <[k := (getOr0 m k + amount r)%Q]> m.

(** [monthlyTotals(rows)].  The keys of the [Map] are sorted before they
    are used, so the order in which the [Map] holds them does not show. *)
Definition monthlyTotals (rows : list A) : list MonthTotal.t :=
  let m := fold_left addRow rows ∅ in
  let keys := sortStrings (map fst (map_to_list m)) in
  map (fun k => MonthTotal.mk k (toFixed2 (getOr0 m k))) keys.

(** [rows.filter((r) => ymKey(r.date) === month)
         .reduce((s, r) => s + r.amount, 0)] *)
Definition monthSum (rows : list A) (month : string) : Q :=
  fold_left (fun s r => (s + amount r)%Q)
    (List.filter (fun r => String.eqb (ymKey (date r)) month) rows) 0%Q.

End MonthlyTotals.


Definition expenseThisMonth (s : Store.t) (month : string) : Q :=
  fold_left (fun t e => (t + Expense.amount e)%Q)
    (monthExpensesReal (Store.expenses s) month) 0%Q.



Module TrendRow.
Record t := mk {
  month : string;
  income : Q;
  expenses : Q;
  investments : Q;
  net : Q
}.
End TrendRow.

(** [series.find((x) => x.month === m)?.total || 0] *)
Definition totalOf (series : list MonthTotal.t) (m : string) : Q :=
  match find (fun x => String.eqb (MonthTotal.month x) m) series with
  | Some x => MonthTotal.total x
  | None => 0%Q
  end.

(** [mergedTrendRaw] *)
Definition mergedTrendRaw (s : Store.t) : list TrendRow.t :=
  let incomeByMonth := monthlyTotals Income.date Income.amount (Store.incomes s) in
  let expenseByMonth := monthlyTotals Expense.date Expense.amount (Store.expenses s) in
  let investmentByMonth :=
    monthlyTotals Investment.date Investment.amount (Store.investments s) in
  map (fun m =>
         TrendRow.mk m (totalOf incomeByMonth m) (totalOf expenseByMonth m)
           (totalOf investmentByMonth m)
           (totalOf incomeByMonth m - totalOf expenseByMonth m)%Q)
      (sortStrings
         (uniq (map MonthTotal.month incomeByMonth
                ++ map MonthTotal.month expenseByMonth
                ++ map MonthTotal.month investmentByMonth))).

(* ====================================================================== *)
(** * The month switcher *)
(* ====================================================================== *)

(** [String(n)] for an integer [n]. *)
Definition stringOfZ (n : Z) : string := NilZero.string_of_int (Z.to_int n).

(** [s.padStart(2, "0")] *)
Definition padStart2 (s : string) : string :=
  match String.length s with
  | O => "00"
  | S O => "0" ++ s
  | _ => s
  end.

(** [monthKeyFromDate(d)]:
    [`${d.getFullYear()}-${String(d.getMonth() + 1).padStart(2, "0")}`] *)
Definition monthKeyFromDate (tz : Z) (d : Date.t) : string :=
  stringOfZ (getFullYear tz d) ++ "-" ++ padStart2 (stringOfZ (getMonth tz d + 1)).

(** [x.setMonth(monthIndex)] on the local fields [l] of [x]: the month
    index carries into the year, the day of the month and the time of day
    stay, and a day past the end of the new month runs over into the
    month after it (by at most three days, a month having 28 days or
    more). *)
Definition setMonthLocal (l : Date.t) (monthIndex : Z) : Date.t :=
  let y := Date.year l + monthIndex / 12 in
  let m := monthIndex mod 12 + 1 in
  if Date.day l <=? daysInMonth y m
  then Date.mk y m (Date.day l) (Date.minute l)
  else if m <? 12
  then Date.mk y (m + 1) (Date.day l - daysInMonth y m) (Date.minute l)
  else Date.mk (y + 1) 1 (Date.day l - daysInMonth y m) (Date.minute l).

(** [addMonths(d, n)]: [const x = new Date(d); x.setMonth(x.getMonth() + n)] *)
Definition addMonths (tz : Z) (d : Date.t) (n : Z) : Date.t :=
  let l := shiftMinutes d tz in
  shiftMinutes (setMonthLocal l (Date.month l - 1 + n)) (- tz).

(** Calendar fields of a date and time of day. *)
Definition validLocal (l : Date.t) : Prop :=
  1 <= Date.month l <= 12
  /\ 1 <= Date.day l <= daysInMonth (Date.year l) (Date.month l)
  /\ 0 <= Date.minute l < 1440.

(** The [Date] whose local fields are [l]. *)
Definition ofLocal (tz : Z) (l : Date.t) : Date.t := shiftMinutes l (- tz).

(* ====================================================================== *)
(** * Reloading from the cloud *)
(* ====================================================================== *)

(** The rows that the remote tables return. *)

Module SBAccountRow.
Record t := mk {
  id : string;
  name : string;
  type : AccountType;
  currency : string;
  balance : option Q
}.
End SBAccountRow.

Module SBTrxRow.
Record t := mk {
  id : string;
  trx_date : string;
  amount : Q;
  description : option string;
  account_id : string
}.
End SBTrxRow.

Module TransferRow.
Record t := mk {
  id : string;
  trx_date : string;
  from_account_id : string;
  to_account_id : string;
  amount : Q;
  notes : option string
}.
End TransferRow.

Module InvestmentRow.
Record t := mk {
  id : string;
  inv_date : string;
  instrument : string;
  amount : Q;
  account_id : option string;
  notes : option string
}.
End InvestmentRow.

Module ProjectRow.
Record t := mk {
  id : string;
  name : string;
  target_amount : Q;
  target_date : string;
  notes : option string
}.
End ProjectRow.

Module ContributionRow.
Record t := mk {
  id : string;
  project_id : string;
  date : string;
  amount : Q
}.
End ContributionRow.

(** The six lists read by [hydrateFromSupabase]. *)
Module CloudRows.
Record t := mk {
  acctRows : list SBAccountRow.t;
  txRows : list SBTrxRow.t;
  trRows : list TransferRow.t;
  invRows : list InvestmentRow.t;
  projRows : list ProjectRow.t;
  contribRows : list ContributionRow.t
}.
End CloudRows.

(** JavaScript [a < 0] on numbers. *)
Definition Qnegative (a : Q) : bool := negb (Qle_bool 0 a).

(** [o ?? d] *)
Definition orElse {A : Type} (o : option A) (d : A) : A :=
  match o with
  | Some x => x
  | None => d
  end.

Definition accountsCloud (rows : list SBAccountRow.t) : list Account.t :=
  map (fun a =>
         Account.mk (SBAccountRow.id a) (SBAccountRow.name a) (SBAccountRow.type a)
           (orElse (SBAccountRow.balance a) 0%Q)
           (if String.eqb (SBAccountRow.currency a) "KSH" then KSH else USD))
      rows.

(** The transactions with a positive amount are the incomes. *)
Definition incomesCloud (rows : list SBTrxRow.t) : list Income.t :=
  map (fun t =>
         Income.mk (SBTrxRow.id t) (SBTrxRow.trx_date t)
           (orElse (SBTrxRow.description t) "") (SBTrxRow.amount t)
           (SBTrxRow.account_id t) None)
      (List.filter (fun t => Qpositive (SBTrxRow.amount t)) rows).

(** The transactions with a negative amount are the expenses. *)
Definition expensesCloud (rows : list SBTrxRow.t) : list Expense.t :=
  map (fun t =>
         Expense.mk (SBTrxRow.id t) (SBTrxRow.trx_date t)
           (orElse (SBTrxRow.description t) "Expense") (Qabs (SBTrxRow.amount t))
           false None (SBTrxRow.account_id t) None)
      (List.filter (fun t => Qnegative (SBTrxRow.amount t)) rows).

Definition transfersCloud (rows : list TransferRow.t) : list Transfer.t :=
  map (fun t =>
         Transfer.mk (TransferRow.id t) (TransferRow.trx_date t)
           (TransferRow.from_account_id t) (TransferRow.to_account_id t)
           (TransferRow.amount t) (TransferRow.notes t))
      rows.

Definition investmentsCloud (rows : list InvestmentRow.t) : list Investment.t :=
  map (fun v =>
         Investment.mk (InvestmentRow.id v) (InvestmentRow.inv_date v)
           (InvestmentRow.instrument v) (InvestmentRow.amount v)
           (InvestmentRow.account_id v) (InvestmentRow.notes v))
      rows.

Definition projectsCloud (rows : list ProjectRow.t) : list Project.t :=
  map (fun p =>
         Project.mk (ProjectRow.id p) (ProjectRow.name p) (ProjectRow.target_amount p)
           (ProjectRow.target_date p) (ProjectRow.notes p))
      rows.

Definition projectContribsCloud (rows : list ContributionRow.t)
  : list ProjectContribution.t :=
  map (fun c =>
         ProjectContribution.mk (ContributionRow.id c) (ContributionRow.project_id c)
           (ContributionRow.date c) (ContributionRow.amount c))
      rows.

(** [mergeById(cloud, local)]: the cloud records, then the local records
    whose id no cloud record has. *)
Definition mergeById {T : Type} (id : T -> Id) (cloud local : list T) : list T :=
  let ids : gset string := list_to_set (map id cloud) in
  (cloud ++ List.filter (fun x => negb (bool_decide (id x ∈ ids))) local)%list.

(** The journal entries that the reload derives from the merged records,
    before they get their ids and are sorted. *)
Definition hydratedIncomeEntry (i : Income.t) : AccountTxn.t :=
  AccountTxn.mk "" (Income.date i) (Income.accountId i) Deposit
    (Income.amount i) LIncome (Income.id i)
    (Some (strOr (Income.source i) "Income")) None None.

Definition hydratedExpenseEntry (e : Expense.t) : AccountTxn.t :=
  AccountTxn.mk "" (Expense.date e) (Expense.accountId e) Withdrawal
    (Expense.amount e) LExpense (Expense.id e)
    (Some (strOr (Expense.category e) "Expense")) None None.

Definition hydratedTransferEntries (t : Transfer.t) : list AccountTxn.t :=
  [AccountTxn.mk "" (Transfer.date t) (Transfer.fromAccountId t) Withdrawal
     (Transfer.amount t) LTransfer (Transfer.id t)
     (Some (optOr (Transfer.notes t) "Transfer"))
     (Some (Transfer.fromAccountId t)) (Some (Transfer.toAccountId t));
   AccountTxn.mk "" (Transfer.date t) (Transfer.toAccountId t) Deposit
     (Transfer.amount t) LTransfer (Transfer.id t)
     (Some (optOr (Transfer.notes t) "Transfer"))
     (Some (Transfer.fromAccountId t)) (Some (Transfer.toAccountId t))].

(** An investment linked to an account gets an entry tagged as an
    expense. *)
Definition hydratedInvestmentEntries (v : Investment.t) : list AccountTxn.t :=
  match linkedAccount (Investment.accountId v) with
  | Some a =>
    [AccountTxn.mk "" (Investment.date v) a
       (if Qpositive (Investment.amount v) then Withdrawal else Deposit)
       (Qabs (Investment.amount v)) LExpense (Investment.id v)
       (Some (strOr (Investment.instrument v) "Investment")) None None]
  | None => []
  end.

Definition hydratedEntries (incomes : list Income.t) (expenses : list Expense.t)
  (transfers : list Transfer.t) (investments : list Investment.t)
  : list AccountTxn.t :=
  (map hydratedIncomeEntry incomes ++ map hydratedExpenseEntry expenses
   ++ flat_map hydratedTransferEntries transfers
   ++ flat_map hydratedInvestmentEntries investments)%list.

(** The entries with the results of the successive [mkId ()] calls, which
    are made in the order of the list. *)
Fixpoint withIds (mkIds : nat -> Id) (k : nat) (l : list AccountTxn.t)
  : list AccountTxn.t :=
  match l with
  | [] => []
  | t :: rest =>
    AccountTxn.mk (mkIds k) (AccountTxn.date t) (AccountTxn.accountId t)
      (AccountTxn.type t) (AccountTxn.amount t) (AccountTxn.linkedType t)
      (AccountTxn.linkedId t) (AccountTxn.notes t)
      (AccountTxn.transferFromId t) (AccountTxn.transferToId t)
    :: withIds mkIds (S k) rest
  end.

Section Hydrate.

(** [a.localeCompare(b)], which depends on the locale of the environment:
    negative, zero or positive. *)
Variable localeCompare : string -> string -> Z.

(** [.sort((a, b) => b.date.localeCompare(a.date))]: latest first; the
    sort is stable, and is written here as an insertion sort. *)
Fixpoint insertByDate (t : AccountTxn.t) (l : list AccountTxn.t)
  : list AccountTxn.t :=
  match l with
  | [] => [t]
  | x :: rest =>
    if localeCompare (AccountTxn.date x) (AccountTxn.date t) <=? 0
    then t :: l
    else x :: insertByDate t rest
  end.

Definition sortByDateDesc (l : list AccountTxn.t) : list AccountTxn.t :=
  fold_right insertByDate [] l.

(** The updater that [hydrateFromSupabase] passes to [setStore].
    [derive] is the state of the "derive balances" switch, [mkIds] gives
    the results of the [mkId ()] calls of this update. *)
Definition hydrate (derive : bool) (mkIds : nat -> Id) (rows : CloudRows.t)
  (prev : Store.t) : Store.t :=
  let accounts :=
    mergeById Account.id (accountsCloud (CloudRows.acctRows rows)) (Store.accounts prev) in
  let incomes :=
    mergeById Income.id (incomesCloud (CloudRows.txRows rows)) (Store.incomes prev) in
  let expenses :=
    mergeById Expense.id (expensesCloud (CloudRows.txRows rows)) (Store.expenses prev) in
  let transfers :=
    mergeById Transfer.id (transfersCloud (CloudRows.trRows rows))
      (Store.transfers prev) in
  let investments :=
    mergeById Investment.id (investmentsCloud (CloudRows.invRows rows))
      (Store.investments prev) in
  let projects :=
    mergeById Project.id (projectsCloud (CloudRows.projRows rows))
      (Store.projects prev) in
  let projectContribs :=
    mergeById ProjectContribution.id
      (projectContribsCloud (CloudRows.contribRows rows))
      (Store.projectContribs prev) in
  let accountTxns :=
    sortByDateDesc
      (withIds mkIds 0 (hydratedEntries incomes expenses transfers investments)) in
  let accountsForStore :=
    if derive
    then deriveBalances accounts incomes expenses transfers investments
    else accounts in
  Store.mk (Store.currency prev) incomes expenses accountsForStore transfers
    accountTxns projects projectContribs investments.

End Hydrate.

(** The local update of [addIncome] in cloud mode, made once the remote
    insert has returned: the income is put in front under a local id;
    balances and journal wait for the next reload. *)
Definition addIncomeCloud (id : Id) (inc : Income.t) (s : Store.t) : Store.t :=
  Store.mk (Store.currency s)
    (Income.mk id (Income.date inc) (Income.source inc) (Income.amount inc)
       (Income.accountId inc) (Income.notes inc)
     :: Store.incomes s)
    (Store.expenses s) (Store.accounts s) (Store.transfers s)
    (Store.accountTxns s) (Store.projects s) (Store.projectContribs s)
    (Store.investments s).

(* ====================================================================== *)
(** * Counting the journal *)
(* ====================================================================== *)

(** The number of journal entries linked to the record [id] of kind [ty]. *)
Definition linkedCount (ty : LinkedType) (id : Id) (j : list AccountTxn.t) : nat :=
  length (List.filter (linkedTo ty id) j).

(** The number of records under the id [id]. *)
Definition idCount {A : Type} (key : A -> Id) (id : Id) (l : list A) : nat :=
  length (List.filter (fun x => String.eqb (key x) id) l).

(** One journal entry per income, one per expense and two per transfer,
    in all and for every id. *)
Definition journalCounted (s : Store.t) : Prop :=
  length (Store.accountTxns s)
  = (length (Store.incomes s) + length (Store.expenses s)
     + 2 * length (Store.transfers s))%nat
  /\ forall id,
       linkedCount LIncome id (Store.accountTxns s)
       = idCount Income.id id (Store.incomes s)
       /\ linkedCount LExpense id (Store.accountTxns s)
          = idCount Expense.id id (Store.expenses s)
       /\ linkedCount LTransfer id (Store.accountTxns s)
          = (2 * idCount Transfer.id id (Store.transfers s))%nat.

(* ====================================================================== *)
(** * The filters of the trend chart *)
(* ====================================================================== *)

(** [monthFrom]: [d?.slice(5, 7) ?? ""] *)
Definition monthFrom (d : string) : string := substring 5 2 d.

Definition MONTH_LABELS : list string :=
  ["Jan"; "Feb"; "Mar"; "Apr"; "May"; "Jun";
   "Jul"; "Aug"; "Sep"; "Oct"; "Nov"; "Dec"].

(** [monthNameFromYM(ym)]; [None] is [undefined], the element of
    [MONTH_LABELS] at an index past its end. *)
Definition monthNameFromYM (ym : string) : option string :=
  match Number_ (monthFrom ym) with
  | Some m => if m =? 0 then Some ym else nth_error MONTH_LABELS (Z.to_nat (m - 1))
  | None => Some ym
  end.

(** [toLowerCase] on ASCII text.  The letters outside ASCII, which it
    also maps, do not occur in the names that the month filter offers. *)
Definition lowerChar (c : ascii) : ascii :=
  let n := N_of_ascii c in
  if ((65 <=? n) && (n <=? 90))%N then ascii_of_N (n + 32) else c.

Fixpoint toLowerCase (s : string) : string :=
  match s with
  | EmptyString => EmptyString
  | String c rest => String (lowerChar c) (toLowerCase rest)
  end.

(** [l.findIndex(p)] *)
Fixpoint findIndex {A : Type} (p : A -> bool) (l : list A) : Z :=
  match l with
  | [] => -1
  | x :: rest =>
    if p x then 0
    else let i := findIndex p rest in if i <? 0 then -1 else i + 1
  end.

(** [monthIndexFromName(name)], 0-based. *)
Definition monthIndexFromName (name : string) : Z :=
  findIndex (fun m => String.eqb (toLowerCase m) (toLowerCase name)) MONTH_LABELS.

(** A point of the chart: a row of the trend with its label. *)
Module TrendPoint.
Record t := mk {
  row : TrendRow.t;
  xLabel : option string
}.
End TrendPoint.

(** [mergedTrend] for the selections [chartYear] and [chartMonth]. *)
Definition mergedTrend (s : Store.t) (chartYear chartMonth : string)
  : list TrendPoint.t :=
  let filtered :=
    List.filter (fun row => String.eqb (yearFrom (TrendRow.month row)) chartYear)
      (mergedTrendRaw s) in
  let monthFiltered :=
    if String.eqb chartMonth "All" then filtered
    else List.filter
           (fun row =>
              let idx := monthIndexFromName chartMonth in
              match Number_ (monthFrom (TrendRow.month row)) with
              | Some n => n =? idx + 1
              | None => false
              end)
           filtered in
  map (fun r => TrendPoint.mk r (monthNameFromYM (TrendRow.month r))) monthFiltered.

(* ====================================================================== *)
(** * The table of expenses *)
(* ====================================================================== *)

Section Display.

(** [a.localeCompare(b)] of the environment. *)
Variable localeCompare : string -> string -> Z.

(** [.sort((a, b) => a.date.localeCompare(b.date))]: earliest first,
    stable; written as an insertion sort. *)
Fixpoint insertExpense (e : Expense.t) (l : list Expense.t) : list Expense.t :=
  match l with
  | [] => [e]
  | x :: rest =>
    if localeCompare (Expense.date e) (Expense.date x) <=? 0
    then e :: l
    else x :: insertExpense e rest
  end.

Definition sortExpenses (l : list Expense.t) : list Expense.t :=
  fold_right insertExpense [] l.

(** [monthExpensesForDisplay]: the recorded rows of the month and the
    projected ones, by date. *)
Definition monthExpensesForDisplay (tz : Z) (expenses : list Expense.t)
  (month : string) : option (list Expense.t) :=
  option_map
    (fun projected => sortExpenses (monthExpensesReal expenses month ++ projected))
    (monthExpensesProjectedOnly tz expenses month).

End Display.

(* ====================================================================== *)
(** * Scenarios *)
(* ====================================================================== *)

(** Two accounts, [A] holding 100 and [B] holding nothing, and nothing
    recorded yet. *)
Definition twoAccounts : Store.t :=
  Store.mk USD [] []
    [Account.mk "A" "Main" Bank 100%Q USD; Account.mk "B" "Rainy day" Savings 0%Q USD]
    [] [] [] [] [].

(** [twoAccounts] after a transfer of 50 from [A] to [B]. *)
Definition afterTransfer : Store.t :=
  addTransfer "t1" "x1" "x2"
    (Transfer.mk "" "2024-02-01" "A" "B" 50%Q None) twoAccounts.


(** The balances of a list of accounts, in lowest terms. *)
Definition balances (accounts : list Account.t) : list Q :=
  map (fun a => Qred (Account.balance a)) accounts.

(** One account without money, and a tip of 0.006 paid into it. *)
Definition subcentStore : Store.t :=
  addIncome "i1" "x1" (Income.mk "" "2024-02-01" "Tips" (3 # 500) "A" None)
    (emptyStore "A").

(** The tip corrected to 0.012. *)
Definition subcentEdit : Income.t :=
  Income.mk "i1" "2024-02-01" "Tips" (3 # 250) "A" None.


(** The rent of the recurrence scenario. *)
Definition rent : Expense.t :=
  Expense.mk "e1" "2024-01-05" "Rent" 500%Q true
    (Some (Recurrence.mk true monthly "2024-01-05" None)) "A" None.

(** The same expense recurring every quarter. *)
Definition quarterlyRent : Expense.t :=
  Expense.mk "e1" "2024-01-05" "Rent" 500%Q true
    (Some (Recurrence.mk true quarterly "2024-01-05" None)) "A" None.

(** A rent entered on the 5th whose recurrence is anchored on the 15th. *)
Definition lateAnchorRent : Expense.t :=
  Expense.mk "e2" "2024-01-05" "Rent" 500%Q true
    (Some (Recurrence.mk true monthly "2024-01-15" None)) "A" None.

(** A goal of 1200 due on 2024-09-01 with 200 contributed, and another
    goal's contribution beside it. *)
Definition goal : Project.t :=
  Project.mk "g1" "Roof" 1200%Q "2024-09-01" None.

Definition goalContribs : list ProjectContribution.t :=
  [ProjectContribution.mk "c1" "g1" "2024-01-10" 150%Q;
   ProjectContribution.mk "c2" "g2" "2024-01-11" 75%Q;
   ProjectContribution.mk "c3" "g1" "2024-02-10" 50%Q].

(** A salary is recorded, then edited with the source left empty. *)
Definition blankSourceHistory : list Op :=
  [AddIncome "i1" "x1" (Income.mk "" "2024-02-01" "Salary" 1000%Q "A" None);
   UpdateIncome (Income.mk "i1" "2024-02-02" "" 1200%Q "A" None)].

(** A history over two accounts that adds, edits and deletes records of
    the three kinds. *)
Definition mixedHistory : list Op :=
  [AddIncome "i1" "x1" (Income.mk "" "2024-02-01" "Salary" 1000%Q "A" None);
   AddExpense "e1" "x2"
     (Expense.mk "" "2024-02-02" "Rent" 500%Q false None "A" None);
   AddTransfer "t1" "x3" "x4" (Transfer.mk "" "2024-02-03" "A" "B" 200%Q None);
   UpdateIncome (Income.mk "i1" "2024-02-01" "Salary" 1100%Q "B" None);
   AddIncome "i2" "x5" (Income.mk "" "2024-02-04" "" (25 # 2) "A" None);
   UpdateTransfer (Transfer.mk "t1" "2024-02-05" "B" "A" 50%Q (Some "back"));
   DelExpense "e1";
   UpdateExpense (Expense.mk "e1" "2024-02-02" "Rent" 510%Q false None "A" None);
   AddExpense "e2" "x6"
     (Expense.mk "" "2024-02-06" "Food" (333 # 10) false None "B" None)].

(** Two accounts without money. *)
Definition zeroAccounts : Store.t :=
  Store.mk USD [] []
    [Account.mk "A" "Main" Bank 0%Q USD; Account.mk "B" "Rainy day" Savings 0%Q USD]
    [] [] [] [] [].



(** A withdrawal from an investment, recorded and then deleted. *)
Definition withdrawalHistory : list Op :=
  [AddInvestment "v1" (Investment.mk "" "2024-02-04" "MMF" (-50)%Q (Some "A") None);
   DelInvestment "v1"].

(** A goal with contributions of its own and of another goal. *)
Definition goalStore : Store.t :=
  Store.mk USD [] [] [] [] []
    [goal; Project.mk "g2" "Bike" 300%Q "2024-09-01" None]
    (ProjectContribution.mk "c9" "g2" "2024-01-05" 50%Q :: goalContribs) [].

(** A store with incomes and expenses over three months, one row without
    a date. *)
Definition trendStore : Store.t :=
  Store.mk USD
    [Income.mk "i1" "2024-02-03" "Salary" 1000%Q "A" None;
     Income.mk "i2" "2023-12-20" "Bonus" (2505 # 10) "A" None;
     Income.mk "i3" "2024-02-17" "Refund" (1999 # 100) "A" None;
     Income.mk "i4" "" "Undated" 5%Q "A" None]
    [Expense.mk "e1" "2024-02-05" "Rent" 500%Q false None "A" None;
     Expense.mk "e2" "2024-01-09" "Food" (4525 # 100) false None "A" None]
    [Account.mk "A" "Main" Bank 0%Q USD] [] [] [] []
    [Investment.mk "v1" "2024-03-01" "Bond" 200%Q None None].

(** Rows of the remote tables: two accounts, a salary, a purchase and a
    row of amount zero, one transfer and one investment. *)
Definition cloudRows : CloudRows.t :=
  CloudRows.mk
    [SBAccountRow.mk "A" "Main" Bank "USD" (Some 10%Q);
     SBAccountRow.mk "B" "Mpesa" Wallet "KSH" None]
    [SBTrxRow.mk "r1" "2024-02-03" 1000%Q (Some "Salary") "A";
     SBTrxRow.mk "r2" "2024-02-05" (- (45 # 1)) None "A";
     SBTrxRow.mk "r3" "2024-02-06" 0%Q (Some "Void") "A"]
    [TransferRow.mk "t1" "2024-02-07" "A" "B" 200%Q None]
    [InvestmentRow.mk "v1" "2024-02-08" "Bond" 300%Q (Some "A") None]
    [] [].

(** The comparison of dates by their bytes, as a [localeCompare]. *)
Definition byteCompare (a b : string) : Z :=
  match String.compare a b with
  | Lt => -1
  | Eq => 0
  | Gt => 1
  end.

(** Successive ids [k0], [k1], ... *)
Definition countIds (k : nat) : Id := "k" ++ stringOfZ (Z.of_nat k).

(** The rent of January, which recurs, and a purchase of March. *)
Definition rentStore : Store.t :=
  Store.mk USD []
    [rent; Expense.mk "e2" "2024-03-09" "Food" (4525 # 100) false None "A" None]
    [Account.mk "A" "Main" Bank 0%Q USD] [] [] [] [] [].

(* ====================================================================== *)
(** * Properties *)
(* ====================================================================== *)

Example toFixed2_ex1 : toFixed2 (1 # 250) = 0 # 100.
Proof. reflexivity. Qed.

Example getTime_ex1 : getTime (Date.mk 1970 1 1 0) = 0.
Proof. reflexivity. Qed.

Example getTime_ex2 : getTime (Date.mk 2024 3 1 0) = 1709251200000.
Proof. reflexivity. Qed.

Example getTime_ex3 : getTime (Date.mk 2000 12 31 0) = 978220800000.
Proof. reflexivity. Qed.

Example parse_ex1 : parseISODate "2024-01-05" = Some (Date.mk 2024 1 5 0).
Proof. reflexivity. Qed.

Example iso_ex1 : toISODate (Date.mk 2024 3 5 0) = "2024-03-05".
Proof. reflexivity. Qed.

Example monthsDiff_ex1 : monthsDiff "2024-01" "2024-04" = Some 3.
Proof. reflexivity. Qed.

(** ** Rounding to cents *)

Lemma twoDecimals_iff (x : Q) : twoDecimals x <-> exists c : Z, (x == c # 100)%Q.
Proof.
  unfold twoDecimals, Qeq. destruct x as [n d]. simpl. split.
  - intros H. apply Z.mod_divide in H; [| discriminate].
    destruct H as [c Hc]. exists c. lia.
  - intros [c Hc]. apply Z.mod_divide; [discriminate |]. exists c. lia.
Qed.

Lemma toFixed2_eq (x y : Q) : (x == y)%Q -> toFixed2 x = toFixed2 y.
Proof.
  intros H. unfold toFixed2.
  assert (Hf : Qfloor (Qabs x * 100 + (1 # 2)) = Qfloor (Qabs y * 100 + (1 # 2))).
  { apply Qfloor_comp. rewrite H. reflexivity. }
  assert (Hb : Qle_bool 0 x = Qle_bool 0 y).
  { destruct (Qle_bool 0 x) eqn:E1, (Qle_bool 0 y) eqn:E2; try reflexivity.
    - apply Qle_bool_iff in E1. rewrite H in E1. apply Qle_bool_iff in E1. congruence.
    - apply Qle_bool_iff in E2. rewrite <- H in E2. apply Qle_bool_iff in E2. congruence. }
  rewrite Hf, Hb. reflexivity.
Qed.

Lemma toFixed2_cents (c : Z) : (toFixed2 (c # 100) == c # 100)%Q.
Proof.
  unfold toFixed2.
  assert (Hfl : Qfloor (Qabs (c # 100) * 100 + (1 # 2)) = Z.abs c).
  { unfold Qfloor, Qabs, Qmult, Qplus. simpl.
    symmetry. apply Z.div_unique with (r := 100); lia. }
  rewrite Hfl.
  destruct (Qle_bool 0 (c # 100)) eqn:E.
  - apply Qle_bool_iff in E. unfold Qle in E. simpl in E.
    unfold Qeq. simpl. lia.
  - assert (~ (0 <= c # 100)%Q) as E' by (intros E'; apply Qle_bool_iff in E'; congruence).
    unfold Qle in E'. simpl in E'. unfold Qeq. simpl. lia.
Qed.

Lemma toFixed2_twoDecimals (x : Q) : twoDecimals x -> (toFixed2 x == x)%Q.
Proof.
  intros H. apply twoDecimals_iff in H. destruct H as [c Hc].
  rewrite (toFixed2_eq _ _ Hc). rewrite Hc. apply toFixed2_cents.
Qed.

Lemma twoDecimals_toFixed2 (x : Q) : twoDecimals (toFixed2 x).
Proof.
  apply twoDecimals_iff. unfold toFixed2.
  destruct (Qle_bool 0 x); eexists; reflexivity.
Qed.



Lemma twoDecimals_plus (x y : Q) :
  twoDecimals x -> twoDecimals y -> twoDecimals (x + y).
Proof.
  intros Hx Hy. apply twoDecimals_iff in Hx, Hy. apply twoDecimals_iff.
  destruct Hx as [a Ha], Hy as [b Hb]. exists (a + b).
  rewrite Ha, Hb. unfold Qeq, Qplus. simpl. lia.
Qed.

Lemma twoDecimals_opp (x : Q) : twoDecimals x -> twoDecimals (- x).
Proof.
  intros Hx. apply twoDecimals_iff in Hx. apply twoDecimals_iff.
  destruct Hx as [a Ha]. exists (- a). rewrite Ha. reflexivity.
Qed.

Lemma twoDecimals_minus (x y : Q) :
  twoDecimals x -> twoDecimals y -> twoDecimals (x - y).
Proof.
  intros Hx Hy. unfold Qminus. apply twoDecimals_plus; [| apply twoDecimals_opp]; assumption.
Qed.

Lemma toFixed2_plus (b d : Q) :
  twoDecimals b -> twoDecimals d -> (toFixed2 (b + d) == b + d)%Q.
Proof. intros Hb Hd. apply toFixed2_twoDecimals, twoDecimals_plus; assumption. Qed.

(** ** Deletions *)

Section FindFilter.
Context {A : Type} (key : A -> string).

Lemma find_filter_other (id : string) (l : list A) :
  find (fun x => String.eqb (key x) id)
       (List.filter (fun x => negb (String.eqb (key x) id)) l) = None.
Proof.
  induction l as [| x l IH]; simpl; [reflexivity |].
  destruct (String.eqb (key x) id) eqn:E; simpl; [exact IH |].
  rewrite E. exact IH.
Qed.

Lemma find_absent (id : string) (l : list A) :
  ~ In id (map key l) -> find (fun x => String.eqb (key x) id) l = None.
Proof.
  induction l as [| x l IH]; simpl; intros H; [reflexivity |].
  destruct (String.eqb_spec (key x) id) as [E | E].
  - exfalso. apply H. left. exact E.
  - apply IH. intros Hin. apply H. right. exact Hin.
Qed.

End FindFilter.

Lemma delIncome_again (id : Id) (s : Store.t) :
  delIncome id (delIncome id s) = delIncome id s.
Proof.
  unfold delIncome at 2 3.
  destruct (find _ (Store.incomes s)) eqn:E.
  - unfold delIncome. simpl.
    rewrite (find_filter_other Income.id). reflexivity.
  - unfold delIncome. rewrite E. reflexivity.
Qed.

Lemma delExpense_again (id : Id) (s : Store.t) :
  delExpense id (delExpense id s) = delExpense id s.
Proof.
  unfold delExpense at 2 3.
  destruct (find _ (Store.expenses s)) eqn:E.
  - unfold delExpense. simpl.
    rewrite (find_filter_other Expense.id). reflexivity.
  - unfold delExpense. rewrite E. reflexivity.
Qed.

Lemma delTransfer_again (id : Id) (s : Store.t) :
  delTransfer id (delTransfer id s) = delTransfer id s.
Proof.
  unfold delTransfer at 2 3.
  destruct (find _ (Store.transfers s)) eqn:E.
  - unfold delTransfer. simpl.
    rewrite (find_filter_other Transfer.id). reflexivity.
  - unfold delTransfer. rewrite E. reflexivity.
Qed.

Lemma delInvestment_again (id : Id) (s : Store.t) :
  delInvestment id (delInvestment id s) = delInvestment id s.
Proof.
  unfold delInvestment at 2 3.
  destruct (find _ (Store.investments s)) eqn:E.
  - unfold delInvestment. simpl.
    rewrite (find_filter_other Investment.id). reflexivity.
  - unfold delInvestment. rewrite E. reflexivity.
Qed.

(** C6.  Each of [delIncome], [delExpense], [delTransfer] and
    [delInvestment] applied twice with the same id gives the store that one
    application gives, and with an id that its collection does not hold it
    returns the store it was given. *)
Theorem delete_idempotent (s : Store.t) (id : Id) :
  (delIncome id (delIncome id s) = delIncome id s
   /\ delExpense id (delExpense id s) = delExpense id s
   /\ delTransfer id (delTransfer id s) = delTransfer id s
   /\ delInvestment id (delInvestment id s) = delInvestment id s)
  /\ (~ In id (map Income.id (Store.incomes s)) -> delIncome id s = s)
  /\ (~ In id (map Expense.id (Store.expenses s)) -> delExpense id s = s)
  /\ (~ In id (map Transfer.id (Store.transfers s)) -> delTransfer id s = s)
  /\ (~ In id (map Investment.id (Store.investments s)) -> delInvestment id s = s).
Proof.
  split; [| repeat split].
  - auto using delIncome_again, delExpense_again, delTransfer_again,
      delInvestment_again.
  - intros H. unfold delIncome. rewrite (find_absent Income.id _ _ H). reflexivity.
  - intros H. unfold delExpense. rewrite (find_absent Expense.id _ _ H). reflexivity.
  - intros H. unfold delTransfer. rewrite (find_absent Transfer.id _ _ H). reflexivity.
  - intros H. unfold delInvestment. rewrite (find_absent Investment.id _ _ H). reflexivity.
Qed.

Lemma delete_idempotent_witness :
  delTransfer "t1" (delTransfer "t1" afterTransfer) = delTransfer "t1" afterTransfer
  /\ delTransfer "t9" afterTransfer = afterTransfer.
Proof.
  split.
  - exact (proj1 (proj2 (proj2 (proj1 (delete_idempotent afterTransfer "t1"))))).
  - apply (proj1 (proj2 (proj2 (proj2 (delete_idempotent afterTransfer "t9"))))).
    vm_compute. intros [H | []]. discriminate H.
Defined.

(** ** Investments and the journal *)

(** C10.  In local mode neither [addInvestment] nor [delInvestment]
    touches the journal, whether or not the investment names an account. *)
Theorem investment_keeps_journal (id : Id) (v : Investment.t) (s : Store.t) :
  Store.accountTxns (addInvestment id v s) = Store.accountTxns s
  /\ Store.accountTxns (delInvestment id s) = Store.accountTxns s.
Proof.
  split.
  - reflexivity.
  - unfold delInvestment.
    destruct (find _ (Store.investments s)); reflexivity.
Qed.

(** ** Transfer validation *)

Lemma addTransfer_rejected (id txnId1 txnId2 : Id) (tr : Transfer.t) (s : Store.t) :
  transferRejected tr = true -> addTransfer id txnId1 txnId2 tr s = s.
Proof. intros H. unfold addTransfer. rewrite H. reflexivity. Qed.


(** ** Transfers move money between two accounts *)

Lemma balanceOf_adjust_same (l : list Account.t) (id : Id) (delta b : Q) :
  balanceOf l id = Some b ->
  balanceOf (adjust l id delta) id = Some (toFixed2 (b + delta)).
Proof.
  unfold balanceOf, adjust.
  induction l as [| a l IH]; simpl; [discriminate |].
  destruct (String.eqb (Account.id a) id) eqn:E; simpl.
  - rewrite E. simpl. intros H. injection H as <-. reflexivity.
  - rewrite E. exact IH.
Qed.

Lemma balanceOf_adjust_other (l : list Account.t) (id id' : Id) (delta : Q) :
  id' <> id -> balanceOf (adjust l id delta) id' = balanceOf l id'.
Proof.
  intros Hne. unfold balanceOf, adjust.
  induction l as [| a l IH]; simpl; [reflexivity |].
  destruct (String.eqb_spec (Account.id a) id) as [E | E]; simpl.
  - destruct (String.eqb_spec (Account.id a) id') as [E' | E'].
    + congruence.
    + exact IH.
  - destruct (String.eqb (Account.id a) id'); [reflexivity | exact IH].
Qed.

Lemma adjust_absent (l : list Account.t) (id : Id) (delta : Q) :
  ~ In id (map Account.id l) -> adjust l id delta = l.
Proof.
  unfold adjust. induction l as [| a l IH]; simpl; intros H; [reflexivity |].
  destruct (String.eqb_spec (Account.id a) id) as [E | E].
  - exfalso. apply H. left. exact E.
  - f_equal. apply IH. intros Hin. apply H. right. exact Hin.
Qed.


Lemma fold_balances_acc (l : list Account.t) (acc : Q) :
  (fold_left (fun s a => s + Account.balance a) l acc == acc + sumBalances l)%Q.
Proof.
  revert acc. induction l as [| a l IH]; intros acc; simpl.
  - ring.
  - rewrite IH. ring.
Qed.

Lemma totalAccountBalances_sum (l : list Account.t) :
  (totalAccountBalances l == sumBalances l)%Q.
Proof. unfold totalAccountBalances. rewrite fold_balances_acc. ring. Qed.





(** ** An edit against a deletion followed by an addition *)

Lemma sameBalances_refl (l : list Account.t) : sameBalances l l.
Proof.
  induction l as [| a l IH]; constructor; [| exact IH].
  split; reflexivity.
Qed.

Lemma adjust_net_delta (l : list Account.t) (id : Id) (o n : Q) :
  Forall (fun a => twoDecimals (Account.balance a)) l ->
  twoDecimals o -> twoDecimals n ->
  sameBalances (adjust l id (n - o)) (adjust (adjust l id (- o)) id n).
Proof.
  intros Hl Ho Hn. induction Hl as [| a l Ha Hl IH]; [constructor |].
  unfold adjust in *. simpl. constructor; [| exact IH].
  destruct (String.eqb (Account.id a) id) eqn:E; simpl.
  - rewrite E. simpl. split; [reflexivity |].
    rewrite (toFixed2_plus _ (n - o)) by auto using twoDecimals_minus.
    rewrite (toFixed2_plus _ n) by auto using twoDecimals_toFixed2.
    rewrite (toFixed2_plus _ (- o)) by auto using twoDecimals_opp.
    ring.
  - rewrite E. split; reflexivity.
Qed.

Lemma adjust_net_delta_neg (l : list Account.t) (id : Id) (o n : Q) :
  Forall (fun a => twoDecimals (Account.balance a)) l ->
  twoDecimals o -> twoDecimals n ->
  sameBalances (adjust l id (- (n - o))) (adjust (adjust l id o) id (- n)).
Proof.
  intros Hl Ho Hn. induction Hl as [| a l Ha Hl IH]; [constructor |].
  unfold adjust in *. simpl. constructor; [| exact IH].
  destruct (String.eqb (Account.id a) id) eqn:E; simpl.
  - rewrite E. simpl. split; [reflexivity |].
    rewrite (toFixed2_plus _ (- (n - o)))
      by auto using twoDecimals_minus, twoDecimals_opp.
    rewrite (toFixed2_plus _ (- n))
      by auto using twoDecimals_toFixed2, twoDecimals_opp.
    rewrite (toFixed2_plus _ o) by assumption.
    ring.
  - rewrite E. split; reflexivity.
Qed.

Lemma updateIncome_balances
  (s : Store.t) (original edited : Income.t) (newId txnId : Id) :
  find (fun i => String.eqb (Income.id i) (Income.id edited)) (Store.incomes s)
  = Some original ->
  Forall (fun a => twoDecimals (Account.balance a)) (Store.accounts s) ->
  twoDecimals (Income.amount original) ->
  twoDecimals (Income.amount edited) ->
  sameBalances
    (Store.accounts (updateIncome edited s))
    (Store.accounts (addIncome newId txnId edited (delIncome (Income.id edited) s))).
Proof.
  intros Hfind Hl Ho Hn. unfold updateIncome, delIncome. rewrite Hfind.
  unfold addIncome. simpl.
  destruct (String.eqb_spec (Income.accountId original) (Income.accountId edited))
    as [E | E]; simpl.
  - rewrite E. apply adjust_net_delta; assumption.
  - apply sameBalances_refl.
Qed.

Lemma updateExpense_balances
  (s : Store.t) (original edited : Expense.t) (newId txnId : Id) :
  find (fun e => String.eqb (Expense.id e) (Expense.id edited)) (Store.expenses s)
  = Some original ->
  Forall (fun a => twoDecimals (Account.balance a)) (Store.accounts s) ->
  twoDecimals (Expense.amount original) ->
  twoDecimals (Expense.amount edited) ->
  sameBalances
    (Store.accounts (updateExpense edited s))
    (Store.accounts (addExpense newId txnId edited (delExpense (Expense.id edited) s))).
Proof.
  intros Hfind Hl Ho Hn. unfold updateExpense, delExpense. rewrite Hfind.
  unfold addExpense. simpl.
  destruct (String.eqb_spec (Expense.accountId original) (Expense.accountId edited))
    as [E | E]; simpl.
  - rewrite E. apply adjust_net_delta_neg; assumption.
  - apply sameBalances_refl.
Qed.

Lemma updateTransfer_balances
  (s : Store.t) (original edited : Transfer.t) (newId txnId1 txnId2 : Id) :
  find (fun t => String.eqb (Transfer.id t) (Transfer.id edited)) (Store.transfers s)
  = Some original ->
  transferRejected edited = false ->
  Store.accounts (updateTransfer edited s)
  = Store.accounts
      (addTransfer newId txnId1 txnId2 edited (delTransfer (Transfer.id edited) s)).
Proof.
  intros Hfind Hok. unfold updateTransfer, delTransfer. rewrite Hfind.
  unfold addTransfer. rewrite Hok. reflexivity.
Qed.

(** C4, as the code has it.  Where the store holds a record under the id
    of the edited one, the edit leaves the balances that deleting that
    record and then adding the edited one under a new id leaves, also when
    the edit names other accounts: for an income or an expense when the
    balances and both amounts are whole numbers of cents, and for a
    transfer when the edited transfer has two different sides and a
    positive amount. *)
Theorem update_as_delete_then_add (s : Store.t) :
  (forall (original edited : Income.t) (newId txnId : Id),
      find (fun i => String.eqb (Income.id i) (Income.id edited)) (Store.incomes s)
      = Some original ->
      Forall (fun a => twoDecimals (Account.balance a)) (Store.accounts s) ->
      twoDecimals (Income.amount original) ->
      twoDecimals (Income.amount edited) ->
      sameBalances
        (Store.accounts (updateIncome edited s))
        (Store.accounts
           (addIncome newId txnId edited (delIncome (Income.id edited) s))))
  /\ (forall (original edited : Expense.t) (newId txnId : Id),
      find (fun e => String.eqb (Expense.id e) (Expense.id edited)) (Store.expenses s)
      = Some original ->
      Forall (fun a => twoDecimals (Account.balance a)) (Store.accounts s) ->
      twoDecimals (Expense.amount original) ->
      twoDecimals (Expense.amount edited) ->
      sameBalances
        (Store.accounts (updateExpense edited s))
        (Store.accounts
           (addExpense newId txnId edited (delExpense (Expense.id edited) s))))
  /\ (forall (original edited : Transfer.t) (newId txnId1 txnId2 : Id),
      find (fun t => String.eqb (Transfer.id t) (Transfer.id edited))
           (Store.transfers s)
      = Some original ->
      transferRejected edited = false ->
      sameBalances
        (Store.accounts (updateTransfer edited s))
        (Store.accounts
           (addTransfer newId txnId1 txnId2 edited
              (delTransfer (Transfer.id edited) s)))).
Proof.
  repeat split.
  - intros. eapply updateIncome_balances; eassumption.
  - intros. eapply updateExpense_balances; eassumption.
  - intros original edited newId txnId1 txnId2 Hfind Hok.
    rewrite (updateTransfer_balances s original edited newId txnId1 txnId2 Hfind Hok).
    apply sameBalances_refl.
Qed.

Lemma update_as_delete_then_add_witness :
  let edited := Transfer.mk "t1" "2024-02-03" "B" "A" 20%Q None in
  sameBalances
    (Store.accounts (updateTransfer edited afterTransfer))
    (Store.accounts
       (addTransfer "t2" "x3" "x4" edited (delTransfer "t1" afterTransfer))).
Proof.
  intros edited.
  apply (proj2 (proj2 (update_as_delete_then_add afterTransfer))
           (Transfer.mk "t1" "2024-02-01" "A" "B" 50%Q None) edited "t2" "x3" "x4").
  - reflexivity.
  - reflexivity.
Defined.

(** C4 as worded fails below one cent.  [subcentStore] holds an income of
    0.006 and the balance 0.01 that adding it left; correcting the amount
    to 0.012 by [updateIncome] leaves 0.02, while deleting the income and
    adding the corrected one leaves 0.01. *)
Lemma update_subcent_counterexample :
  find (fun i => String.eqb (Income.id i) (Income.id subcentEdit))
       (Store.incomes subcentStore)
  = Some (Income.mk "i1" "2024-02-01" "Tips" (3 # 500) "A" None)
  /\ balances (Store.accounts (updateIncome subcentEdit subcentStore)) = [1 # 50]
  /\ balances (Store.accounts
                 (addIncome "i2" "x2" subcentEdit (delIncome "i1" subcentStore)))
     = [1 # 100]
  /\ ~ sameBalances
         (Store.accounts (updateIncome subcentEdit subcentStore))
         (Store.accounts
            (addIncome "i2" "x2" subcentEdit (delIncome "i1" subcentStore))).
Proof.
  repeat split; try (vm_compute; reflexivity).
  intros H. inversion H as [| a b l1 l2 [_ Hb] Hrest]; subst.
  vm_compute in Hb. discriminate Hb.
Qed.

(** ** Month keys: digits, parsing and order *)

Lemma N_of_digitOf (d : Z) :
  0 <= d <= 9 -> Z.of_N (N_of_ascii (digitOf d)) = 48 + d.
Proof.
  intros H. unfold digitOf. rewrite N_ascii_embedding; lia.
Qed.

Lemma digitVal_digitOf (d : Z) : 0 <= d <= 9 -> digitVal (digitOf d) = Some d.
Proof.
  intros H. unfold digitVal. rewrite N_of_digitOf by exact H.
  replace (48 <=? 48 + d) with true by (symmetry; apply Z.leb_le; lia).
  replace (48 + d <=? 57) with true by (symmetry; apply Z.leb_le; lia).
  simpl. f_equal. lia.
Qed.

Lemma digitOf_not_dash (d : Z) : 0 <= d <= 9 -> Ascii.eqb (digitOf d) "-"%char = false.
Proof.
  intros H. apply Ascii.eqb_neq. intros E.
  apply (f_equal N_of_ascii) in E. apply (f_equal Z.of_N) in E.
  rewrite N_of_digitOf in E by exact H. simpl in E. lia.
Qed.

Lemma compare_digitOf (a b : Z) :
  0 <= a <= 9 -> 0 <= b <= 9 ->
  Ascii.compare (digitOf a) (digitOf b) = (a ?= b).
Proof.
  intros Ha Hb. unfold Ascii.compare.
  rewrite <- N2Z.inj_compare. rewrite !N_of_digitOf by assumption.
  apply Z.add_compare_mono_l.
Qed.

Lemma pad4_digits (n : Z) :
  0 <= n <= 9999 ->
  exists d3 d2 d1 d0,
    0 <= d3 <= 9 /\ 0 <= d2 <= 9 /\ 0 <= d1 <= 9 /\ 0 <= d0 <= 9
    /\ n = 1000 * d3 + 100 * d2 + 10 * d1 + d0
    /\ pad4 n = String (digitOf d3) (String (digitOf d2)
                  (String (digitOf d1) (String (digitOf d0) ""))).
Proof.
  intros H.
  exists ((n / 1000) mod 10), ((n / 100) mod 10), ((n / 10) mod 10), (n mod 10).
  pose proof (Z.mod_pos_bound (n / 1000) 10 ltac:(lia)).
  pose proof (Z.mod_pos_bound (n / 100) 10 ltac:(lia)).
  pose proof (Z.mod_pos_bound (n / 10) 10 ltac:(lia)).
  pose proof (Z.mod_pos_bound n 10 ltac:(lia)).
  pose proof (Z.div_mod n 10 ltac:(lia)).
  pose proof (Z.div_mod (n / 10) 10 ltac:(lia)).
  pose proof (Z.div_mod (n / 100) 10 ltac:(lia)).
  pose proof (Z.div_mod (n / 1000) 10 ltac:(lia)).
  assert (n / 10 / 10 = n / 100) by (rewrite Z.div_div by lia; reflexivity).
  assert (n / 100 / 10 = n / 1000) by (rewrite Z.div_div by lia; reflexivity).
  assert (n / 1000 / 10 = 0).
  { rewrite Z.div_div by lia. apply Z.div_small. simpl. lia. }
  repeat split; try lia.
Qed.

Lemma pad2_digits (n : Z) :
  0 <= n <= 99 ->
  exists d1 d0,
    0 <= d1 <= 9 /\ 0 <= d0 <= 9 /\ n = 10 * d1 + d0
    /\ pad2 n = String (digitOf d1) (String (digitOf d0) "").
Proof.
  intros H. exists ((n / 10) mod 10), (n mod 10).
  pose proof (Z.mod_pos_bound (n / 10) 10 ltac:(lia)).
  pose proof (Z.mod_pos_bound n 10 ltac:(lia)).
  pose proof (Z.div_mod n 10 ltac:(lia)).
  pose proof (Z.div_mod (n / 10) 10 ltac:(lia)).
  assert (n / 10 / 10 = 0).
  { rewrite Z.div_div by lia. apply Z.div_small. simpl. lia. }
  repeat split; try lia.
Qed.

Lemma ymKey_isoDate (y m d : Z) : ymKey (isoDate y m d) = ymString y m.
Proof. reflexivity. Qed.

Lemma splitNumbers_ymString (y m : Z) :
  0 <= y <= 9999 -> 0 <= m <= 99 ->
  splitNumbers (ymString y m) = (Some y, Some m).
Proof.
  intros Hy Hm.
  destruct (pad4_digits y Hy) as (d3 & d2 & d1 & d0 & H3 & H2 & H1 & H0 & Ey & Ep).
  destruct (pad2_digits m Hm) as (e1 & e0 & G1 & G0 & Em & Eq2).
  unfold splitNumbers, ymString. rewrite Ep, Eq2. simpl.
  rewrite !digitOf_not_dash by assumption. simpl.
  unfold Number_. simpl.
  rewrite !digitVal_digitOf by assumption. simpl.
  f_equal; f_equal; lia.
Qed.

Lemma compare_ymString (y1 m1 y2 m2 : Z) :
  0 <= y1 <= 9999 -> 1 <= m1 <= 12 -> 0 <= y2 <= 9999 -> 1 <= m2 <= 12 ->
  String.compare (ymString y1 m1) (ymString y2 m2)
  = (y1 * 12 + m1 ?= y2 * 12 + m2).
Proof.
  intros Hy1 Hm1 Hy2 Hm2.
  destruct (pad4_digits y1 Hy1) as (a3 & a2 & a1 & a0 & A3 & A2 & A1 & A0 & Ey1 & Ep1).
  destruct (pad4_digits y2 Hy2) as (b3 & b2 & b1 & b0 & B3 & B2 & B1 & B0 & Ey2 & Ep2).
  destruct (pad2_digits m1 ltac:(lia)) as (c1 & c0 & C1 & C0 & Em1 & Eq1).
  destruct (pad2_digits m2 ltac:(lia)) as (e1 & e0 & E1 & E0 & Em2 & Eq2).
  unfold ymString. rewrite Ep1, Ep2, Eq1, Eq2. simpl.
  rewrite !compare_digitOf by assumption.
  symmetry.
  destruct (Z.compare_spec a3 b3); [| apply Z.compare_lt_iff; lia | apply Z.compare_gt_iff; lia].
  destruct (Z.compare_spec a2 b2); [| apply Z.compare_lt_iff; lia | apply Z.compare_gt_iff; lia].
  destruct (Z.compare_spec a1 b1); [| apply Z.compare_lt_iff; lia | apply Z.compare_gt_iff; lia].
  destruct (Z.compare_spec a0 b0); [| apply Z.compare_lt_iff; lia | apply Z.compare_gt_iff; lia].
  change (Ascii.compare "-" "-") with Eq. cbv iota.
  destruct (Z.compare_spec c1 e1); [| apply Z.compare_lt_iff; lia | apply Z.compare_gt_iff; lia].
  destruct (Z.compare_spec c0 e0); [| apply Z.compare_lt_iff; lia | apply Z.compare_gt_iff; lia].
  apply Z.compare_eq_iff. lia.
Qed.

Lemma ymString_not_empty (y m : Z) : String.eqb (ymString y m) "" = false.
Proof. reflexivity. Qed.

Lemma isoDate_not_empty (y m d : Z) : String.eqb (isoDate y m d) "" = false.
Proof. reflexivity. Qed.

(** ** The occurrence test *)







(** ** The recurrence projector *)

Lemma shiftMinutes_0 (y m d : Z) :
  shiftMinutes (Date.mk y m d 0) 0 = Date.mk y m d 0.
Proof. reflexivity. Qed.

Lemma newDateLocal_utc (y m d : Z) :
  100 <= y -> 1 <= m <= 12 -> newDateLocal 0 y (m - 1) d = Date.mk y m d 0.
Proof.
  intros Hy Hm. unfold newDateLocal.
  replace ((0 <=? y) && (y <=? 99)) with false
    by (symmetry; apply andb_false_iff; right; apply Z.leb_gt; lia).
  rewrite Z.div_small by lia. rewrite Z.mod_small by lia.
  replace (y + 0) with y by lia. replace (m - 1 + 1) with m by lia.
  apply shiftMinutes_0.
Qed.

Lemma firstOfMonthFromYM_utc (y m : Z) :
  100 <= y <= 9999 -> 1 <= m <= 12 ->
  firstOfMonthFromYM 0 (ymString y m) = Some (Date.mk y m 1 0).
Proof.
  intros Hy Hm. unfold firstOfMonthFromYM.
  rewrite splitNumbers_ymString by lia.
  replace (m =? 0) with false by (symmetry; apply Z.eqb_neq; lia).
  rewrite newDateLocal_utc by lia. reflexivity.
Qed.

Lemma parseISODate_isoDate (y m d : Z) :
  validDate y m d -> parseISODate (isoDate y m d) = Some (Date.mk y m d 0).
Proof.
  intros (Hy & Hm & Hd).
  assert (Hd31 : daysInMonth y m <= 31).
  { unfold daysInMonth.
    destruct (m =? 2); [destruct (isLeap y); lia |].
    destruct ((m =? 4) || (m =? 6) || (m =? 9) || (m =? 11)); lia. }
  destruct (pad4_digits y Hy) as (a3 & a2 & a1 & a0 & A3 & A2 & A1 & A0 & Ey & Ep).
  destruct (pad2_digits m ltac:(lia)) as (c1 & c0 & C1 & C0 & Em & Eqm).
  destruct (pad2_digits d ltac:(lia)) as (e1 & e0 & E1 & E0 & Ed & Eqd).
  unfold parseISODate, isoDate. rewrite Ep, Eqm, Eqd. simpl.
  rewrite !digitVal_digitOf by assumption. simpl.
  replace ((((0 * 10 + a3) * 10 + a2) * 10 + a1) * 10 + a0) with y by lia.
  replace ((0 * 10 + c1) * 10 + c0) with m by lia.
  replace ((0 * 10 + e1) * 10 + e0) with d by lia.
  replace (1 <=? m) with true by (symmetry; apply Z.leb_le; lia).
  replace (m <=? 12) with true by (symmetry; apply Z.leb_le; lia).
  replace (1 <=? d) with true by (symmetry; apply Z.leb_le; lia).
  replace (d <=? daysInMonth y m) with true by (symmetry; apply Z.leb_le; lia).
  reflexivity.
Qed.

Lemma projectedDate_utc (y m : Z) (e : Expense.t) :
  100 <= y <= 9999 -> 1 <= m <= 12 ->
  exists dom,
    projectedDate 0 (ymString y m) e = Some (isoDate y m (Z.min 28 dom))
    /\ forall ye me de,
         validDate ye me de -> Expense.date e = isoDate ye me de -> dom = de.
Proof.
  intros Hy Hm. unfold projectedDate.
  rewrite firstOfMonthFromYM_utc by assumption.
  unfold getFullYear, getMonth. rewrite shiftMinutes_0. cbn [Date.year Date.month].
  eexists. split.
  - rewrite newDateLocal_utc by lia. unfold toISODate. cbn [Date.year Date.month Date.day].
    replace ((0 <=? y) && (y <=? 9999)) with true
      by (symmetry; apply andb_true_iff; split; apply Z.leb_le; lia).
    reflexivity.
  - intros ye me de Hv He. rewrite He, (parseISODate_isoDate _ _ _ Hv).
    reflexivity.
Qed.

Lemma projectedRows_utc (y m : Z) (es : list Expense.t) :
  100 <= y <= 9999 -> 1 <= m <= 12 ->
  exists rows,
    projectedRows 0 (ymString y m) es = Some rows
    /\ Forall
         (fun row =>
            exists e,
              In e es /\ projectionOf (ymString y m) e row
              /\ forall ye me de,
                   validDate ye me de -> Expense.date e = isoDate ye me de ->
                   Expense.date row = isoDate y m (Z.min 28 de))
         rows.
Proof.
  intros Hy Hm. induction es as [| e es IH].
  - exists []. split; [reflexivity | constructor].
  - destruct IH as (rows & Hrows & Hall).
    assert (Hall' :
      Forall
        (fun row =>
           exists e0,
             In e0 (e :: es) /\ projectionOf (ymString y m) e0 row
             /\ forall ye me de,
                  validDate ye me de -> Expense.date e0 = isoDate ye me de ->
                  Expense.date row = isoDate y m (Z.min 28 de))
        rows).
    { eapply List.Forall_impl; [| exact Hall].
      intros row (e0 & Hin & Hp & Hd). exists e0.
      split; [right; exact Hin | split; assumption]. }
    cbn [projectedRows].
    destruct (recurrenceOccursThisMonth e (ymString y m)
              && negb (String.eqb (ymKey (Expense.date e)) (ymString y m))).
    + destruct (projectedDate_utc y m e Hy Hm) as (dom & Hdate & Hdom).
      rewrite Hdate, Hrows. eexists. split; [reflexivity |].
      constructor; [| exact Hall'].
      exists e. split; [left; reflexivity |].
      split; [repeat split |].
      intros ye me de Hv He. cbn [projectedRow Expense.date].
      rewrite (Hdom ye me de Hv He). reflexivity.
    + exists rows. split; assumption.
Qed.

Lemma Forall_filter_keep {A : Type} (P : A -> Prop) (f : A -> bool) (l : list A) :
  Forall P l -> Forall P (List.filter f l).
Proof.
  induction 1 as [| x l Hx Hl IH]; simpl; [constructor |].
  destruct (f x); [constructor |]; assumption.
Qed.

(** C7, as the code has it, in an environment whose local time is UTC.
    With the rent of the scenario as the only expense, the projector
    emits for 2024-03 exactly one row, of amount 500 and dated 2024-03-05,
    and for 2024-01 no row (in any time zone).  For every target month
    with a four-digit year from 100 on, the projector returns rows, each
    of which stands for an expense of the store and is dated in the target
    month on the day [min(28, d)], [d] being the day of month of that
    expense's own date. *)
Theorem projection_dates :
  monthExpensesProjectedOnly 0 [rent] "2024-03"
  = Some [Expense.mk "e1__proj__2024-03" "2024-03-05" "Rent" 500%Q true
            (Expense.recurrence rent) "A" (Some "(Projected)")]
  /\ (forall tz, monthExpensesProjectedOnly tz [rent] "2024-01" = Some [])
  /\ (forall (expenses : list Expense.t) (y m : Z),
         100 <= y <= 9999 -> 1 <= m <= 12 ->
         exists rows,
           monthExpensesProjectedOnly 0 expenses (ymString y m) = Some rows
           /\ Forall
                (fun row =>
                   exists e,
                     In e expenses /\ projectionOf (ymString y m) e row
                     /\ forall ye me de,
                          validDate ye me de ->
                          Expense.date e = isoDate ye me de ->
                          Expense.date row = isoDate y m (Z.min 28 de))
                rows).
Proof.
  split; [reflexivity |]. split; [intros tz; reflexivity |].
  intros expenses y m Hy Hm.
  destruct (projectedRows_utc y m expenses Hy Hm) as (rows & Hrows & Hall).
  unfold monthExpensesProjectedOnly. rewrite Hrows. cbn [option_map].
  eexists. split; [reflexivity |].
  apply Forall_filter_keep. exact Hall.
Qed.

Lemma projection_dates_witness :
  exists rows,
    monthExpensesProjectedOnly 0 [rent; lateAnchorRent] (ymString 2024 2) = Some rows
    /\ Forall
         (fun row =>
            exists e,
              In e [rent; lateAnchorRent] /\ projectionOf (ymString 2024 2) e row
              /\ forall ye me de,
                   validDate ye me de ->
                   Expense.date e = isoDate ye me de ->
                   Expense.date row = isoDate 2024 2 (Z.min 28 de))
         rows.
Proof.
  apply (proj2 (proj2 projection_dates) [rent; lateAnchorRent] 2024 2); lia.
Defined.

(** C7 as worded fails on the day of month: the projector takes it from
    the expense's own date, not from the anchor.  [lateAnchorRent] is
    dated the 5th and anchored on the 15th; its row for 2024-03 is dated
    2024-03-05, not 2024-03-15. *)
Lemma projection_anchor_day_counterexample :
  anchorISO lateAnchorRent = isoDate 2024 1 15
  /\ option_map (map Expense.date)
       (monthExpensesProjectedOnly 0 [lateAnchorRent] (ymString 2024 3))
     = Some ["2024-03-05"]
  /\ "2024-03-05" <> isoDate 2024 3 (Z.min 28 15).
Proof. repeat split. discriminate. Qed.

(** Away from UTC the date of a projected row falls one day early: east
    of Greenwich [toISOString] turns local midnight into the evening
    before, west of it [getDate] reads the UTC-midnight date as the day
    before. *)
Lemma projection_date_off_utc :
  option_map (map Expense.date) (monthExpensesProjectedOnly 180 [rent] "2024-03")
  = Some ["2024-03-04"]
  /\ option_map (map Expense.date) (monthExpensesProjectedOnly (-300) [rent] "2024-03")
     = Some ["2024-03-04"].
Proof. split; reflexivity. Qed.

(** ** Goal statistics *)









(** ** Journal derivability *)

Section ListSets.
Context {A B : Type}.

Lemma in_map_congr (f : A -> B) (l1 l2 : list A) :
  (forall y, In y l1 <-> In y l2) ->
  forall x, In x (map f l1) <-> In x (map f l2).
Proof.
  intros H x. rewrite !in_map_iff.
  split; intros (y & E & Hy); exists y; split; try exact E; apply H; exact Hy.
Qed.

Lemma in_filter_congr (p : A -> bool) (l1 l2 : list A) :
  (forall y, In y l1 <-> In y l2) ->
  forall x, In x (List.filter p l1) <-> In x (List.filter p l2).
Proof.
  intros H x. rewrite !filter_In. rewrite (H x). reflexivity.
Qed.

Lemma filter_all (p : A -> bool) (l : list A) :
  (forall x, In x l -> p x = true) -> List.filter p l = l.
Proof.
  induction l as [| x l IH]; simpl; intros H; [reflexivity |].
  rewrite (H x (or_introl eq_refl)). f_equal.
  apply IH. intros y Hy. apply H. right. exact Hy.
Qed.

Lemma filter_map_swap (f : A -> B) (p : B -> bool) (q : A -> bool) (l : list A) :
  (forall x, p (f x) = q x) ->
  List.filter p (map f l) = map f (List.filter q l).
Proof.
  intros H. induction l as [| x l IH]; simpl; [reflexivity |].
  rewrite H. destruct (q x); simpl; rewrite IH; reflexivity.
Qed.

Lemma map_fixed (f : A -> A) (l : list A) :
  (forall x, In x l -> f x = x) -> map f l = l.
Proof.
  induction l as [| x l IH]; simpl; intros H; [reflexivity |].
  rewrite (H x (or_introl eq_refl)). f_equal.
  apply IH. intros y Hy. apply H. right. exact Hy.
Qed.

Lemma map_flat_map (f : B -> B) (g h : A -> list B) (r : A -> A) (l : list A) :
  (forall x, map f (g x) = h (r x)) ->
  map f (flat_map g l) = flat_map h (map r l).
Proof.
  intros H. induction l as [| x l IH]; simpl; [reflexivity |].
  rewrite map_app, H, IH. reflexivity.
Qed.
End ListSets.

Lemma stripId_map (f : AccountTxn.t -> AccountTxn.t) (j : list AccountTxn.t) :
  (forall t, stripId (f t) = f (stripId t)) ->
  map stripId (map f j) = map f (map stripId j).
Proof.
  intros H. rewrite !map_map. apply map_ext. exact H.
Qed.

Lemma stripId_filter (p : AccountTxn.t -> bool) (j : list AccountTxn.t) :
  (forall t, p (stripId t) = p t) ->
  map stripId (List.filter p j) = List.filter p (map stripId j).
Proof.
  intros H. symmetry. apply filter_map_swap. exact H.
Qed.

Lemma accountName_adjust (l : list Account.t) (a id : Id) (delta : Q) (d : string) :
  accountName (adjust l a delta) id d = accountName l id d.
Proof.
  unfold accountName, adjust. induction l as [| x l IH]; simpl; [reflexivity |].
  destruct (String.eqb (Account.id x) a); simpl;
    destruct (String.eqb (Account.id x) id); simpl; auto.
Qed.

Lemma transferEntries_adjust (l : list Account.t) (a : Id) (delta : Q)
  (t : Transfer.t) :
  transferEntries (adjust l a delta) t = transferEntries l t.
Proof. unfold transferEntries. rewrite !accountName_adjust. reflexivity. Qed.

Lemma expectedOf_adjust (l : list Account.t) (a : Id) (delta : Q)
  (incomes : list Income.t) (expenses : list Expense.t)
  (transfers : list Transfer.t) :
  expectedOf (adjust l a delta) incomes expenses transfers
  = expectedOf l incomes expenses transfers.
Proof.
  unfold expectedOf. do 2 f_equal.
  apply flat_map_ext. intros t. apply transferEntries_adjust.
Qed.

Lemma linkedTo_stripId (ty : LinkedType) (id : Id) (t : AccountTxn.t) :
  linkedTo ty id (stripId t) = linkedTo ty id t.
Proof. reflexivity. Qed.

Lemma strOr_nonempty (s d : string) : String.eqb s "" = false -> strOr s d = s.
Proof. intros H. unfold strOr. rewrite H. reflexivity. Qed.

Lemma strOrOpt_nonempty (s : string) (o : option string) :
  String.eqb s "" = false -> strOrOpt s o = Some s.
Proof. intros H. unfold strOrOpt. rewrite H. reflexivity. Qed.

(** *** What deletions and edits do to the expected journal *)

Lemma expected_without_income (id : Id) (accounts : list Account.t)
  (incomes : list Income.t) (expenses : list Expense.t)
  (transfers : list Transfer.t) :
  List.filter (fun t => negb (linkedTo LIncome id t))
    (expectedOf accounts incomes expenses transfers)
  = expectedOf accounts
      (List.filter (fun i => negb (String.eqb (Income.id i) id)) incomes)
      expenses transfers.
Proof.
  unfold expectedOf. rewrite !List.filter_app.
  rewrite (filter_map_swap incomeEntry _
             (fun i => negb (String.eqb (Income.id i) id))) by reflexivity.
  rewrite (filter_all _ (map expenseEntry _)).
  - rewrite (filter_all _ (flat_map _ _)); [reflexivity |].
    intros y Hy. apply in_flat_map in Hy. destruct Hy as (t & _ & Hy).
    destruct Hy as [<- | [<- | []]]; reflexivity.
  - intros y Hy. apply in_map_iff in Hy. destruct Hy as (e & <- & _). reflexivity.
Qed.

Lemma expected_without_expense (id : Id) (accounts : list Account.t)
  (incomes : list Income.t) (expenses : list Expense.t)
  (transfers : list Transfer.t) :
  List.filter (fun t => negb (linkedTo LExpense id t))
    (expectedOf accounts incomes expenses transfers)
  = expectedOf accounts incomes
      (List.filter (fun e => negb (String.eqb (Expense.id e) id)) expenses)
      transfers.
Proof.
  unfold expectedOf. rewrite !List.filter_app.
  rewrite (filter_map_swap expenseEntry _
             (fun e => negb (String.eqb (Expense.id e) id))) by reflexivity.
  rewrite (filter_all _ (map incomeEntry _)).
  - rewrite (filter_all _ (flat_map _ _)); [reflexivity |].
    intros y Hy. apply in_flat_map in Hy. destruct Hy as (t & _ & Hy).
    destruct Hy as [<- | [<- | []]]; reflexivity.
  - intros y Hy. apply in_map_iff in Hy. destruct Hy as (e & <- & _). reflexivity.
Qed.

Lemma filter_flat_map_transfers (id : Id) (accounts : list Account.t)
  (transfers : list Transfer.t) :
  List.filter (fun t => negb (linkedTo LTransfer id t))
    (flat_map (transferEntries accounts) transfers)
  = flat_map (transferEntries accounts)
      (List.filter (fun t => negb (String.eqb (Transfer.id t) id)) transfers).
Proof.
  induction transfers as [| t l IH]; [reflexivity |].
  cbn [flat_map List.filter]. rewrite List.filter_app, IH.
  unfold transferEntries at 1. cbn [List.filter linkedTo LinkedType_eqb
    AccountTxn.linkedType AccountTxn.linkedId andb].
  destruct (String.eqb (Transfer.id t) id); reflexivity.
Qed.

Lemma expected_without_transfer (id : Id) (accounts : list Account.t)
  (incomes : list Income.t) (expenses : list Expense.t)
  (transfers : list Transfer.t) :
  List.filter (fun t => negb (linkedTo LTransfer id t))
    (expectedOf accounts incomes expenses transfers)
  = expectedOf accounts incomes expenses
      (List.filter (fun t => negb (String.eqb (Transfer.id t) id)) transfers).
Proof.
  unfold expectedOf. rewrite !List.filter_app.
  rewrite filter_flat_map_transfers.
  rewrite (filter_all _ (map incomeEntry _)).
  - rewrite (filter_all _ (map expenseEntry _)); [reflexivity |].
    intros y Hy. apply in_map_iff in Hy. destruct Hy as (e & <- & _). reflexivity.
  - intros y Hy. apply in_map_iff in Hy. destruct Hy as (e & <- & _). reflexivity.
Qed.

Lemma retarget_incomeEntry (edited i : Income.t) :
  String.eqb (Income.source edited) "" = false ->
  retargetIncomeTxn edited (incomeEntry i) = incomeEntry (replaceIncome edited i).
Proof.
  intros Hsrc. unfold retargetIncomeTxn, replaceIncome, linkedTo.
  cbn [incomeEntry AccountTxn.linkedType AccountTxn.linkedId LinkedType_eqb andb].
  destruct (String.eqb_spec (Income.id i) (Income.id edited)) as [E | E];
    [| reflexivity].
  unfold incomeEntry. cbn. rewrite E.
  rewrite strOrOpt_nonempty, strOr_nonempty by exact Hsrc. reflexivity.
Qed.

Lemma expected_with_income (edited : Income.t) (accounts : list Account.t)
  (incomes : list Income.t) (expenses : list Expense.t)
  (transfers : list Transfer.t) :
  String.eqb (Income.source edited) "" = false ->
  map (retargetIncomeTxn edited) (expectedOf accounts incomes expenses transfers)
  = expectedOf accounts (map (replaceIncome edited) incomes) expenses transfers.
Proof.
  intros Hsrc. unfold expectedOf. rewrite !map_app, !map_map.
  apply (f_equal2 (@app _)); [| apply (f_equal2 (@app _))].
  - apply map_ext. intros i. apply retarget_incomeEntry. exact Hsrc.
  - apply map_ext. intros e. reflexivity.
  - apply map_fixed. intros y Hy. apply in_flat_map in Hy.
    destruct Hy as (t & _ & [<- | [<- | []]]); reflexivity.
Qed.

Lemma retarget_expenseEntry (edited e : Expense.t) :
  String.eqb (Expense.category edited) "" = false ->
  retargetExpenseTxn edited (expenseEntry e) = expenseEntry (replaceExpense edited e).
Proof.
  intros Hcat. unfold retargetExpenseTxn, replaceExpense, linkedTo.
  cbn [expenseEntry AccountTxn.linkedType AccountTxn.linkedId LinkedType_eqb andb].
  destruct (String.eqb_spec (Expense.id e) (Expense.id edited)) as [E | E];
    [| reflexivity].
  unfold expenseEntry. cbn. rewrite E.
  rewrite strOrOpt_nonempty, strOr_nonempty by exact Hcat. reflexivity.
Qed.

Lemma expected_with_expense (edited : Expense.t) (accounts : list Account.t)
  (incomes : list Income.t) (expenses : list Expense.t)
  (transfers : list Transfer.t) :
  String.eqb (Expense.category edited) "" = false ->
  map (retargetExpenseTxn edited) (expectedOf accounts incomes expenses transfers)
  = expectedOf accounts incomes (map (replaceExpense edited) expenses) transfers.
Proof.
  intros Hcat. unfold expectedOf. rewrite !map_app, !map_map.
  apply (f_equal2 (@app _)); [| apply (f_equal2 (@app _))].
  - apply map_ext. intros i. reflexivity.
  - apply map_ext. intros e. apply retarget_expenseEntry. exact Hcat.
  - apply map_fixed. intros y Hy. apply in_flat_map in Hy.
    destruct Hy as (t & _ & [<- | [<- | []]]); reflexivity.
Qed.

Lemma retarget_transferEntries (edited t : Transfer.t) (accounts : list Account.t) :
  map (retargetTransferTxn edited
         (accountName accounts (Transfer.fromAccountId edited) "From")
         (accountName accounts (Transfer.toAccountId edited) "To"))
      (transferEntries accounts t)
  = transferEntries accounts (replaceTransfer edited t).
Proof.
  unfold retargetTransferTxn, replaceTransfer, linkedTo, transferEntries.
  cbn [map AccountTxn.linkedType AccountTxn.linkedId LinkedType_eqb andb
       AccountTxn.type TxnType_eqb].
  destruct (String.eqb_spec (Transfer.id t) (Transfer.id edited)) as [E | E];
    [| reflexivity].
  cbn. rewrite E. reflexivity.
Qed.

Lemma expected_with_transfer (edited : Transfer.t) (accounts : list Account.t)
  (incomes : list Income.t) (expenses : list Expense.t)
  (transfers : list Transfer.t) :
  map (retargetTransferTxn edited
         (accountName accounts (Transfer.fromAccountId edited) "From")
         (accountName accounts (Transfer.toAccountId edited) "To"))
      (expectedOf accounts incomes expenses transfers)
  = expectedOf accounts incomes expenses (map (replaceTransfer edited) transfers).
Proof.
  unfold expectedOf. rewrite !map_app, !map_map.
  apply (f_equal2 (@app _)); [| apply (f_equal2 (@app _))].
  - apply map_ext. intros i. reflexivity.
  - apply map_ext. intros e. reflexivity.
  - apply map_flat_map. intros t. apply retarget_transferEntries.
Qed.

(** *** Each mutator keeps the journal derivable *)

Lemma addIncome_derivable (id txnId : Id) (inc : Income.t) (s : Store.t) :
  journalDerivable s -> journalDerivable (addIncome id txnId inc s).
Proof.
  intros H x. unfold expectedJournal, addIncome.
  cbn [Store.accountTxns Store.accounts Store.incomes Store.expenses Store.transfers].
  rewrite expectedOf_adjust. unfold expectedOf. cbn [map app stripId In].
  rewrite (H x). unfold expectedJournal, expectedOf. reflexivity.
Qed.

Lemma delIncome_derivable (id : Id) (s : Store.t) :
  journalDerivable s -> journalDerivable (delIncome id s).
Proof.
  intros H. unfold delIncome.
  destruct (find _ (Store.incomes s)) as [income |]; [| exact H].
  intros x. unfold expectedJournal.
  cbn [Store.accountTxns Store.accounts Store.incomes Store.expenses Store.transfers].
  rewrite expectedOf_adjust.
  rewrite stripId_filter by reflexivity.
  rewrite (in_filter_congr _ _ _ H x).
  unfold expectedJournal. rewrite expected_without_income. reflexivity.
Qed.

Lemma updateIncome_derivable (edited : Income.t) (s : Store.t) :
  String.eqb (Income.source edited) "" = false ->
  journalDerivable s -> journalDerivable (updateIncome edited s).
Proof.
  intros Hsrc H. unfold updateIncome.
  destruct (find _ (Store.incomes s)) as [original |]; [| exact H].
  intros x. unfold expectedJournal.
  cbn [Store.accountTxns Store.accounts Store.incomes Store.expenses Store.transfers].
  rewrite stripId_map
    by (intros t; unfold retargetIncomeTxn; rewrite linkedTo_stripId;
        destruct (linkedTo LIncome (Income.id edited) t); reflexivity).
  rewrite (in_map_congr _ _ _ H x).
  unfold expectedJournal. rewrite expected_with_income by exact Hsrc.
  destruct (negb _); rewrite ?expectedOf_adjust; reflexivity.
Qed.

Lemma addExpense_derivable (id txnId : Id) (exp : Expense.t) (s : Store.t) :
  journalDerivable s -> journalDerivable (addExpense id txnId exp s).
Proof.
  intros H x. unfold expectedJournal, addExpense.
  cbn [Store.accountTxns Store.accounts Store.incomes Store.expenses Store.transfers].
  rewrite expectedOf_adjust. unfold expectedOf. cbn [map app In].
  rewrite (H x). unfold expectedJournal, expectedOf.
  rewrite !in_app_iff. cbn [In]. rewrite in_app_iff.
  unfold stripId, expenseEntry. cbn. tauto.
Qed.

Lemma delExpense_derivable (id : Id) (s : Store.t) :
  journalDerivable s -> journalDerivable (delExpense id s).
Proof.
  intros H. unfold delExpense.
  destruct (find _ (Store.expenses s)) as [expense |]; [| exact H].
  intros x. unfold expectedJournal.
  cbn [Store.accountTxns Store.accounts Store.incomes Store.expenses Store.transfers].
  rewrite expectedOf_adjust.
  rewrite stripId_filter by reflexivity.
  rewrite (in_filter_congr _ _ _ H x).
  unfold expectedJournal. rewrite expected_without_expense. reflexivity.
Qed.

Lemma updateExpense_derivable (edited : Expense.t) (s : Store.t) :
  String.eqb (Expense.category edited) "" = false ->
  journalDerivable s -> journalDerivable (updateExpense edited s).
Proof.
  intros Hcat H. unfold updateExpense.
  destruct (find _ (Store.expenses s)) as [original |]; [| exact H].
  intros x. unfold expectedJournal.
  cbn [Store.accountTxns Store.accounts Store.incomes Store.expenses Store.transfers].
  rewrite stripId_map
    by (intros t; unfold retargetExpenseTxn; rewrite linkedTo_stripId;
        destruct (linkedTo LExpense (Expense.id edited) t); reflexivity).
  rewrite (in_map_congr _ _ _ H x).
  unfold expectedJournal. rewrite expected_with_expense by exact Hcat.
  destruct (negb _); rewrite ?expectedOf_adjust; reflexivity.
Qed.

Lemma addTransfer_derivable (id txnId1 txnId2 : Id) (tr : Transfer.t) (s : Store.t) :
  journalDerivable s -> journalDerivable (addTransfer id txnId1 txnId2 tr s).
Proof.
  intros H. unfold addTransfer.
  destruct (transferRejected tr); [exact H |].
  intros x. unfold expectedJournal.
  cbn [Store.accountTxns Store.accounts Store.incomes Store.expenses Store.transfers].
  rewrite !expectedOf_adjust. unfold expectedOf.
  cbn [map flat_map In]. rewrite (H x).
  unfold expectedJournal, expectedOf. rewrite !in_app_iff.
  unfold stripId, transferEntries. cbn. tauto.
Qed.

Lemma delTransfer_derivable (id : Id) (s : Store.t) :
  journalDerivable s -> journalDerivable (delTransfer id s).
Proof.
  intros H. unfold delTransfer.
  destruct (find _ (Store.transfers s)) as [tr |]; [| exact H].
  intros x. unfold expectedJournal.
  cbn [Store.accountTxns Store.accounts Store.incomes Store.expenses Store.transfers].
  rewrite !expectedOf_adjust.
  rewrite stripId_filter by reflexivity.
  rewrite (in_filter_congr _ _ _ H x).
  unfold expectedJournal. rewrite expected_without_transfer. reflexivity.
Qed.

Lemma updateTransfer_derivable (edited : Transfer.t) (s : Store.t) :
  journalDerivable s -> journalDerivable (updateTransfer edited s).
Proof.
  intros H. unfold updateTransfer.
  destruct (find _ (Store.transfers s)) as [original |]; [| exact H].
  intros x. unfold expectedJournal.
  cbn [Store.accountTxns Store.accounts Store.incomes Store.expenses Store.transfers].
  rewrite !expectedOf_adjust.
  rewrite stripId_map
    by (intros t; unfold retargetTransferTxn; rewrite linkedTo_stripId;
        destruct (linkedTo LTransfer (Transfer.id edited) t); reflexivity).
  rewrite (in_map_congr _ _ _ H x).
  unfold expectedJournal. rewrite expected_with_transfer. reflexivity.
Qed.

Lemma addInvestment_derivable (id : Id) (v : Investment.t) (s : Store.t) :
  journalDerivable s -> journalDerivable (addInvestment id v s).
Proof.
  intros H x. unfold expectedJournal, addInvestment.
  cbn [Store.accountTxns Store.accounts Store.incomes Store.expenses Store.transfers
       Investment.accountId].
  destruct (linkedAccount (Investment.accountId v)) as [a |]; [| exact (H x)].
  rewrite expectedOf_adjust. exact (H x).
Qed.

Lemma delInvestment_derivable (id : Id) (s : Store.t) :
  journalDerivable s -> journalDerivable (delInvestment id s).
Proof.
  intros H. unfold delInvestment.
  destruct (find _ (Store.investments s)) as [v |]; [| exact H].
  intros x. unfold expectedJournal.
  cbn [Store.accountTxns Store.accounts Store.incomes Store.expenses Store.transfers].
  destruct (linkedAccount (Investment.accountId v)) as [a |]; [| exact (H x)].
  rewrite expectedOf_adjust. exact (H x).
Qed.

Lemma applyOp_derivable (o : Op) (s : Store.t) :
  journalOp o = true -> journalDerivable s -> journalDerivable (applyOp o s).
Proof.
  destruct o; cbn [journalOp applyOp]; intros Hok H.
  - apply addIncome_derivable; exact H.
  - apply delIncome_derivable; exact H.
  - apply updateIncome_derivable; [| exact H].
    apply negb_true_iff. exact Hok.
  - apply addExpense_derivable; exact H.
  - apply delExpense_derivable; exact H.
  - apply updateExpense_derivable; [| exact H].
    apply negb_true_iff. exact Hok.
  - apply addTransfer_derivable; exact H.
  - apply delTransfer_derivable; exact H.
  - apply updateTransfer_derivable; exact H.
  - apply addInvestment_derivable; exact H.
  - apply delInvestment_derivable; exact H.
Qed.

(** *** Stored transfers stay valid, account names stay put *)

Lemma applyOp_transfersValid (o : Op) (s : Store.t) :
  journalOp o = true -> transfersValid s -> transfersValid (applyOp o s).
Proof.
  unfold transfersValid.
  destruct o; cbn [journalOp applyOp]; intros Hok H; try exact H.
  - unfold delIncome. destruct (find _ _); exact H.
  - unfold updateIncome. destruct (find _ _); exact H.
  - unfold delExpense. destruct (find _ _); exact H.
  - unfold updateExpense. destruct (find _ _); exact H.
  - unfold addTransfer. destruct (transferRejected tr) eqn:E; [exact H |].
    cbn [Store.transfers]. constructor; [exact E | exact H].
  - unfold delTransfer. destruct (find _ _); [| exact H].
    cbn [Store.transfers]. apply Forall_filter_keep. exact H.
  - unfold updateTransfer. destruct (find _ _); [| exact H].
    cbn [Store.transfers]. apply List.Forall_forall. intros t1 Ht1.
    apply in_map_iff in Ht1. destruct Ht1 as (t0 & <- & Ht0).
    unfold replaceTransfer. destruct (String.eqb _ _).
    + apply negb_true_iff. exact Hok.
    + revert t0 Ht0. apply List.Forall_forall. exact H.
  - unfold delInvestment. destruct (find _ _); exact H.
Qed.

Lemma applyOp_accountName (o : Op) (s : Store.t) (id : Id) (d : string) :
  accountName (Store.accounts (applyOp o s)) id d
  = accountName (Store.accounts s) id d.
Proof.
  destruct o; cbn [applyOp].
  - unfold addIncome. cbn [Store.accounts]. apply accountName_adjust.
  - unfold delIncome. destruct (find _ _); [| reflexivity].
    cbn [Store.accounts]. apply accountName_adjust.
  - unfold updateIncome. destruct (find _ _); [| reflexivity].
    cbn [Store.accounts]. destruct (negb _); rewrite ?accountName_adjust; reflexivity.
  - unfold addExpense. cbn [Store.accounts]. apply accountName_adjust.
  - unfold delExpense. destruct (find _ _); [| reflexivity].
    cbn [Store.accounts]. apply accountName_adjust.
  - unfold updateExpense. destruct (find _ _); [| reflexivity].
    cbn [Store.accounts]. destruct (negb _); rewrite ?accountName_adjust; reflexivity.
  - unfold addTransfer. destruct (transferRejected tr); [reflexivity |].
    cbn [Store.accounts]. rewrite !accountName_adjust. reflexivity.
  - unfold delTransfer. destruct (find _ _); [| reflexivity].
    cbn [Store.accounts]. rewrite !accountName_adjust. reflexivity.
  - unfold updateTransfer. destruct (find _ _); [| reflexivity].
    cbn [Store.accounts]. rewrite !accountName_adjust. reflexivity.
  - unfold addInvestment. cbn [Store.accounts Investment.accountId].
    destruct (linkedAccount (Investment.accountId v)) as [a |];
      [apply accountName_adjust | reflexivity].
  - unfold delInvestment. destruct (find _ _) as [v |]; [| reflexivity].
    cbn [Store.accounts].
    destruct (linkedAccount (Investment.accountId v)) as [a |];
      [apply accountName_adjust | reflexivity].
Qed.

Lemma run_cons (o : Op) (ops : list Op) (s : Store.t) :
  run (o :: ops) s = run ops (applyOp o s).
Proof. reflexivity. Qed.

Lemma run_journal (ops : list Op) (s : Store.t) :
  forallb journalOp ops = true ->
  journalDerivable s -> transfersValid s ->
  journalDerivable (run ops s) /\ transfersValid (run ops s)
  /\ forall id d, accountName (Store.accounts (run ops s)) id d
                  = accountName (Store.accounts s) id d.
Proof.
  revert s. induction ops as [| o ops IH]; intros s Hok HJ HV.
  - split; [exact HJ | split; [exact HV | reflexivity]].
  - cbn [forallb] in Hok. apply andb_true_iff in Hok. destruct Hok as [Ho Hops].
    rewrite run_cons.
    destruct (IH (applyOp o s) Hops (applyOp_derivable o s Ho HJ)
                (applyOp_transfersValid o s Ho HV)) as (HJ' & HV' & HN').
    split; [exact HJ' | split; [exact HV' |]].
    intros id d. rewrite HN'. apply applyOp_accountName.
Qed.

(** *** The journal of a replay *)

Lemma transferEntries_names (l1 l2 : list Account.t) (t : Transfer.t) :
  (forall id d, accountName l1 id d = accountName l2 id d) ->
  transferEntries l1 t = transferEntries l2 t.
Proof. intros H. unfold transferEntries. rewrite !H. reflexivity. Qed.

Lemma replay_incomes (l : list Income.t) (s : Store.t) :
  let s' := fold_right (fun i s => addIncome (Income.id i) "" i s) s l in
  Store.accountTxns s' = (map incomeEntry l ++ Store.accountTxns s)%list
  /\ forall id d, accountName (Store.accounts s') id d
                  = accountName (Store.accounts s) id d.
Proof.
  induction l as [| i l IH]; cbn [fold_right map app]; [split; reflexivity |].
  destruct IH as [IHj IHn]. split.
  - unfold addIncome at 1. cbn [Store.accountTxns]. rewrite IHj. reflexivity.
  - intros id d. unfold addIncome at 1. cbn [Store.accounts].
    rewrite accountName_adjust. apply IHn.
Qed.

Lemma replay_expenses (l : list Expense.t) (s : Store.t) :
  let s' := fold_right (fun e s => addExpense (Expense.id e) "" e s) s l in
  Store.accountTxns s' = (map expenseEntry l ++ Store.accountTxns s)%list
  /\ forall id d, accountName (Store.accounts s') id d
                  = accountName (Store.accounts s) id d.
Proof.
  induction l as [| e l IH]; cbn [fold_right map app]; [split; reflexivity |].
  destruct IH as [IHj IHn]. split.
  - unfold addExpense at 1. cbn [Store.accountTxns]. rewrite IHj. reflexivity.
  - intros id d. unfold addExpense at 1. cbn [Store.accounts].
    rewrite accountName_adjust. apply IHn.
Qed.

Lemma replay_transfers (l : list Transfer.t) (s : Store.t) :
  Forall (fun t => transferRejected t = false) l ->
  let s' := fold_right (fun t s => addTransfer (Transfer.id t) "" "" t s) s l in
  Store.accountTxns s'
  = (flat_map (transferEntries (Store.accounts s)) l ++ Store.accountTxns s)%list
  /\ forall id d, accountName (Store.accounts s') id d
                  = accountName (Store.accounts s) id d.
Proof.
  induction 1 as [| t l Ht Hl IH]; cbn [fold_right flat_map app];
    [split; reflexivity |].
  destruct IH as [IHj IHn]. split.
  - unfold addTransfer at 1. rewrite Ht. cbn [Store.accountTxns].
    rewrite IHj, !IHn. reflexivity.
  - intros id d. unfold addTransfer at 1. rewrite Ht. cbn [Store.accounts].
    rewrite !accountName_adjust. apply IHn.
Qed.

Lemma replay_journal (base final : Store.t) :
  Store.accountTxns base = [] ->
  transfersValid final ->
  Store.accountTxns (replay base final)
  = (flat_map (transferEntries (Store.accounts base)) (Store.transfers final)
     ++ map expenseEntry (Store.expenses final)
     ++ map incomeEntry (Store.incomes final))%list.
Proof.
  intros Hbase Hvalid. unfold replay.
  destruct (replay_incomes (Store.incomes final) base) as [Hj1 Hn1].
  destruct (replay_expenses (Store.expenses final)
              (fold_right (fun i s => addIncome (Income.id i) "" i s) base
                 (Store.incomes final))) as [Hj2 Hn2].
  destruct (replay_transfers (Store.transfers final)
              (fold_right (fun e s => addExpense (Expense.id e) "" e s)
                 (fold_right (fun i s => addIncome (Income.id i) "" i s) base
                    (Store.incomes final))
                 (Store.expenses final)) Hvalid) as [Hj3 _].
  rewrite Hj3, Hj2, Hj1, Hbase, app_nil_r.
  f_equal. apply flat_map_ext. intros t. apply transferEntries_names.
  intros id d. rewrite Hn2. apply Hn1.
Qed.

Lemma stripId_expected (l : list AccountTxn.t) :
  (forall x, In x l -> AccountTxn.id x = "") -> map stripId l = l.
Proof.
  intros H. apply map_fixed. intros x Hx. specialize (H x Hx).
  destruct x. cbn in *. subst. reflexivity.
Qed.

(** C1, as the code has it.  Starting from a store with nothing
    recorded, after any sequence of additions, edits and deletions of
    incomes, expenses and transfers (and of investments) in which every
    edited income has a non-empty source, every edited expense a non-empty
    category and every edited transfer two different sides and a positive
    amount, the journal holds, as a set and entry ids apart, the entries
    of the journal that replaying the surviving incomes, expenses and
    transfers on the starting store produces. *)
Theorem journal_replay (s0 : Store.t) (ops : list Op) :
  ledgerEmpty s0 ->
  forallb journalOp ops = true ->
  sameJournal (Store.accountTxns (run ops s0))
              (Store.accountTxns (replay s0 (run ops s0))).
Proof.
  intros (HI & HE & HT & HJ) Hops.
  assert (HJ0 : journalDerivable s0).
  { intros x. unfold expectedJournal, expectedOf. rewrite HI, HE, HT, HJ. reflexivity. }
  assert (HV0 : transfersValid s0).
  { unfold transfersValid. rewrite HT. constructor. }
  destruct (run_journal ops s0 Hops HJ0 HV0) as (HJ' & HV' & HN').
  intros x. rewrite (HJ' x).
  rewrite (replay_journal s0 (run ops s0) HJ HV').
  rewrite stripId_expected.
  - unfold expectedJournal, expectedOf. rewrite !in_app_iff.
    rewrite (flat_map_ext _ (transferEntries (Store.accounts s0))).
    + tauto.
    + intros t. apply transferEntries_names. exact HN'.
  - intros y Hy. rewrite !in_app_iff in Hy.
    destruct Hy as [Hy | [Hy | Hy]].
    + apply in_flat_map in Hy. destruct Hy as (t & _ & [<- | [<- | []]]); reflexivity.
    + apply in_map_iff in Hy. destruct Hy as (e & <- & _). reflexivity.
    + apply in_map_iff in Hy. destruct Hy as (i & <- & _). reflexivity.
Qed.

Lemma journal_replay_witness :
  sameJournal (Store.accountTxns (run mixedHistory twoAccounts))
              (Store.accountTxns (replay twoAccounts (run mixedHistory twoAccounts))).
Proof.
  apply (journal_replay twoAccounts mixedHistory).
  - repeat split.
  - reflexivity.
Defined.

(** C1 as worded fails on an edit that empties the source: the journal
    entry keeps its old note, [edited.source || t.notes], while replaying
    the edited record writes the note "Income". *)
Lemma journal_blank_source_counterexample :
  ~ sameJournal
      (Store.accountTxns (run blankSourceHistory (emptyStore "A")))
      (Store.accountTxns
         (replay (emptyStore "A") (run blankSourceHistory (emptyStore "A")))).
Proof.
  intros H.
  specialize (H (AccountTxn.mk "" "2024-02-02" "A" Deposit 1200%Q LIncome "i1"
                   (Some "Salary") None None)).
  destruct H as [H _].
  assert (Hin : In (AccountTxn.mk "" "2024-02-02" "A" Deposit 1200%Q LIncome "i1"
                      (Some "Salary") None None)
                   (map stripId
                      (Store.accountTxns (run blankSourceHistory (emptyStore "A")))))
    by (left; reflexivity).
  specialize (H Hin). vm_compute in H.
  destruct H as [H | []]. discriminate H.
Qed.

(** ** Balances derived from activity *)



(** *** The map built by the recomputation *)

Lemma getOr0_insert (m : gmap string Q) (k a : string) (v : Q) :
  getOr0 (<[k := v]> m) a = if String.eqb a k then v else getOr0 m a.
Proof.
  unfold getOr0. rewrite lookup_insert.
  destruct (String.eqb_spec a k) as [E | E].
  - subst. rewrite decide_True by reflexivity. reflexivity.
  - rewrite decide_False by congruence. reflexivity.
Qed.







(** *** Sums over a collection with distinct ids *)

Section Collection.
Context {A : Type} (key : A -> Id) (f : A -> Q).





End Collection.

(** *** Whole cents *)

Lemma twoDecimals_abs (x : Q) : twoDecimals x -> twoDecimals (Qabs x).
Proof.
  intros H. apply twoDecimals_iff in H. destruct H as [c Hc].
  apply twoDecimals_iff. exists (Z.abs c). rewrite Hc. reflexivity.
Qed.

Lemma twoDecimals_investmentDelta (x : Q) :
  twoDecimals x -> twoDecimals (investmentDelta x).
Proof.
  intros H. unfold investmentDelta.
  destruct (Qpositive x); auto using twoDecimals_abs, twoDecimals_opp.
Qed.




(** *** One adjustment *)




(** *** Each mutator keeps the balances on the activity *)




















(** Deleting a withdrawal from an investment does not take back its
    effect: [delInvestment] adds [-v.amount] where it should add
    [v.amount].  After recording and deleting a withdrawal of 50 linked to
    [A], the account holds 100, and the recomputation gives 0. *)
Lemma delInvestment_withdrawal_not_reverted :
  balances (Store.accounts (run withdrawalHistory zeroAccounts)) = [100%Q; 0%Q]
  /\ balances (derivedAccounts (run withdrawalHistory zeroAccounts)) = [0%Q; 0%Q]
  /\ Store.investments (run withdrawalHistory zeroAccounts) = [].
Proof. repeat split; vm_compute; reflexivity. Qed.

(* ====================================================================== *)
(** * Further properties of the ledger mutators *)
(* ====================================================================== *)

(** ** Edits of a record that is not there *)

(** X1.  An edit whose id its collection does not hold returns the store
    it was given: no balance moves, nothing is added. *)
Theorem update_absent (s : Store.t) :
  (forall edited : Income.t,
      ~ In (Income.id edited) (map Income.id (Store.incomes s)) ->
      updateIncome edited s = s)
  /\ (forall edited : Expense.t,
      ~ In (Expense.id edited) (map Expense.id (Store.expenses s)) ->
      updateExpense edited s = s)
  /\ (forall edited : Transfer.t,
      ~ In (Transfer.id edited) (map Transfer.id (Store.transfers s)) ->
      updateTransfer edited s = s).
Proof.
  split; [| split].
  - intros e H. unfold updateIncome. rewrite (find_absent Income.id _ _ H). reflexivity.
  - intros e H. unfold updateExpense. rewrite (find_absent Expense.id _ _ H). reflexivity.
  - intros e H. unfold updateTransfer. rewrite (find_absent Transfer.id _ _ H). reflexivity.
Qed.

Lemma update_absent_witness :
  updateTransfer (Transfer.mk "t7" "2024-02-09" "B" "A" 10%Q None) afterTransfer
  = afterTransfer.
Proof.
  apply (proj2 (proj2 (update_absent afterTransfer))).
  vm_compute. intros [H | []]. discriminate H.
Defined.

(** ** Records on an account that is not there *)

(** X2.  A record naming an account id that the store does not hold is
    stored all the same, with its journal entry, and no account changes. *)
Theorem orphan_account_record (s : Store.t) :
  (forall (id txnId : Id) (inc : Income.t),
      ~ In (Income.accountId inc) (map Account.id (Store.accounts s)) ->
      Store.accounts (addIncome id txnId inc s) = Store.accounts s
      /\ length (Store.incomes (addIncome id txnId inc s))
         = S (length (Store.incomes s))
      /\ length (Store.accountTxns (addIncome id txnId inc s))
         = S (length (Store.accountTxns s)))
  /\ (forall (id txnId : Id) (exp : Expense.t),
      ~ In (Expense.accountId exp) (map Account.id (Store.accounts s)) ->
      Store.accounts (addExpense id txnId exp s) = Store.accounts s
      /\ length (Store.expenses (addExpense id txnId exp s))
         = S (length (Store.expenses s))
      /\ length (Store.accountTxns (addExpense id txnId exp s))
         = S (length (Store.accountTxns s)))
  /\ (forall (id a : Id) (v : Investment.t),
      Investment.accountId v = Some a ->
      ~ In a (map Account.id (Store.accounts s)) ->
      Store.accounts (addInvestment id v s) = Store.accounts s
      /\ length (Store.investments (addInvestment id v s))
         = S (length (Store.investments s))).
Proof.
  split; [| split].
  - intros id txnId inc H. unfold addIncome.
    cbn [Store.accounts Store.incomes Store.accountTxns].
    rewrite adjust_absent by exact H. repeat split.
  - intros id txnId exp H. unfold addExpense.
    cbn [Store.accounts Store.expenses Store.accountTxns].
    rewrite adjust_absent by exact H. repeat split.
  - intros id a v Ha H. unfold addInvestment.
    cbn [Store.accounts Store.investments Investment.accountId].
    rewrite Ha. unfold linkedAccount.
    destruct (String.eqb a ""); [split; reflexivity |].
    rewrite adjust_absent by exact H. split; reflexivity.
Qed.

Lemma orphan_account_record_witness :
  Store.accounts
    (addIncome "i5" "x9" (Income.mk "" "2024-02-07" "Refund" 40%Q "Z" None)
       afterTransfer)
  = Store.accounts afterTransfer.
Proof.
  apply (proj1 (orphan_account_record afterTransfer)).
  vm_compute. intros [H | [H | []]]; discriminate H.
Defined.

(** ** Adding a record and deleting it again *)

Lemma filter_unlinked (ty : LinkedType) (id : Id) (j : list AccountTxn.t) :
  unlinked ty id j = true ->
  List.filter (fun t => negb (linkedTo ty id t)) j = j.
Proof.
  intros H. apply filter_all. apply forallb_forall. exact H.
Qed.

Lemma filter_fresh {A : Type} (key : A -> Id) (id : Id) (l : list A) :
  ~ In id (map key l) ->
  List.filter (fun x => negb (String.eqb (key x) id)) l = l.
Proof.
  intros H. apply filter_all. intros x Hx.
  apply negb_true_iff, String.eqb_neq. intros E. apply H.
  rewrite <- E. apply in_map. exact Hx.
Qed.

Lemma adjust_back (l : list Account.t) (k : Id) (d : Q) :
  centBalances l -> twoDecimals d ->
  sameBalances (adjust (adjust l k d) k (- d)) l.
Proof.
  intros Hl Hd. induction Hl as [| a l Ha Hl IH]; [constructor |].
  unfold adjust in *. cbn [map]. constructor; [| exact IH].
  destruct (String.eqb (Account.id a) k) eqn:E; cbn [Account.id Account.balance].
  - rewrite E. cbn [Account.id Account.balance]. split; [reflexivity |].
    rewrite (toFixed2_plus _ (- d)) by auto using twoDecimals_toFixed2, twoDecimals_opp.
    rewrite (toFixed2_plus _ d) by assumption. ring.
  - rewrite E. split; reflexivity.
Qed.


Lemma sameBalances_trans (l1 l2 l3 : list Account.t) :
  sameBalances l1 l2 -> sameBalances l2 l3 -> sameBalances l1 l3.
Proof.
  intros H12. revert l3. induction H12 as [| a b l1 l2 [Hid Hb] H12 IH];
    intros l3 H23; inversion H23 as [| ? c ? l3' [Hid' Hb'] H23']; subst;
    constructor.
  - split; [congruence | rewrite Hb; exact Hb'].
  - apply IH. exact H23'.
Qed.

Lemma adjust_sameBalances (l1 l2 : list Account.t) (k : Id) (d : Q) :
  sameBalances l1 l2 -> sameBalances (adjust l1 k d) (adjust l2 k d).
Proof.
  intros H. induction H as [| a b l1 l2 [Hid Hb] H IH]; [constructor |].
  unfold adjust in *. cbn [map]. constructor; [| exact IH].
  rewrite <- Hid. destruct (String.eqb (Account.id a) k); cbn [Account.id Account.balance].
  - split; [reflexivity |].
    rewrite (toFixed2_eq _ (Account.balance b + d)); [reflexivity |].
    rewrite Hb. reflexivity.
  - split; [| exact Hb]. rewrite Hid. reflexivity.
Qed.

Lemma adjust_comm (l : list Account.t) (k1 k2 : Id) (d1 d2 : Q) :
  k1 <> k2 ->
  adjust (adjust l k1 d1) k2 d2 = adjust (adjust l k2 d2) k1 d1.
Proof.
  intros Hne. unfold adjust. rewrite !map_map. apply map_ext. intros a.
  destruct (String.eqb (Account.id a) k1) eqn:E1;
    destruct (String.eqb (Account.id a) k2) eqn:E2;
    cbn [Account.id]; rewrite ?E1, ?E2; try reflexivity.
  apply String.eqb_eq in E1, E2. congruence.
Qed.

Lemma adjust_delta_eq (l : list Account.t) (k : Id) (d d' : Q) :
  (d == d')%Q -> adjust l k d = adjust l k d'.
Proof.
  intros E. unfold adjust. apply map_ext. intros a.
  destruct (String.eqb (Account.id a) k); [| reflexivity].
  rewrite (toFixed2_eq _ (Account.balance a + d')); [reflexivity |].
  rewrite E. reflexivity.
Qed.

Lemma transfer_back (l : list Account.t) (from to : Id) (d : Q) :
  from <> to -> centBalances l -> twoDecimals d ->
  sameBalances
    (adjust (adjust (adjust (adjust l from (- d)) to d) from d) to (- d)) l.
Proof.
  intros Hne Hl Hd.
  rewrite (adjust_comm (adjust l from (- d)) to from d d) by congruence.
  apply (sameBalances_trans _ (adjust (adjust l to d) to (- d))).
  - do 2 apply adjust_sameBalances.
    rewrite (adjust_delta_eq _ from d (- - d)) by ring.
    apply adjust_back; auto using twoDecimals_opp.
  - apply adjust_back; assumption.
Qed.

(** X3.  Adding a record under an unused id and deleting it again gives
    back the collection and the journal, and, the balances and the amount
    being whole numbers of cents, the balances: for incomes, for expenses
    and for transfers that [addTransfer] accepts. *)
Theorem add_then_delete (s : Store.t) :
  centBalances (Store.accounts s) ->
  (forall (id txnId : Id) (inc : Income.t),
      ~ In id (map Income.id (Store.incomes s)) ->
      unlinked LIncome id (Store.accountTxns s) = true ->
      twoDecimals (Income.amount inc) ->
      let s' := delIncome id (addIncome id txnId inc s) in
      Store.incomes s' = Store.incomes s
      /\ Store.accountTxns s' = Store.accountTxns s
      /\ sameBalances (Store.accounts s') (Store.accounts s))
  /\ (forall (id txnId : Id) (exp : Expense.t),
      ~ In id (map Expense.id (Store.expenses s)) ->
      unlinked LExpense id (Store.accountTxns s) = true ->
      twoDecimals (Expense.amount exp) ->
      let s' := delExpense id (addExpense id txnId exp s) in
      Store.expenses s' = Store.expenses s
      /\ Store.accountTxns s' = Store.accountTxns s
      /\ sameBalances (Store.accounts s') (Store.accounts s))
  /\ (forall (id txnId1 txnId2 : Id) (tr : Transfer.t),
      ~ In id (map Transfer.id (Store.transfers s)) ->
      unlinked LTransfer id (Store.accountTxns s) = true ->
      twoDecimals (Transfer.amount tr) ->
      transferRejected tr = false ->
      let s' := delTransfer id (addTransfer id txnId1 txnId2 tr s) in
      Store.transfers s' = Store.transfers s
      /\ Store.accountTxns s' = Store.accountTxns s
      /\ sameBalances (Store.accounts s') (Store.accounts s)).
Proof.
  intros Hc. split; [| split].
  - intros id txnId inc Hfresh Hun H2 s'. unfold s', delIncome, addIncome.
    cbn [Store.incomes find Income.id]. rewrite String.eqb_refl.
    cbn [Store.incomes Store.accountTxns Store.accounts List.filter Income.id
         Income.accountId Income.amount linkedTo AccountTxn.linkedType
         AccountTxn.linkedId LinkedType_eqb andb negb].
    rewrite String.eqb_refl. cbn [negb].
    rewrite (filter_fresh Income.id) by exact Hfresh.
    rewrite filter_unlinked by exact Hun.
    repeat split. apply adjust_back; assumption.
  - intros id txnId exp Hfresh Hun H2 s'. unfold s', delExpense, addExpense.
    cbn [Store.expenses find Expense.id]. rewrite String.eqb_refl.
    cbn [Store.expenses Store.accountTxns Store.accounts List.filter Expense.id
         Expense.accountId Expense.amount linkedTo AccountTxn.linkedType
         AccountTxn.linkedId LinkedType_eqb andb negb].
    rewrite String.eqb_refl. cbn [negb].
    rewrite (filter_fresh Expense.id) by exact Hfresh.
    rewrite filter_unlinked by exact Hun.
    repeat split.
    rewrite (adjust_delta_eq _ _ (Expense.amount exp) (- - Expense.amount exp)) by ring.
    apply adjust_back; auto using twoDecimals_opp.
  - intros id txnId1 txnId2 tr Hfresh Hun H2 Hok s'. unfold s', delTransfer, addTransfer.
    rewrite Hok.
    cbn [Store.transfers find Transfer.id]. rewrite String.eqb_refl.
    cbn [Store.transfers Store.accountTxns Store.accounts List.filter Transfer.id
         Transfer.fromAccountId Transfer.toAccountId Transfer.amount
         linkedTo AccountTxn.linkedType
         AccountTxn.linkedId LinkedType_eqb andb negb].
    rewrite String.eqb_refl. cbn [negb].
    rewrite (filter_fresh Transfer.id) by exact Hfresh.
    rewrite filter_unlinked by exact Hun.
    repeat split. apply transfer_back; try assumption.
    unfold transferRejected in Hok. apply orb_false_iff in Hok.
    apply String.eqb_neq. exact (proj1 Hok).
Qed.

Lemma add_then_delete_witness :
  let tr := Transfer.mk "" "2024-02-08" "B" "A" (1250 # 100) (Some "lunch") in
  let s' := delTransfer "t2" (addTransfer "t2" "x5" "x6" tr afterTransfer) in
  Store.transfers s' = Store.transfers afterTransfer
  /\ Store.accountTxns s' = Store.accountTxns afterTransfer
  /\ sameBalances (Store.accounts s') (Store.accounts afterTransfer).
Proof.
  assert (Hc : centBalances (Store.accounts afterTransfer))
    by (repeat constructor).
  apply (proj2 (proj2 (add_then_delete afterTransfer Hc))).
  - vm_compute. intros [H | []]. discriminate H.
  - reflexivity.
  - reflexivity.
  - reflexivity.
Defined.

(* ====================================================================== *)
(** * Accounts, goals and contributions *)
(* ====================================================================== *)

(** ** Deleting an account *)

Lemma filter_adjust (a : Id) (l : list Account.t) (k : Id) (d : Q) :
  List.filter (fun x => negb (String.eqb (Account.id x) a)) (adjust l k d)
  = adjust (List.filter (fun x => negb (String.eqb (Account.id x) a)) l) k d.
Proof.
  unfold adjust. induction l as [| x l IH]; cbn [map List.filter]; [reflexivity |].
  destruct (String.eqb (Account.id x) k) eqn:E; cbn [Account.id];
    destruct (String.eqb (Account.id x) a); cbn [negb map];
    rewrite ?E, IH; reflexivity.
Qed.

Lemma find_filter_keep {A : Type} (key : A -> string) (a k : string) (l : list A) :
  k <> a ->
  find (fun x => String.eqb (key x) k)
       (List.filter (fun x => negb (String.eqb (key x) a)) l)
  = find (fun x => String.eqb (key x) k) l.
Proof.
  intros Hne. induction l as [| x l IH]; simpl; [reflexivity |].
  destruct (String.eqb_spec (key x) a) as [Ea | Ea]; simpl.
  - destruct (String.eqb_spec (key x) k) as [Ek | Ek]; [congruence | exact IH].
  - rewrite IH. reflexivity.
Qed.

Lemma accountName_filter (a k fallback : string) (l : list Account.t) :
  k <> a ->
  accountName (List.filter (fun x => negb (String.eqb (Account.id x) a)) l) k fallback
  = accountName l k fallback.
Proof.
  intros Hne. unfold accountName.
  rewrite (find_filter_keep Account.id a k l Hne). reflexivity.
Qed.

Lemma namesNot_sides (a : Id) (tr : Transfer.t) :
  negb (String.eqb (Transfer.fromAccountId tr) a)
  && negb (String.eqb (Transfer.toAccountId tr) a) = true ->
  Transfer.fromAccountId tr <> a /\ Transfer.toAccountId tr <> a.
Proof.
  intros H. apply andb_true_iff in H. destruct H as [H1 H2].
  apply negb_true_iff in H1, H2. split; apply String.eqb_neq; assumption.
Qed.

(** X4.  Deleting an account commutes with every mutation of the ledger
    whose journal notes do not quote the name of that account: recording,
    editing or deleting an income, an expense, an investment or a transfer
    before or after the account is deleted gives the same store, the
    records and journal entries of the deleted account included. *)
Theorem delAccount_commutes (a : Id) (o : Op) (s : Store.t) :
  namesNot a o = true ->
  applyOp o (delAccount a s) = delAccount a (applyOp o s).
Proof.
  intros Ho.
  destruct o as [id txnId inc | id | edited | id txnId exp | id | edited
                 | id t1 t2 tr | id | edited | id v | id];
    cbn [applyOp namesNot] in *.
  - unfold addIncome, delAccount; cbn. rewrite filter_adjust. reflexivity.
  - unfold delIncome, delAccount; cbn.
    destruct (find _ (Store.incomes s)); cbn; [| reflexivity].
    rewrite filter_adjust. reflexivity.
  - unfold updateIncome, delAccount; cbn.
    destruct (find _ (Store.incomes s)) as [original |]; cbn; [| reflexivity].
    destruct (String.eqb (Income.accountId original) (Income.accountId edited));
      cbn; rewrite !filter_adjust; reflexivity.
  - unfold addExpense, delAccount; cbn. rewrite filter_adjust. reflexivity.
  - unfold delExpense, delAccount; cbn.
    destruct (find _ (Store.expenses s)); cbn; [| reflexivity].
    rewrite filter_adjust. reflexivity.
  - unfold updateExpense, delAccount; cbn.
    destruct (find _ (Store.expenses s)) as [original |]; cbn; [| reflexivity].
    destruct (String.eqb (Expense.accountId original) (Expense.accountId edited));
      cbn; rewrite !filter_adjust; reflexivity.
  - destruct (namesNot_sides a tr Ho) as [Hf Ht].
    unfold addTransfer, delAccount; cbn.
    destruct (transferRejected tr); cbn; [reflexivity |].
    rewrite !filter_adjust, !accountName_filter by assumption. reflexivity.
  - unfold delTransfer, delAccount; cbn.
    destruct (find _ (Store.transfers s)); cbn; [| reflexivity].
    rewrite !filter_adjust. reflexivity.
  - destruct (namesNot_sides a edited Ho) as [Hf Ht].
    unfold updateTransfer, delAccount; cbn.
    destruct (find _ (Store.transfers s)) as [original |]; cbn; [| reflexivity].
    rewrite !filter_adjust, !accountName_filter by assumption. reflexivity.
  - unfold addInvestment, delAccount; cbn.
    destruct (linkedAccount (Investment.accountId v)); cbn;
      rewrite ?filter_adjust; reflexivity.
  - unfold delInvestment, delAccount; cbn.
    destruct (find _ (Store.investments s)) as [v |]; cbn; [| reflexivity].
    destruct (linkedAccount (Investment.accountId v)); cbn;
      rewrite ?filter_adjust; reflexivity.
Qed.

Lemma delAccount_commutes_witness :
  applyOp (DelTransfer "t1") (delAccount "B" afterTransfer)
  = delAccount "B" (applyOp (DelTransfer "t1") afterTransfer).
Proof. apply delAccount_commutes. reflexivity. Defined.

(** ** Goals and their contributions *)

Lemma contribs_filter_other (p id : Id) (l : list ProjectContribution.t) :
  p <> id ->
  List.filter (fun c => String.eqb (ProjectContribution.projectId c) p)
    (List.filter (fun c => negb (String.eqb (ProjectContribution.projectId c) id)) l)
  = List.filter (fun c => String.eqb (ProjectContribution.projectId c) p) l.
Proof.
  intros Hne. induction l as [| c l IH]; simpl; [reflexivity |].
  destruct (String.eqb_spec (ProjectContribution.projectId c) id) as [E | E]; simpl.
  - destruct (String.eqb_spec (ProjectContribution.projectId c) p) as [E' | E'];
      [congruence | exact IH].
  - rewrite IH. reflexivity.
Qed.

(** X5.  Deleting a goal takes its statistics out of [projectStats] and
    leaves the statistics of every other goal as they were; no
    contribution to the deleted goal stays in the store. *)
Theorem delProject_stats (now : Z) (id : Id) (s : Store.t) :
  projectStats now (delProject id s)
  = List.filter (fun st => negb (String.eqb (Project.id (ProjectStat.project st)) id))
      (projectStats now s)
  /\ statOf now (delProject id s) id = None
  /\ Forall (fun c => ProjectContribution.projectId c <> id)
       (Store.projectContribs (delProject id s)).
Proof.
  assert (H1 : projectStats now (delProject id s)
               = List.filter
                   (fun st => negb (String.eqb (Project.id (ProjectStat.project st)) id))
                   (projectStats now s)).
  { unfold projectStats, delProject.
    cbn [Store.projects Store.projectContribs].
    induction (Store.projects s) as [| p l IH]; cbn [map List.filter]; [reflexivity |].
    change (Project.id (ProjectStat.project (projectStat now (Store.projectContribs s) p)))
      with (Project.id p).
    destruct (String.eqb_spec (Project.id p) id) as [E | E]; cbn [negb map].
    - exact IH.
    - rewrite IH. f_equal. unfold projectStat.
      rewrite (contribs_filter_other (Project.id p) id _ E). reflexivity. }
  split; [exact H1 |]. split.
  - unfold statOf. rewrite H1.
    apply (find_filter_other (fun st => Project.id (ProjectStat.project st))).
  - unfold delProject. cbn [Store.projectContribs].
    apply List.Forall_forall. intros c Hc. apply filter_In in Hc.
    destruct Hc as [_ Hc]. apply negb_true_iff in Hc.
    apply String.eqb_neq. exact Hc.
Qed.



Lemma Qceiling_nonpos (q : Q) : (q <= 0)%Q -> Qceiling q <= 0.
Proof.
  intros Hq. pose proof (Qceiling_lt q) as Hc.
  assert (H : (inject_Z (Qceiling q - 1) < inject_Z 0)%Q)
    by (eapply Qlt_le_trans; [exact Hc | exact Hq]).
  rewrite <- Zlt_Qlt in H. lia.
Qed.

Lemma Qmax_0_nonneg (x : Q) : (0 <= Qmax 0 x)%Q.
Proof.
  unfold Qmax. destruct (Qle_bool 0 x) eqn:E.
  - apply Qle_bool_iff. exact E.
  - apply Qle_refl.
Qed.

(** X7.  The edges of the goal statistics.  The remaining amount is never
    negative, and is zero once the contributions reach the target, when
    nothing is required per month; the months left are never fewer than
    one; a goal whose target date has passed has one month left, so that
    all that remains is required now. *)
Theorem goal_edges (now : Z) (contribs : list ProjectContribution.t)
  (p : Project.t) :
  let st := projectStat now contribs p in
  (0 <= ProjectStat.remaining st)%Q
  /\ ((Project.targetAmount p <= ProjectStat.contributed st)%Q ->
      (ProjectStat.remaining st == 0)%Q
      /\ forall r, ProjectStat.requiredMonthly st = Some r -> (r == 0)%Q)
  /\ (forall m, ProjectStat.monthsLeft st = Some m -> 1 <= m)
  /\ (forall y m d,
         validDate y m d ->
         Project.targetDate p = isoDate y m d ->
         getTime (Date.mk y m d 0) <= now ->
         ProjectStat.monthsLeft st = Some 1
         /\ ProjectStat.requiredMonthly st
            = Some (toFixed2 (ProjectStat.remaining st))).
Proof.
  intros st. split; [| split; [| split]].
  - apply Qmax_0_nonneg.
  - intros Hmet.
    assert (Hrem : (ProjectStat.remaining st == 0)%Q).
    { unfold st, projectStat. cbn [ProjectStat.remaining ProjectStat.contributed] in *.
      unfold Qmax.
      destruct (Qle_bool 0 _) eqn:E; [| reflexivity].
      apply Qle_bool_iff in E. apply Qle_antisym; [| exact E].
      unfold st, projectStat in Hmet. cbn [ProjectStat.contributed] in Hmet.
      apply (Qplus_le_r _ _ (fold_left
               (fun s c => s + ProjectContribution.amount c)
               (List.filter
                  (fun c => String.eqb (ProjectContribution.projectId c) (Project.id p))
                  contribs) 0))%Q.
      ring_simplify. exact Hmet. }
    split; [exact Hrem |].
    intros r Hr. unfold st, projectStat in Hr, Hrem.
    cbn [ProjectStat.requiredMonthly ProjectStat.remaining] in Hr, Hrem.
    destruct (parseISODate (Project.targetDate p)); [| discriminate Hr].
    cbn [option_map] in Hr. injection Hr as <-.
    rewrite (toFixed2_eq _ 0%Q); [reflexivity |].
    rewrite Hrem. unfold Qdiv. ring.
  - intros m Hm. unfold st, projectStat in Hm. cbn [ProjectStat.monthsLeft] in Hm.
    destruct (parseISODate (Project.targetDate p)); [| discriminate Hm].
    injection Hm as <-. lia.
  - intros y m d Hv Hdate Hpast.
    assert (Hml : ProjectStat.monthsLeft st = Some 1).
    { unfold st, projectStat. cbn [ProjectStat.monthsLeft].
      rewrite Hdate, (parseISODate_isoDate _ _ _ Hv). f_equal.
      apply Z.max_l. apply Z.le_trans with 0; [| lia].
      apply Qceiling_nonpos.
      apply Qle_shift_div_r; [reflexivity |].
      rewrite Qmult_0_l. unfold Qle. simpl. lia. }
    split; [exact Hml |].
    unfold st, projectStat in *.
    cbn [ProjectStat.monthsLeft ProjectStat.requiredMonthly ProjectStat.remaining] in *.
    rewrite Hml. cbn [option_map]. f_equal. apply toFixed2_eq.
    unfold Qdiv. change (/ inject_Z 1)%Q with 1%Q. ring.
Qed.

Lemma goal_edges_witness :
  let st := projectStat 1800000000000 goalContribs goal in
  ProjectStat.monthsLeft st = Some 1
  /\ ProjectStat.requiredMonthly st = Some (toFixed2 (ProjectStat.remaining st)).
Proof.
  apply (proj2 (proj2 (proj2 (goal_edges 1800000000000 goalContribs goal))) 2024 9 1).
  - unfold validDate. cbn. lia.
  - reflexivity.
  - vm_compute. discriminate.
Defined.

(* ====================================================================== *)
(** * Money in the accounts *)
(* ====================================================================== *)

(** ** What transfers do to the total *)






(** ** Recording an investment and deleting it again *)

(** X9.  An investment linked to an account, recorded under an unused id
    and deleted again, is gone from the store and leaves every other
    account alone; the linked account gets its balance back when the
    amount is positive, and ends twice the withdrawn amount above it when
    the amount is negative: the deletion repeats the deposit that the
    recording made. *)
Theorem investment_round_trip (id a : Id) (v : Investment.t) (s : Store.t) (b : Q) :
  ~ In id (map Investment.id (Store.investments s)) ->
  linkedAccount (Investment.accountId v) = Some a ->
  balanceOf (Store.accounts s) a = Some b ->
  twoDecimals b -> twoDecimals (Investment.amount v) ->
  let s' := delInvestment id (addInvestment id v s) in
  Store.investments s' = Store.investments s
  /\ (forall k, k <> a ->
        balanceOf (Store.accounts s') k = balanceOf (Store.accounts s) k)
  /\ exists b',
       balanceOf (Store.accounts s') a = Some b'
       /\ (b' == if Qpositive (Investment.amount v) then b
                 else b - 2 * Investment.amount v)%Q.
Proof.
  intros Hfresh Ha Hb H2b H2v s'. unfold s', delInvestment, addInvestment.
  cbn [Store.investments find Investment.id]. rewrite String.eqb_refl.
  cbn [Store.investments Store.accounts List.filter Investment.id
       Investment.accountId Investment.amount].
  rewrite String.eqb_refl. cbn [negb].
  rewrite (filter_fresh Investment.id) by exact Hfresh.
  rewrite Ha. split; [reflexivity |]. split.
  - intros k Hk. rewrite !balanceOf_adjust_other by exact Hk. reflexivity.
  - eexists. split.
    + apply balanceOf_adjust_same. apply balanceOf_adjust_same. exact Hb.
    + pose proof (twoDecimals_investmentDelta _ H2v) as H2d.
      rewrite (toFixed2_eq _ (b + investmentDelta (Investment.amount v)
                              + (if Qpositive (Investment.amount v)
                                 then Investment.amount v
                                 else - Investment.amount v))).
      2: { rewrite (toFixed2_plus b _ H2b H2d). reflexivity. }
      rewrite toFixed2_twoDecimals.
      2: { apply twoDecimals_plus; [apply twoDecimals_plus; assumption |].
           destruct (Qpositive (Investment.amount v)); auto using twoDecimals_opp. }
      unfold investmentDelta, Qpositive.
      destruct (Qle_bool (Investment.amount v) 0) eqn:E; cbn [negb].
      * apply Qle_bool_iff in E. rewrite (Qabs_neg _ E). ring.
      * assert (Hpos : (0 <= Investment.amount v)%Q).
        { destruct (Qlt_le_dec 0 (Investment.amount v)) as [H | H].
          - apply Qlt_le_weak. exact H.
          - apply Qle_bool_iff in H. congruence. }
        rewrite (Qabs_pos _ Hpos). ring.
Qed.

Lemma investment_round_trip_witness :
  let v := Investment.mk "" "2024-03-01" "Bond" (- (50 # 1)) (Some "A") None in
  exists b',
    balanceOf (Store.accounts (delInvestment "v1" (addInvestment "v1" v zeroAccounts))) "A"
    = Some b'
    /\ (b' == 0 - 2 * - (50 # 1))%Q.
Proof.
  intros v.
  assert (Hfresh : ~ In "v1" (map Investment.id (Store.investments zeroAccounts)))
    by (simpl; tauto).
  exact (proj2 (proj2 (investment_round_trip "v1" "A" v zeroAccounts 0 Hfresh
                         eq_refl eq_refl eq_refl eq_refl))).
Defined.

(* ====================================================================== *)
(** * Recurrence outside its window, and what the projector emits *)
(* ====================================================================== *)

(** X10.  An expense does not occur in a month when its recurrence is
    not enabled, when it has no anchor date, when the month is before the
    month of the anchor date, or when it is after the month of the end
    date. *)
Theorem recurrence_outside_window (exp : Expense.t) :
  (forall ym, recurrenceEnabled exp = false ->
              recurrenceOccursThisMonth exp ym = false)
  /\ (forall ym, anchorISO exp = "" -> recurrenceOccursThisMonth exp ym = false)
  /\ (forall ya ma da y m,
         anchorISO exp = isoDate ya ma da ->
         0 <= ya <= 9999 -> 1 <= ma <= 12 -> 0 <= y <= 9999 -> 1 <= m <= 12 ->
         y * 12 + m < ya * 12 + ma ->
         recurrenceOccursThisMonth exp (ymString y m) = false)
  /\ (forall ye me de y m,
         recurrenceEnd exp = Some (isoDate ye me de) ->
         0 <= ye <= 9999 -> 1 <= me <= 12 -> 0 <= y <= 9999 -> 1 <= m <= 12 ->
         ye * 12 + me < y * 12 + m ->
         recurrenceOccursThisMonth exp (ymString y m) = false).
Proof.
  split; [| split; [| split]].
  - intros ym H. unfold recurrenceOccursThisMonth. rewrite H. reflexivity.
  - intros ym H. unfold recurrenceOccursThisMonth, inRangeMonth. rewrite H.
    destruct (recurrenceEnabled exp); reflexivity.
  - intros ya ma da y m Ha Hya Hma Hy Hm Hlt.
    unfold recurrenceOccursThisMonth, inRangeMonth.
    rewrite Ha, ymKey_isoDate, ymString_not_empty.
    assert (Hleb : String.leb (ymString ya ma) (ymString y m) = false).
    { unfold String.leb. rewrite compare_ymString by assumption.
      destruct (Z.compare_spec (ya * 12 + ma) (y * 12 + m)); [lia | lia | reflexivity]. }
    rewrite Hleb.
    destruct (recurrenceEnabled exp); cbn [negb]; [| reflexivity].
    destruct (truthy _ && _); reflexivity.
  - intros ye me de y m He Hye Hme Hy Hm Hlt.
    unfold recurrenceOccursThisMonth, inRangeMonth. rewrite He.
    cbn [truthy option_map]. rewrite isoDate_not_empty. cbn [negb truthy].
    rewrite ymKey_isoDate, ymString_not_empty.
    assert (Hltb : String.ltb (ymString ye me) (ymString y m) = true).
    { unfold String.ltb. rewrite compare_ymString by assumption.
      destruct (Z.compare_spec (ye * 12 + me) (y * 12 + m)); [lia | reflexivity | lia]. }
    rewrite Hltb. cbn [negb andb].
    destruct (recurrenceEnabled exp); cbn [negb]; [| reflexivity].
    destruct (String.eqb (ymKey (anchorISO exp)) ""); reflexivity.
Qed.

Lemma recurrence_outside_window_witness :
  recurrenceOccursThisMonth quarterlyRent (ymString 2023 10) = false.
Proof.
  apply (proj1 (proj2 (proj2 (recurrence_outside_window quarterlyRent))) 2024 1 5);
    [reflexivity | lia ..].
Defined.

(** ** The rows of the projector *)

Lemma prefix_app (sub rest : string) : String.prefix sub (sub ++ rest) = true.
Proof.
  induction sub as [| c sub IH]; simpl; [destruct rest; reflexivity |].
  destruct (Ascii.ascii_dec c c) as [_ | N]; [exact IH | contradiction].
Qed.

Lemma includes_app (sub pre rest : string) :
  includes sub (pre ++ sub ++ rest) = true.
Proof.
  induction pre as [| c pre IH].
  - change ("" ++ sub ++ rest)%string with (sub ++ rest)%string.
    destruct (sub ++ rest)%string eqn:E; cbn [includes];
      rewrite <- E, prefix_app; reflexivity.
  - change (String c pre ++ sub ++ rest)%string with (String c (pre ++ sub ++ rest)).
    cbn [includes]. rewrite IH. apply orb_true_r.
Qed.

Lemma projectedRows_sound (tz : Z) (month : string) (es rows : list Expense.t) :
  projectedRows tz month es = Some rows ->
  Forall (fun row =>
            exists e d,
              In e es /\ row = projectedRow month d e
              /\ recurrenceOccursThisMonth e month = true
              /\ ymKey (Expense.date e) <> month)
         rows.
Proof.
  revert rows. induction es as [| e es IH]; intros rows H; cbn [projectedRows] in H.
  - injection H as <-. constructor.
  - destruct (recurrenceOccursThisMonth e month
              && negb (String.eqb (ymKey (Expense.date e)) month)) eqn:C.
    + destruct (projectedDate tz month e) as [d |]; [| discriminate H].
      destruct (projectedRows tz month es) as [rows' |]; [| discriminate H].
      injection H as <-. apply andb_true_iff in C. destruct C as [C1 C2].
      apply negb_true_iff, String.eqb_neq in C2.
      constructor.
      * exists e, d. repeat split; [left; reflexivity | assumption ..].
      * eapply List.Forall_impl; [| exact (IH rows' eq_refl)].
        intros row (e' & d' & Hin & Hrow & Hocc & Hym).
        exists e', d'. repeat split; [right; exact Hin | assumption ..].
    + eapply List.Forall_impl; [| exact (IH rows H)].
      intros row (e' & d' & Hin & Hrow & Hocc & Hym).
      exists e', d'. repeat split; [right; exact Hin | assumption ..].
Qed.

Lemma projectedRows_complete (tz : Z) (month : string) (es rows : list Expense.t) :
  projectedRows tz month es = Some rows ->
  forall e, In e es ->
            recurrenceOccursThisMonth e month = true ->
            ymKey (Expense.date e) <> month ->
            exists d, In (projectedRow month d e) rows.
Proof.
  revert rows. induction es as [| e0 es IH]; intros rows H e Hin Hocc Hym;
    [destruct Hin |]. cbn [projectedRows] in H.
  destruct (recurrenceOccursThisMonth e0 month
            && negb (String.eqb (ymKey (Expense.date e0)) month)) eqn:C.
  - destruct (projectedDate tz month e0) as [d |]; [| discriminate H].
    destruct (projectedRows tz month es) as [rows' |]; [| discriminate H].
    injection H as <-. destruct Hin as [-> | Hin].
    + exists d. left. reflexivity.
    + destruct (IH rows' eq_refl e Hin Hocc Hym) as [d' Hd'].
      exists d'. right. exact Hd'.
  - destruct Hin as [-> | Hin].
    + apply String.eqb_neq in Hym. rewrite Hocc, Hym in C. discriminate C.
    + exact (IH rows H e Hin Hocc Hym).
Qed.

Lemma projectedRows_length (tz : Z) (month : string) (es rows : list Expense.t) :
  projectedRows tz month es = Some rows -> (length rows <= length es)%nat.
Proof.
  revert rows. induction es as [| e es IH]; intros rows H; cbn [projectedRows] in H.
  - injection H as <-. apply Nat.le_refl.
  - destruct (recurrenceOccursThisMonth e month
              && negb (String.eqb (ymKey (Expense.date e)) month)).
    + destruct (projectedDate tz month e) as [d |]; [| discriminate H].
      destruct (projectedRows tz month es) as [rows' |]; [| discriminate H].
      injection H as <-. simpl. apply le_n_S. exact (IH rows' eq_refl).
    + simpl. apply Nat.le_trans with (length es); [exact (IH rows H) | apply Nat.le_succ_diag_r].
Qed.

Lemma filter_length_le {A : Type} (f : A -> bool) (l : list A) :
  (length (List.filter f l) <= length l)%nat.
Proof.
  induction l as [| x l IH]; simpl; [apply Nat.le_refl |].
  destruct (f x); simpl; [apply le_n_S; exact IH |].
  apply Nat.le_trans with (length l); [exact IH | apply Nat.le_succ_diag_r].
Qed.

(** X11.  What the projector returns, in any time zone.  Every row it
    emits carries the tag by which the table tells projected rows from
    recorded ones, and stands for an expense that recurs in the month, is
    not itself dated in the month and has no recorded expense of the month
    with its category, amount and account; every such expense has a row;
    and there are no more rows than expenses. *)
Theorem projector_rows (tz : Z) (expenses : list Expense.t) (month : string)
  (rows : list Expense.t) :
  monthExpensesProjectedOnly tz expenses month = Some rows ->
  Forall (fun row =>
            isProjected row = true
            /\ exists e,
                 In e expenses /\ projectionOf month e row
                 /\ recurrenceOccursThisMonth e month = true
                 /\ ymKey (Expense.date e) <> month
                 /\ recordedAlike expenses month e = false)
         rows
  /\ (forall e, In e expenses ->
                recurrenceOccursThisMonth e month = true ->
                ymKey (Expense.date e) <> month ->
                recordedAlike expenses month e = false ->
                exists row, In row rows /\ projectionOf month e row)
  /\ (length rows <= length expenses)%nat.
Proof.
  unfold monthExpensesProjectedOnly. intros H.
  destruct (projectedRows tz month expenses) as [all |] eqn:Hall; [| discriminate H].
  cbn [option_map] in H. injection H as <-.
  split; [| split].
  - apply List.Forall_forall. intros row Hrow. apply filter_In in Hrow.
    destruct Hrow as [Hrow Hkeep].
    pose proof (proj1 (List.Forall_forall _ _) (projectedRows_sound _ _ _ _ Hall) row Hrow)
      as (e & d & Hin & -> & Hocc & Hym).
    split.
    + unfold isProjected, projectedRow. cbn [Expense.id]. apply includes_app.
    + exists e. repeat split; try assumption.
      apply negb_true_iff in Hkeep. exact Hkeep.
  - intros e Hin Hocc Hym Halike.
    destruct (projectedRows_complete _ _ _ _ Hall e Hin Hocc Hym) as [d Hd].
    exists (projectedRow month d e). split; [| repeat split].
    apply filter_In. split; [exact Hd |].
    apply negb_true_iff. exact Halike.
  - apply Nat.le_trans with (length all);
      [apply filter_length_le | exact (projectedRows_length _ _ _ _ Hall)].
Qed.

Lemma projector_rows_witness :
  let rows := [Expense.mk "e1__proj__2024-03" "2024-03-05" "Rent" 500%Q true
                 (Expense.recurrence rent) "A" (Some "(Projected)")] in
  Forall (fun row =>
            isProjected row = true
            /\ exists e,
                 In e [rent] /\ projectionOf "2024-03" e row
                 /\ recurrenceOccursThisMonth e "2024-03" = true
                 /\ ymKey (Expense.date e) <> "2024-03"
                 /\ recordedAlike [rent] "2024-03" e = false)
         rows
  /\ (forall e, In e [rent] ->
                recurrenceOccursThisMonth e "2024-03" = true ->
                ymKey (Expense.date e) <> "2024-03" ->
                recordedAlike [rent] "2024-03" e = false ->
                exists row, In row rows /\ projectionOf "2024-03" e row)
  /\ (length rows <= length [rent])%nat.
Proof. exact (projector_rows 0 [rent] "2024-03" _ eq_refl). Defined.

(* ====================================================================== *)
(** * Monthly totals, the cards and the trend *)
(* ====================================================================== *)

(** ** Sorting keys *)

Lemma insertSorted_perm (k : string) (l : list string) :
  Permutation (insertSorted k l) (k :: l).
Proof.
  induction l as [| x l IH]; cbn [insertSorted]; [apply Permutation_refl |].
  destruct (String.leb k x); [apply Permutation_refl |].
  apply Permutation_trans with (x :: k :: l);
    [apply perm_skip; exact IH | apply perm_swap].
Qed.

Lemma sortStrings_perm (l : list string) : Permutation (sortStrings l) l.
Proof.
  induction l as [| x l IH]; cbn [sortStrings fold_right]; [apply perm_nil |].
  apply Permutation_trans with (x :: sortStrings l);
    [apply insertSorted_perm | apply perm_skip; exact IH].
Qed.

Lemma sortStrings_In (l : list string) (x : string) :
  In x (sortStrings l) <-> In x l.
Proof.
  split; apply Permutation_in;
    [apply sortStrings_perm | apply Permutation_sym, sortStrings_perm].
Qed.

Lemma leb_flip (a b : string) : String.leb a b = false -> String.leb b a = true.
Proof.
  intros H. destruct (String.leb_total a b) as [H' | H']; [congruence | exact H'].
Qed.

Lemma insertSorted_sorted (k : string) (l : list string) :
  Sorted (fun a b => String.leb a b = true) l ->
  Sorted (fun a b => String.leb a b = true) (insertSorted k l).
Proof.
  induction 1 as [| x l Hl IH Hhd]; cbn [insertSorted].
  - repeat constructor.
  - destruct (String.leb k x) eqn:E.
    + constructor; [constructor; assumption | constructor; exact E].
    + constructor; [exact IH |].
      destruct l as [| y l]; cbn [insertSorted].
      * constructor. apply leb_flip. exact E.
      * destruct (String.leb k y); constructor.
        -- apply leb_flip. exact E.
        -- inversion Hhd. assumption.
Qed.

Lemma sortStrings_sorted (l : list string) :
  Sorted (fun a b => String.leb a b = true) (sortStrings l).
Proof.
  induction l as [| x l IH]; cbn [sortStrings fold_right]; [constructor |].
  apply insertSorted_sorted. exact IH.
Qed.

Lemma leb_neq_ltb (a b : string) :
  String.leb a b = true -> a <> b -> String.ltb a b = true.
Proof.
  unfold String.leb, String.ltb. intros H Hne.
  destruct (String.compare a b) eqn:E; try reflexivity; try discriminate H.
  apply String.compare_eq_iff in E. contradiction.
Qed.

Lemma sorted_strict (l : list string) :
  Sorted (fun a b => String.leb a b = true) l -> List.NoDup l ->
  Sorted (fun a b => String.ltb a b = true) l.
Proof.
  induction 1 as [| x l Hl IH Hhd]; intros Hnd; [constructor |].
  inversion Hnd as [| ? ? Hx Hnd']; subst.
  constructor; [exact (IH Hnd') |].
  destruct Hhd as [| y l Hxy]; constructor.
  apply leb_neq_ltb; [exact Hxy |].
  intros ->. apply Hx. left. reflexivity.
Qed.

(** Sorting distinct keys gives them in strictly ascending order. *)
Lemma sortStrings_ascending (l : list string) :
  List.NoDup l -> Sorted (fun a b => String.ltb a b = true) (sortStrings l).
Proof.
  intros Hnd. apply sorted_strict; [apply sortStrings_sorted |].
  apply (Permutation_NoDup (Permutation_sym (sortStrings_perm l))). exact Hnd.
Qed.



(** ** The map of [monthlyTotals] *)

Lemma fold_sum_acc {A : Type} (amount : A -> Q) (l : list A) (acc : Q) :
  (fold_left (fun s r => s + amount r) l acc == acc + sumQ (map amount l))%Q.
Proof.
  revert acc. induction l as [| r l IH]; intros acc; cbn [fold_left map sumQ]; [ring |].
  rewrite IH. ring.
Qed.

Section MonthMap.
Context {A : Type} (date : A -> string) (amount : A -> Q).

Lemma monthMap_keys (rows : list A) (m : gmap string Q) (k : string) :
  is_Some (fold_left (addRow date amount) rows m !! k)
  <-> is_Some (m !! k)
      \/ (k <> "" /\ exists r, In r rows /\ ymKey (date r) = k).
Proof.
  revert m. induction rows as [| r rows IH]; intros m; cbn [fold_left].
  - split; [intros H; left; exact H |].
    intros [H | (_ & r & [] & _)]. exact H.
  - rewrite IH. unfold addRow.
    destruct (String.eqb_spec (ymKey (date r)) "") as [E | E].
    + split.
      * intros [H | (Hk & r' & Hin & Hr')]; [left; exact H |].
        right. split; [exact Hk |]. exists r'. split; [right; exact Hin | exact Hr'].
      * intros [H | (Hk & r' & [-> | Hin] & Hr')]; [left; exact H | congruence |].
        right. split; [exact Hk |]. exists r'. split; assumption.
    + rewrite lookup_insert_is_Some. split.
      * intros [[H | [_ H]] | (Hk & r' & Hin & Hr')].
        -- right. split; [congruence |]. exists r. split; [left; reflexivity | exact H].
        -- left. exact H.
        -- right. split; [exact Hk |]. exists r'. split; [right; exact Hin | exact Hr'].
      * intros [H | (Hk & r' & [-> | Hin] & Hr')].
        -- left. destruct (decide (ymKey (date r) = k)) as [Ek | Ek];
             [left; exact Ek | right; split; assumption].
        -- left. left. exact Hr'.
        -- right. split; [exact Hk |]. exists r'. split; assumption.
Qed.

Lemma monthMap_value (rows : list A) (m : gmap string Q) (k : string) :
  k <> "" ->
  (getOr0 (fold_left (addRow date amount) rows m) k
   == getOr0 m k
      + sumQ (map amount
                (List.filter (fun r => String.eqb (ymKey (date r)) k) rows)))%Q.
Proof.
  intros Hk. revert m.
  induction rows as [| r rows IH]; intros m; cbn [fold_left List.filter]; [simpl; ring |].
  rewrite IH. unfold addRow.
  destruct (String.eqb_spec (ymKey (date r)) "") as [E | E].
  - destruct (String.eqb_spec (ymKey (date r)) k) as [Ek | Ek]; [congruence | reflexivity].
  - rewrite getOr0_insert.
    destruct (String.eqb_spec k (ymKey (date r))) as [Ek | Ek].
    + subst k. rewrite String.eqb_refl. cbn [map sumQ]. ring.
    + destruct (String.eqb_spec (ymKey (date r)) k) as [Ek' | Ek']; [congruence | reflexivity].
Qed.

Lemma mapKeys_In (m : gmap string Q) (k : string) :
  In k (map fst (map_to_list m)) <-> is_Some (m !! k).
Proof.
  rewrite in_map_iff. split.
  - intros ([k' v] & <- & Hin). apply list_elem_of_In, elem_of_map_to_list in Hin.
    exists v. exact Hin.
  - intros [v Hv]. exists (k, v). split; [reflexivity |].
    apply list_elem_of_In, elem_of_map_to_list. exact Hv.
Qed.

Lemma mapKeys_NoDup (m : gmap string Q) : List.NoDup (map fst (map_to_list m)).
Proof. apply NoDup_ListNoDup. exact (NoDup_fst_map_to_list m). Qed.

Lemma months_monthlyTotals (rows : list A) :
  map MonthTotal.month (monthlyTotals date amount rows)
  = sortStrings (map fst (map_to_list (fold_left (addRow date amount) rows ∅))).
Proof.
  unfold monthlyTotals. rewrite map_map. cbn [MonthTotal.month]. apply map_id.
Qed.

Lemma monthlyTotals_month (rows : list A) (k : string) :
  In k (map MonthTotal.month (monthlyTotals date amount rows))
  <-> k <> "" /\ exists r, In r rows /\ ymKey (date r) = k.
Proof.
  rewrite months_monthlyTotals, sortStrings_In, mapKeys_In, monthMap_keys.
  rewrite lookup_empty. split.
  - intros [[v Hv] | H]; [discriminate Hv | exact H].
  - intros H. right. exact H.
Qed.

Lemma monthSum_sumQ (rows : list A) (k : string) :
  (monthSum date amount rows k
   == sumQ (map amount (List.filter (fun r => String.eqb (ymKey (date r)) k) rows)))%Q.
Proof. unfold monthSum. rewrite fold_sum_acc. ring. Qed.



End MonthMap.

(** X12.  [monthlyTotals] gives one entry per month key that a dated row
    has, in strictly ascending order of the keys, and the total of an
    entry is the sum of the amounts of the rows of its month, rounded to
    two decimals; rows without a date count nowhere. *)
Theorem monthlyTotals_by_month {A : Type} (date : A -> string) (amount : A -> Q)
  (rows : list A) :
  Sorted (fun a b => String.ltb a b = true)
    (map MonthTotal.month (monthlyTotals date amount rows))
  /\ (forall k, In k (map MonthTotal.month (monthlyTotals date amount rows))
                <-> k <> "" /\ exists r, In r rows /\ ymKey (date r) = k)
  /\ Forall (fun x =>
               MonthTotal.total x
               = toFixed2 (monthSum date amount rows (MonthTotal.month x)))
       (monthlyTotals date amount rows).
Proof.
  split; [| split].
  - rewrite months_monthlyTotals. apply sortStrings_ascending, mapKeys_NoDup.
  - apply monthlyTotals_month.
  - apply List.Forall_forall. intros x Hx.
    assert (Hk : In (MonthTotal.month x)
                   (map MonthTotal.month (monthlyTotals date amount rows)))
      by (apply in_map; exact Hx).
    apply monthlyTotals_month in Hk. destruct Hk as [Hk _].
    unfold monthlyTotals in Hx. apply in_map_iff in Hx.
    destruct Hx as (k & <- & _). cbn [MonthTotal.month MonthTotal.total] in *.
    apply toFixed2_eq. rewrite monthMap_value by exact Hk. rewrite monthSum_sumQ.
    unfold getOr0. rewrite lookup_empty. ring.
Qed.

(** ** The trend against the cards *)








(* ====================================================================== *)
(** * The month switcher *)
(* ====================================================================== *)

Lemma daysInMonth_bounds (y m : Z) : 28 <= daysInMonth y m <= 31.
Proof.
  unfold daysInMonth.
  destruct (m =? 2); [destruct (isLeap y); lia |].
  destruct ((m =? 4) || (m =? 6) || (m =? 9) || (m =? 11)); lia.
Qed.

Lemma daysInMonth_december (y : Z) : daysInMonth y 12 = 31.
Proof. reflexivity. Qed.

Lemma nextDay_prevDay (y m d t t' : Z) :
  1 <= m <= 12 -> 1 <= d <= daysInMonth y m ->
  let p := prevDay (Date.mk y m d t) in
  nextDay (Date.mk (Date.year p) (Date.month p) (Date.day p) t') = Date.mk y m d t'.
Proof.
  intros Hm Hd. unfold prevDay. cbn [Date.year Date.month Date.day Date.minute].
  destruct (Z.ltb_spec 1 d) as [H1 | H1]; cbn [Date.year Date.month Date.day].
  - unfold nextDay. cbn [Date.year Date.month Date.day Date.minute].
    destruct (Z.ltb_spec (d - 1) (daysInMonth y m)); [| lia].
    f_equal. lia.
  - assert (d = 1) by lia. subst d.
    destruct (Z.ltb_spec 1 m) as [H2 | H2]; cbn [Date.year Date.month Date.day];
      unfold nextDay; cbn [Date.year Date.month Date.day Date.minute].
    + rewrite Z.ltb_irrefl.
      destruct (Z.ltb_spec (m - 1) 12); [| lia]. f_equal. lia.
    + assert (m = 1) by lia. subst m.
      rewrite daysInMonth_december. cbn. f_equal. lia.
Qed.

Lemma prevDay_nextDay (y m d t t' : Z) :
  1 <= m <= 12 -> 1 <= d <= daysInMonth y m ->
  let n := nextDay (Date.mk y m d t) in
  prevDay (Date.mk (Date.year n) (Date.month n) (Date.day n) t') = Date.mk y m d t'.
Proof.
  intros Hm Hd. unfold nextDay. cbn [Date.year Date.month Date.day Date.minute].
  destruct (Z.ltb_spec d (daysInMonth y m)) as [H1 | H1];
    cbn [Date.year Date.month Date.day].
  - unfold prevDay. cbn [Date.year Date.month Date.day Date.minute].
    destruct (Z.ltb_spec 1 (d + 1)); [| lia]. f_equal. lia.
  - assert (d = daysInMonth y m) by lia.
    destruct (Z.ltb_spec m 12) as [H2 | H2]; cbn [Date.year Date.month Date.day];
      unfold prevDay; cbn [Date.year Date.month Date.day Date.minute].
    + rewrite Z.ltb_irrefl.
      destruct (Z.ltb_spec 1 (m + 1)); [| lia].
      replace (m + 1 - 1) with m by lia. f_equal. lia.
    + assert (m = 12) by lia. subst m. rewrite daysInMonth_december in *.
      cbn. f_equal; lia.
Qed.

(** Local fields survive the passage through the [Date]. *)
Lemma shift_back (tz : Z) (l : Date.t) :
  -1440 < tz < 1440 -> validLocal l ->
  shiftMinutes (ofLocal tz l) tz = l.
Proof.
  intros Htz (Hm & Hd & Ht). destruct l as [y m d t].
  cbn [Date.year Date.month Date.day Date.minute] in *.
  unfold ofLocal, shiftMinutes at 2. cbn [Date.year Date.month Date.day Date.minute].
  destruct (Z.ltb_spec (t + - tz) 0) as [H1 | H1].
  - unfold shiftMinutes. cbn [Date.year Date.month Date.day Date.minute].
    destruct (Z.ltb_spec (t + - tz + 1440 + tz) 0); [lia |].
    destruct (Z.leb_spec 1440 (t + - tz + 1440 + tz)); [| lia].
    rewrite (nextDay_prevDay y m d t (t + - tz + 1440) Hm Hd).
    cbn [Date.year Date.month Date.day]. f_equal. lia.
  - destruct (Z.leb_spec 1440 (t + - tz)) as [H2 | H2].
    + unfold shiftMinutes. cbn [Date.year Date.month Date.day Date.minute].
      destruct (Z.ltb_spec (t + - tz - 1440 + tz) 0); [| lia].
      rewrite (prevDay_nextDay y m d t (t + - tz - 1440) Hm Hd).
      cbn [Date.year Date.month Date.day]. f_equal. lia.
    + unfold shiftMinutes. cbn [Date.year Date.month Date.day Date.minute].
      destruct (Z.ltb_spec (t + - tz + tz) 0); [lia |].
      destruct (Z.leb_spec 1440 (t + - tz + tz)); [lia |]. f_equal. lia.
Qed.

Lemma addMonths_local (tz : Z) (l : Date.t) (n : Z) :
  -1440 < tz < 1440 -> validLocal l ->
  addMonths tz (ofLocal tz l) n
  = ofLocal tz (setMonthLocal l (Date.month l - 1 + n)).
Proof.
  intros Htz Hl. unfold addMonths. rewrite (shift_back tz l Htz Hl). reflexivity.
Qed.

Lemma setMonthLocal_valid (l : Date.t) (i : Z) :
  validLocal l -> validLocal (setMonthLocal l i).
Proof.
  intros (Hm & Hd & Ht). unfold setMonthLocal, validLocal.
  pose proof (daysInMonth_bounds (Date.year l) (Date.month l)) as B0.
  pose proof (daysInMonth_bounds (Date.year l + i / 12) (i mod 12 + 1)) as B1.
  pose proof (Z.mod_pos_bound i 12 ltac:(lia)) as Hmod.
  destruct (Z.leb_spec (Date.day l) (daysInMonth (Date.year l + i / 12) (i mod 12 + 1))).
  - cbn [Date.year Date.month Date.day Date.minute]. lia.
  - destruct (Z.ltb_spec (i mod 12 + 1) 12);
      cbn [Date.year Date.month Date.day Date.minute].
    + pose proof (daysInMonth_bounds (Date.year l + i / 12) (i mod 12 + 1 + 1)). lia.
    + pose proof (daysInMonth_bounds (Date.year l + i / 12 + 1) 1). lia.
Qed.

Lemma stringOfZ_years :
  forallb (fun k => String.eqb (stringOfZ (1000 + Z.of_nat k)) (pad4 (1000 + Z.of_nat k)))
    (seq 0 (Z.to_nat 9000)) = true.
Proof. vm_compute. reflexivity. Qed.

Lemma stringOfZ_year (y : Z) : 1000 <= y <= 9999 -> stringOfZ y = pad4 y.
Proof.
  intros Hy. pose proof stringOfZ_years as H.
  rewrite forallb_forall in H.
  specialize (H (Z.to_nat (y - 1000))).
  replace (1000 + Z.of_nat (Z.to_nat (y - 1000))) with y in H by lia.
  apply String.eqb_eq, H. apply in_seq. lia.
Qed.

Lemma padStart2_month (m : Z) : 1 <= m <= 12 -> padStart2 (stringOfZ m) = pad2 m.
Proof.
  intros Hm.
  assert (H : m = 1 \/ m = 2 \/ m = 3 \/ m = 4 \/ m = 5 \/ m = 6 \/ m = 7 \/ m = 8
              \/ m = 9 \/ m = 10 \/ m = 11 \/ m = 12) by lia.
  repeat (destruct H as [-> | H]; [reflexivity |]). subst m. reflexivity.
Qed.

Lemma monthKeyFromDate_local (tz : Z) (l : Date.t) :
  -1440 < tz < 1440 -> validLocal l -> 1000 <= Date.year l <= 9999 ->
  monthKeyFromDate tz (ofLocal tz l) = ymString (Date.year l) (Date.month l).
Proof.
  intros Htz Hl Hy. unfold monthKeyFromDate, getFullYear, getMonth.
  rewrite (shift_back tz l Htz Hl).
  rewrite (stringOfZ_year _ Hy).
  replace (Date.month l - 1 + 1) with (Date.month l) by lia.
  rewrite (padStart2_month _ (proj1 Hl)). reflexivity.
Qed.

(** X14.  The month that the switcher shows after moving by [n] months.
    From a local date whose day of the month exists in the month aimed at,
    the key is that of the month aimed at; from a later day (the 29th to
    the 31st) the date runs over and the key is that of the month after
    it, so that one press on "next" on the 31st of January shows March.
    From a day up to the 28th, moving by [n] and back by [n] returns the
    date. *)
Theorem month_switcher (tz : Z) (l : Date.t) (n : Z) :
  -1440 < tz < 1440 -> validLocal l ->
  let i := Date.year l * 12 + (Date.month l - 1) + n in
  12000 <= i < 119999 ->
  let d' := addMonths tz (ofLocal tz l) n in
  monthKeyFromDate tz d'
  = (if Date.day l <=? daysInMonth (i / 12) (i mod 12 + 1)
     then ymString (i / 12) (i mod 12 + 1)
     else ymString ((i + 1) / 12) ((i + 1) mod 12 + 1))
  /\ (Date.day l <= 28 -> addMonths tz d' (- n) = ofLocal tz l).
Proof.
  intros Htz Hl i Hi d'.
  pose proof (setMonthLocal_valid l (Date.month l - 1 + n) Hl) as Hl'.
  assert (Hd' : d' = ofLocal tz (setMonthLocal l (Date.month l - 1 + n)))
    by (apply addMonths_local; assumption).
  assert (Hy : Date.year l + (Date.month l - 1 + n) / 12 = i / 12).
  { unfold i. clear. Z.div_mod_to_equations. lia. }
  assert (Hmo : (Date.month l - 1 + n) mod 12 = i mod 12).
  { unfold i. clear. Z.div_mod_to_equations. lia. }
  split.
  - rewrite Hd'. rewrite monthKeyFromDate_local; try assumption.
    + unfold setMonthLocal. rewrite Hy, Hmo.
      destruct (Z.leb_spec (Date.day l) (daysInMonth (i / 12) (i mod 12 + 1)));
        [reflexivity |].
      destruct (Z.ltb_spec (i mod 12 + 1) 12) as [H12 | H12];
        cbn [Date.year Date.month]; f_equal;
        clear - Hi H12; Z.div_mod_to_equations; lia.
    + unfold setMonthLocal. rewrite Hy, Hmo.
      destruct (Z.leb_spec (Date.day l) (daysInMonth (i / 12) (i mod 12 + 1)));
        [cbn [Date.year]; clear - Hi; Z.div_mod_to_equations; lia |].
      destruct (Z.ltb_spec (i mod 12 + 1) 12) as [H12 | H12];
        cbn [Date.year]; clear - Hi H12; Z.div_mod_to_equations; lia.
  - intros H28. rewrite Hd'. rewrite addMonths_local by assumption.
    f_equal. destruct Hl as (Hm & Hd & Ht).
    pose proof (daysInMonth_bounds (i / 12) (i mod 12 + 1)) as B.
    assert (E1 : setMonthLocal l (Date.month l - 1 + n)
                 = Date.mk (i / 12) (i mod 12 + 1) (Date.day l) (Date.minute l)).
    { unfold setMonthLocal. rewrite Hy, Hmo.
      destruct (Z.leb_spec (Date.day l) (daysInMonth (i / 12) (i mod 12 + 1)));
        [reflexivity | lia]. }
    rewrite E1. unfold setMonthLocal.
    cbn [Date.year Date.month Date.day Date.minute].
    assert (Hback : i mod 12 + 1 - 1 + - n
                    = Date.month l - 1 + (Date.year l - i / 12) * 12).
    { unfold i. clear. Z.div_mod_to_equations. lia. }
    rewrite Hback.
    rewrite Z.div_add, Z.mod_add by lia.
    rewrite (Z.mod_small (Date.month l - 1) 12), (Z.div_small (Date.month l - 1) 12) by lia.
    replace (i / 12 + (0 + (Date.year l - i / 12))) with (Date.year l) by lia.
    replace (Date.month l - 1 + 1) with (Date.month l) by lia.
    destruct (Z.leb_spec (Date.day l) (daysInMonth (Date.year l) (Date.month l))); [| lia].
    destruct l; reflexivity.
Qed.

Lemma month_switcher_witness :
  monthKeyFromDate 180 (addMonths 180 (ofLocal 180 (Date.mk 2023 1 31 600)) 1)
  = "2023-03".
Proof.
  assert (Htz : -1440 < 180 < 1440) by lia.
  assert (Hl : validLocal (Date.mk 2023 1 31 600)) by (unfold validLocal; cbn; lia).
  assert (Hi : 12000 <= 2023 * 12 + (1 - 1) + 1 < 119999) by lia.
  exact (proj1 (month_switcher 180 (Date.mk 2023 1 31 600) 1 Htz Hl Hi)).
Defined.

(* ====================================================================== *)
(** * Reloading from the cloud *)
(* ====================================================================== *)

(** ** Merging by id *)

Section MergeById.
Context {T : Type} (id : T -> Id).

Lemma known_spec (cloud : list T) (x : T) :
  bool_decide (id x ∈ (list_to_set (map id cloud) : gset string)) = true
  <-> In (id x) (map id cloud).
Proof.
  rewrite bool_decide_eq_true, elem_of_list_to_set, list_elem_of_In. reflexivity.
Qed.

Lemma mergeById_In (cloud local : list T) (x : T) :
  In x (mergeById id cloud local)
  <-> In x cloud \/ (In x local /\ ~ In (id x) (map id cloud)).
Proof.
  unfold mergeById. rewrite in_app_iff, filter_In, negb_true_iff.
  rewrite <- not_true_iff_false, known_spec. reflexivity.
Qed.

Lemma unknown_none (cloud l : list T) :
  (forall x, In x l -> In (id x) (map id cloud)) ->
  List.filter
    (fun x => negb (bool_decide (id x ∈ (list_to_set (map id cloud) : gset string)))) l
  = [].
Proof.
  intros H. induction l as [| x l IH]; cbn [List.filter]; [reflexivity |].
  rewrite (proj2 (known_spec cloud x)) by (apply H; left; reflexivity).
  cbn [negb]. apply IH. intros y Hy. apply H. right. exact Hy.
Qed.

Lemma unknown_all (cloud l : list T) :
  (forall x, In x l -> ~ In (id x) (map id cloud)) ->
  List.filter
    (fun x => negb (bool_decide (id x ∈ (list_to_set (map id cloud) : gset string)))) l
  = l.
Proof.
  intros H. apply filter_all. intros x Hx. apply negb_true_iff.
  apply not_true_iff_false. rewrite known_spec. apply H. exact Hx.
Qed.

Lemma unknown_unknown (cloud l : list T) (x : T) :
  In x (List.filter
          (fun x => negb (bool_decide (id x ∈ (list_to_set (map id cloud) : gset string))))
          l) ->
  ~ In (id x) (map id cloud).
Proof.
  intros H. apply filter_In in H. destruct H as [_ H].
  apply negb_true_iff, not_true_iff_false in H. rewrite known_spec in H. exact H.
Qed.

Lemma mergeById_again (cloud local : list T) :
  mergeById id cloud (mergeById id cloud local) = mergeById id cloud local.
Proof.
  unfold mergeById at 1. unfold mergeById at 1. rewrite List.filter_app.
  rewrite (unknown_none cloud cloud) by (intros x Hx; apply in_map; exact Hx).
  rewrite (unknown_all cloud) by (intros x Hx; exact (unknown_unknown _ _ _ Hx)).
  reflexivity.
Qed.

End MergeById.

(** ** A deletion in the cloud against the reload *)

(** X15.  The reload never drops a local record.  A record of the store
    whose id no row of the cloud carries is in the store after the reload;
    so an income, an expense or a transfer that a first reload has brought
    in and that has then been deleted in the cloud is still there after
    the next reload. *)
Theorem reload_keeps_deleted (localeCompare : string -> string -> Z)
  (derive : bool) (ids1 ids2 : nat -> Id) (rows rows' : CloudRows.t)
  (prev : Store.t) :
  let s1 := hydrate localeCompare derive ids1 rows prev in
  let s2 := hydrate localeCompare derive ids2 rows' s1 in
  (forall i, In i (incomesCloud (CloudRows.txRows rows)) ->
             ~ In (Income.id i) (map SBTrxRow.id (CloudRows.txRows rows')) ->
             In i (Store.incomes s2))
  /\ (forall e, In e (expensesCloud (CloudRows.txRows rows)) ->
                ~ In (Expense.id e) (map SBTrxRow.id (CloudRows.txRows rows')) ->
                In e (Store.expenses s2))
  /\ (forall t, In t (transfersCloud (CloudRows.trRows rows)) ->
                ~ In (Transfer.id t) (map TransferRow.id (CloudRows.trRows rows')) ->
                In t (Store.transfers s2)).
Proof.
  intros s1 s2. split; [| split].
  - intros i Hi Hgone. unfold s2, s1, hydrate. cbn [Store.incomes].
    apply mergeById_In. right. split.
    + apply mergeById_In. left. exact Hi.
    + intros Hin. apply Hgone. unfold incomesCloud in Hin.
      rewrite map_map in Hin. cbn [Income.id] in Hin.
      apply in_map_iff in Hin. destruct Hin as (r & <- & Hr).
      apply filter_In in Hr. apply in_map. exact (proj1 Hr).
  - intros e He Hgone. unfold s2, s1, hydrate. cbn [Store.expenses].
    apply mergeById_In. right. split.
    + apply mergeById_In. left. exact He.
    + intros Hin. apply Hgone. unfold expensesCloud in Hin.
      rewrite map_map in Hin. cbn [Expense.id] in Hin.
      apply in_map_iff in Hin. destruct Hin as (r & <- & Hr).
      apply filter_In in Hr. apply in_map. exact (proj1 Hr).
  - intros t Ht Hgone. unfold s2, s1, hydrate. cbn [Store.transfers].
    apply mergeById_In. right. split.
    + apply mergeById_In. left. exact Ht.
    + intros Hin. apply Hgone. unfold transfersCloud in Hin.
      rewrite map_map in Hin. cbn [Transfer.id] in Hin. exact Hin.
Qed.

Lemma reload_keeps_deleted_witness :
  In (Income.mk "r1" "2024-02-03" "Salary" 1000%Q "A" None)
     (Store.incomes
        (hydrate byteCompare true countIds (CloudRows.mk [] [] [] [] [] [])
           (hydrate byteCompare true countIds cloudRows (emptyStore "c0")))).
Proof.
  apply (proj1 (reload_keeps_deleted byteCompare true countIds countIds cloudRows
                  (CloudRows.mk [] [] [] [] [] []) (emptyStore "c0"))).
  - left. reflexivity.
  - simpl. tauto.
Defined.

(** X16.  An income recorded in cloud mode is put in the store under a
    local id; the cloud gives its row an id of its own.  After the next
    reload the store holds the income twice: once as read from the row,
    once under the local id. *)
Theorem cloud_income_twice (localeCompare : string -> string -> Z)
  (derive : bool) (mkIds : nat -> Id) (rows : CloudRows.t) (prev : Store.t)
  (id : Id) (inc : Income.t) (r : SBTrxRow.t) :
  In r (CloudRows.txRows rows) ->
  Qpositive (SBTrxRow.amount r) = true ->
  ~ In id (map SBTrxRow.id (CloudRows.txRows rows)) ->
  SBTrxRow.trx_date r = Income.date inc ->
  SBTrxRow.amount r = Income.amount inc ->
  SBTrxRow.description r = Some (Income.source inc) ->
  let s := hydrate localeCompare derive mkIds rows (addIncomeCloud id inc prev) in
  exists i1 i2,
    In i1 (Store.incomes s) /\ In i2 (Store.incomes s)
    /\ Income.id i1 = SBTrxRow.id r /\ Income.id i2 = id
    /\ Income.id i1 <> Income.id i2
    /\ Income.date i1 = Income.date i2
    /\ Income.source i1 = Income.source i2
    /\ Income.amount i1 = Income.amount i2.
Proof.
  intros Hr Hpos Hfresh Hdate Hamount Hdesc s.
  exists (Income.mk (SBTrxRow.id r) (SBTrxRow.trx_date r)
            (orElse (SBTrxRow.description r) "") (SBTrxRow.amount r)
            (SBTrxRow.account_id r) None),
         (Income.mk id (Income.date inc) (Income.source inc) (Income.amount inc)
            (Income.accountId inc) (Income.notes inc)).
  cbn [Income.id Income.date Income.source Income.amount].
  assert (Hne : SBTrxRow.id r <> id).
  { intros E. apply Hfresh. rewrite <- E. apply in_map. exact Hr. }
  repeat split; try assumption.
  - unfold s, hydrate. cbn [Store.incomes]. apply mergeById_In. left.
    unfold incomesCloud.
    apply (in_map (fun t => Income.mk (SBTrxRow.id t) (SBTrxRow.trx_date t)
                              (orElse (SBTrxRow.description t) "") (SBTrxRow.amount t)
                              (SBTrxRow.account_id t) None)).
    apply filter_In. split; assumption.
  - unfold s, hydrate, addIncomeCloud. cbn [Store.incomes]. apply mergeById_In. right.
    cbn [Income.id]. split; [left; reflexivity |].
    intros Hin. apply Hfresh. unfold incomesCloud in Hin.
    rewrite map_map in Hin. cbn [Income.id] in Hin.
    apply in_map_iff in Hin. destruct Hin as (r' & <- & Hr').
    apply filter_In in Hr'. apply in_map. exact (proj1 Hr').
  - rewrite Hdesc. reflexivity.
Qed.

Lemma cloud_income_twice_witness :
  exists i1 i2,
    In i1 (Store.incomes
             (hydrate byteCompare true countIds cloudRows
                (addIncomeCloud "loc1"
                   (Income.mk "" "2024-02-03" "Salary" 1000%Q "A" None)
                   (emptyStore "c0"))))
    /\ In i2 (Store.incomes
                (hydrate byteCompare true countIds cloudRows
                   (addIncomeCloud "loc1"
                      (Income.mk "" "2024-02-03" "Salary" 1000%Q "A" None)
                      (emptyStore "c0"))))
    /\ Income.id i1 = "r1" /\ Income.id i2 = "loc1"
    /\ Income.id i1 <> Income.id i2
    /\ Income.date i1 = Income.date i2
    /\ Income.source i1 = Income.source i2
    /\ Income.amount i1 = Income.amount i2.
Proof.
  assert (Hfresh : ~ In "loc1" (map SBTrxRow.id (CloudRows.txRows cloudRows))).
  { simpl. intros [H | [H | [H | []]]]; discriminate H. }
  exact (cloud_income_twice byteCompare true countIds cloudRows (emptyStore "c0")
           "loc1" (Income.mk "" "2024-02-03" "Salary" 1000%Q "A" None)
           (SBTrxRow.mk "r1" "2024-02-03" 1000%Q (Some "Salary") "A")
           (or_introl eq_refl) eq_refl Hfresh eq_refl eq_refl eq_refl).
Defined.

(** ** Reloading twice *)

Lemma insertByDate_map (localeCompare : string -> string -> Z)
  (h : AccountTxn.t -> AccountTxn.t) (t : AccountTxn.t) (l : list AccountTxn.t) :
  (forall x, AccountTxn.date (h x) = AccountTxn.date x) ->
  map h (insertByDate localeCompare t l) = insertByDate localeCompare (h t) (map h l).
Proof.
  intros Hh. induction l as [| x l IH]; cbn [insertByDate map]; [reflexivity |].
  rewrite !Hh.
  destruct (localeCompare (AccountTxn.date x) (AccountTxn.date t) <=? 0);
    cbn [map]; [reflexivity | rewrite IH; reflexivity].
Qed.

Lemma sortByDateDesc_map (localeCompare : string -> string -> Z)
  (h : AccountTxn.t -> AccountTxn.t) (l : list AccountTxn.t) :
  (forall x, AccountTxn.date (h x) = AccountTxn.date x) ->
  map h (sortByDateDesc localeCompare l) = sortByDateDesc localeCompare (map h l).
Proof.
  intros Hh. induction l as [| x l IH]; cbn [sortByDateDesc fold_right map]; [reflexivity |].
  fold (sortByDateDesc localeCompare l). fold (sortByDateDesc localeCompare (map h l)).
  rewrite insertByDate_map by exact Hh. rewrite IH. reflexivity.
Qed.

Lemma stripId_withIds (mkIds : nat -> Id) (k : nat) (l : list AccountTxn.t) :
  map stripId (withIds mkIds k l) = map stripId l.
Proof.
  revert k. induction l as [| t l IH]; intros k; cbn [withIds map]; [reflexivity |].
  rewrite IH. reflexivity.
Qed.

Lemma stripId_journal (localeCompare : string -> string -> Z) (mkIds : nat -> Id)
  (l : list AccountTxn.t) :
  map stripId (sortByDateDesc localeCompare (withIds mkIds 0 l))
  = sortByDateDesc localeCompare (map stripId l).
Proof.
  rewrite sortByDateDesc_map by (intros x; reflexivity).
  rewrite stripId_withIds. reflexivity.
Qed.

(** The account with the balance that the recomputation finds in [m]. *)
Lemma fold_zero_ids (l : list Account.t) (m : gmap string Q) :
  fold_left (fun m a => <[Account.id a := 0%Q]> m) l m
  = fold_left (fun m k => <[k := 0%Q]> m) (map Account.id l) m.
Proof.
  revert m. induction l as [| a l IH]; intros m; cbn [fold_left map]; [reflexivity |].
  apply IH.
Qed.

Lemma deriveBalances_by_ids (l l' : list Account.t) (incomes : list Income.t)
  (expenses : list Expense.t) (transfers : list Transfer.t)
  (investments : list Investment.t) :
  map Account.id l = map Account.id l' ->
  exists m : gmap string Q,
    let g := fun a => Account.mk (Account.id a) (Account.name a) (Account.type a)
                        (toFixed2 (getOr0 m (Account.id a))) (Account.currency a) in
    deriveBalances l incomes expenses transfers investments = map g l
    /\ deriveBalances l' incomes expenses transfers investments = map g l'.
Proof.
  intros Hids. unfold deriveBalances. rewrite !fold_zero_ids, <- Hids.
  eexists. split; reflexivity.
Qed.

Lemma deriveBalances_again (cloud prev : list Account.t) (incomes : list Income.t)
  (expenses : list Expense.t) (transfers : list Transfer.t)
  (investments : list Investment.t) :
  deriveBalances
    (mergeById Account.id cloud
       (deriveBalances (mergeById Account.id cloud prev)
          incomes expenses transfers investments))
    incomes expenses transfers investments
  = deriveBalances (mergeById Account.id cloud prev)
      incomes expenses transfers investments.
Proof.
  set (acc1 := mergeById Account.id cloud prev).
  destruct (deriveBalances_by_ids acc1 acc1 incomes expenses transfers investments
              eq_refl) as (m0 & H0 & _).
  cbv zeta in H0. set (g := fun a : Account.t => _) in H0.
  assert (Hg : forall a, Account.id (g a) = Account.id a) by reflexivity.
  assert (Hacc1 : exists rest, acc1 = (cloud ++ rest)%list
                               /\ forall x, In x rest -> ~ In (Account.id x) (map Account.id cloud)).
  { eexists. split; [reflexivity |].
    intros x Hx. exact (unknown_unknown Account.id cloud prev x Hx). }
  destruct Hacc1 as (rest & Hacc1 & Hrest).
  assert (Hacc2 : mergeById Account.id cloud (map g acc1) = (cloud ++ map g rest)%list).
  { rewrite Hacc1. unfold mergeById. rewrite map_app, List.filter_app.
    rewrite (unknown_none Account.id cloud (map g cloud)).
    2: { intros x Hx. apply in_map_iff in Hx. destruct Hx as (a & <- & Ha).
         rewrite Hg. apply in_map. exact Ha. }
    rewrite (unknown_all Account.id cloud (map g rest)).
    2: { intros x Hx. apply in_map_iff in Hx. destruct Hx as (a & <- & Ha).
         rewrite Hg. exact (Hrest a Ha). }
    reflexivity. }
  rewrite H0, Hacc2.
  assert (Hids : map Account.id acc1 = map Account.id (cloud ++ map g rest)%list).
  { rewrite Hacc1, !map_app, map_map. reflexivity. }
  destruct (deriveBalances_by_ids acc1 _ incomes expenses transfers investments Hids)
    as (m & H1 & H2).
  cbv zeta in H1, H2. rewrite H2. rewrite H0 in H1.
  rewrite Hacc1, !map_app in H1 |- *.
  apply app_inj_1 in H1; [| rewrite !length_map; reflexivity].
  destruct H1 as [Hcloud Hlocal].
  apply (f_equal2 (@app _)); [symmetry; exact Hcloud |].
  rewrite Hlocal, map_map. apply map_ext. intros a. reflexivity.
Qed.

(** X17.  Reloading twice from the same rows gives what reloading once
    gives: the same records, the same accounts and balances and, the ids
    of the entries apart, the same journal. *)
Theorem reload_twice (localeCompare : string -> string -> Z) (derive : bool)
  (ids1 ids2 : nat -> Id) (rows : CloudRows.t) (prev : Store.t) :
  let s1 := hydrate localeCompare derive ids1 rows prev in
  let s2 := hydrate localeCompare derive ids2 rows s1 in
  Store.incomes s2 = Store.incomes s1
  /\ Store.expenses s2 = Store.expenses s1
  /\ Store.transfers s2 = Store.transfers s1
  /\ Store.investments s2 = Store.investments s1
  /\ Store.projects s2 = Store.projects s1
  /\ Store.projectContribs s2 = Store.projectContribs s1
  /\ Store.accounts s2 = Store.accounts s1
  /\ map stripId (Store.accountTxns s2) = map stripId (Store.accountTxns s1).
Proof.
  intros s1 s2. unfold s2, s1, hydrate.
  cbn [Store.incomes Store.expenses Store.transfers Store.investments
       Store.projects Store.projectContribs Store.accounts Store.accountTxns].
  rewrite !mergeById_again.
  repeat (split; [reflexivity |]). split.
  - destruct derive; [apply deriveBalances_again | apply mergeById_again].
  - rewrite !stripId_journal. reflexivity.
Qed.

(** ** The journal of a reload *)

Lemma insertByDate_perm (localeCompare : string -> string -> Z)
  (t : AccountTxn.t) (l : list AccountTxn.t) :
  Permutation (insertByDate localeCompare t l) (t :: l).
Proof.
  induction l as [| x l IH]; cbn [insertByDate]; [apply Permutation_refl |].
  destruct (localeCompare (AccountTxn.date x) (AccountTxn.date t) <=? 0);
    [apply Permutation_refl |].
  apply Permutation_trans with (x :: t :: l);
    [apply perm_skip; exact IH | apply perm_swap].
Qed.

Lemma sortByDateDesc_perm (localeCompare : string -> string -> Z)
  (l : list AccountTxn.t) :
  Permutation (sortByDateDesc localeCompare l) l.
Proof.
  induction l as [| x l IH]; cbn [sortByDateDesc fold_right]; [apply perm_nil |].
  apply Permutation_trans with (x :: sortByDateDesc localeCompare l);
    [apply insertByDate_perm | apply perm_skip; exact IH].
Qed.

Lemma length_transferEntries (l : list Transfer.t) :
  length (flat_map hydratedTransferEntries l) = (2 * length l)%nat.
Proof. induction l as [| t l IH]; simpl; [reflexivity | rewrite IH; lia]. Qed.

Lemma length_investmentEntries (l : list Investment.t) :
  length (flat_map hydratedInvestmentEntries l)
  = length (List.filter
              (fun v => match linkedAccount (Investment.accountId v) with
                        | Some _ => true
                        | None => false
                        end) l).
Proof.
  induction l as [| v l IH]; cbn [flat_map List.filter]; [reflexivity |].
  rewrite length_app, IH. unfold hydratedInvestmentEntries.
  destruct (linkedAccount (Investment.accountId v)); reflexivity.
Qed.

Lemma stripId_expected_hydrated (incomes : list Income.t) (expenses : list Expense.t)
  (transfers : list Transfer.t) (investments : list Investment.t) :
  map stripId (hydratedEntries incomes expenses transfers investments)
  = hydratedEntries incomes expenses transfers investments.
Proof.
  apply map_fixed. intros x Hx. unfold hydratedEntries in Hx.
  rewrite !in_app_iff in Hx.
  destruct Hx as [Hx | [Hx | [Hx | Hx]]].
  - apply in_map_iff in Hx. destruct Hx as (i & <- & _). reflexivity.
  - apply in_map_iff in Hx. destruct Hx as (e & <- & _). reflexivity.
  - apply in_flat_map in Hx. destruct Hx as (t & _ & [<- | [<- | []]]); reflexivity.
  - apply in_flat_map in Hx. destruct Hx as (v & _ & Hx).
    unfold hydratedInvestmentEntries in Hx.
    destruct (linkedAccount (Investment.accountId v)); [| destruct Hx].
    destruct Hx as [<- | []]. reflexivity.
Qed.

(** X18.  The journal after a reload holds, ids and order apart, one
    entry per income, one per expense, two per transfer and one, tagged as
    an expense, per investment linked to an account; the entries of the
    incomes and expenses are those that recording them locally writes. *)
Theorem reload_journal (localeCompare : string -> string -> Z) (derive : bool)
  (mkIds : nat -> Id) (rows : CloudRows.t) (prev : Store.t) :
  let s := hydrate localeCompare derive mkIds rows prev in
  Permutation (map stripId (Store.accountTxns s))
    (map incomeEntry (Store.incomes s) ++ map expenseEntry (Store.expenses s)
     ++ flat_map hydratedTransferEntries (Store.transfers s)
     ++ flat_map hydratedInvestmentEntries (Store.investments s))%list
  /\ length (Store.accountTxns s)
     = (length (Store.incomes s) + length (Store.expenses s)
        + 2 * length (Store.transfers s)
        + length (List.filter
                    (fun v => match linkedAccount (Investment.accountId v) with
                              | Some _ => true
                              | None => false
                              end)
                    (Store.investments s)))%nat
  /\ Forall (fun v =>
               forall a, linkedAccount (Investment.accountId v) = Some a ->
                         exists t, In t (Store.accountTxns s)
                                   /\ linkedTo LExpense (Investment.id v) t = true
                                   /\ AccountTxn.accountId t = a
                                   /\ AccountTxn.amount t = Qabs (Investment.amount v))
       (Store.investments s).
Proof.
  intros s.
  assert (HP : Permutation (map stripId (Store.accountTxns s))
                 (hydratedEntries (Store.incomes s) (Store.expenses s)
                    (Store.transfers s) (Store.investments s))).
  { unfold s, hydrate. cbn [Store.accountTxns Store.incomes Store.expenses
                            Store.transfers Store.investments].
    rewrite stripId_journal.
    eapply Permutation_trans; [apply sortByDateDesc_perm |].
    rewrite stripId_expected_hydrated. apply Permutation_refl. }
  split; [exact HP |]. split.
  - rewrite <- (length_map stripId). rewrite (Permutation_length HP).
    unfold hydratedEntries. rewrite !length_app, !length_map.
    rewrite length_transferEntries, length_investmentEntries. lia.
  - apply List.Forall_forall. intros v Hv a Ha.
    assert (Hin : In (AccountTxn.mk "" (Investment.date v) a
                        (if Qpositive (Investment.amount v) then Withdrawal else Deposit)
                        (Qabs (Investment.amount v)) LExpense (Investment.id v)
                        (Some (strOr (Investment.instrument v) "Investment")) None None)
                     (map stripId (Store.accountTxns s))).
    { apply (Permutation_in _ (Permutation_sym HP)).
      unfold hydratedEntries. rewrite !in_app_iff. right. right. right.
      apply in_flat_map. exists v. split; [exact Hv |].
      unfold hydratedInvestmentEntries. rewrite Ha. left. reflexivity. }
    apply in_map_iff in Hin. destruct Hin as (t & Ht & Hin).
    exists t. split; [exact Hin |].
    destruct t. unfold stripId in Ht. cbn in Ht. injection Ht as -> -> -> -> -> -> -> -> ->.
    unfold linkedTo. cbn. rewrite String.eqb_refl. repeat split.
Qed.

(** ** Transactions by sign *)



(* ====================================================================== *)
(** * Counting the journal *)
(* ====================================================================== *)

Lemma length_filter_split {A : Type} (p : A -> bool) (l : list A) :
  (length (List.filter (fun x => negb (p x)) l) + length (List.filter p l)
   = length l)%nat.
Proof.
  induction l as [| x l IH]; simpl; [reflexivity |].
  destruct (p x); simpl; lia.
Qed.

Lemma count_disjoint {A : Type} (p q : A -> bool) (l : list A) :
  (forall x, q x = true -> p x = false) ->
  List.filter q (List.filter (fun x => negb (p x)) l) = List.filter q l.
Proof.
  intros H. induction l as [| x l IH]; cbn [List.filter]; [reflexivity |].
  destruct (p x) eqn:P; cbn [negb List.filter].
  - destruct (q x) eqn:Q; [rewrite (H x Q) in P; discriminate P | exact IH].
  - destruct (q x); rewrite IH; reflexivity.
Qed.

Lemma count_same {A : Type} (p q : A -> bool) (l : list A) :
  (forall x, q x = p x) ->
  List.filter q (List.filter (fun x => negb (p x)) l) = [].
Proof.
  intros H. induction l as [| x l IH]; cbn [List.filter]; [reflexivity |].
  destruct (p x) eqn:P; cbn [negb List.filter]; [exact IH |].
  rewrite H, P. exact IH.
Qed.

Lemma linkedTo_spec (ty : LinkedType) (id : Id) (t : AccountTxn.t) :
  linkedTo ty id t = true <-> AccountTxn.linkedType t = ty /\ AccountTxn.linkedId t = id.
Proof.
  unfold linkedTo. rewrite andb_true_iff, String.eqb_eq.
  destruct (AccountTxn.linkedType t), ty; cbn; intuition congruence.
Qed.

Lemma del_counts (ty0 : LinkedType) (id0 : Id) (j : list AccountTxn.t)
  (ty : LinkedType) (id : Id) :
  linkedCount ty id (List.filter (fun t => negb (linkedTo ty0 id0 t)) j)
  = if LinkedType_eqb ty ty0 && String.eqb id id0 then 0%nat
    else linkedCount ty id j.
Proof.
  unfold linkedCount.
  destruct (LinkedType_eqb ty ty0 && String.eqb id id0) eqn:C.
  - apply andb_true_iff in C. destruct C as [C1 C2].
    apply String.eqb_eq in C2. subst id0.
    assert (ty = ty0) by (destruct ty, ty0; (reflexivity || discriminate C1)).
    subst ty0. rewrite count_same by reflexivity. reflexivity.
  - rewrite count_disjoint; [reflexivity |].
    intros x Hx. apply not_true_iff_false. intros Hx'.
    apply linkedTo_spec in Hx, Hx'. destruct Hx as [E1 E2], Hx' as [E1' E2'].
    assert (Et : ty = ty0) by congruence. assert (Ei : id = id0) by congruence.
    rewrite Et, Ei, String.eqb_refl in C. destruct ty0; discriminate C.
Qed.

Lemma del_ids {A : Type} (key : A -> Id) (id0 : Id) (l : list A) (id : Id) :
  idCount key id (List.filter (fun x => negb (String.eqb (key x) id0)) l)
  = if String.eqb id id0 then 0%nat else idCount key id l.
Proof.
  unfold idCount. destruct (String.eqb_spec id id0) as [E | E].
  - subst id0. rewrite (count_same (fun x => String.eqb (key x) id)) by reflexivity.
    reflexivity.
  - rewrite (count_disjoint (fun x => String.eqb (key x) id0)); [reflexivity |].
    intros x Hx. apply String.eqb_eq in Hx. apply String.eqb_neq. congruence.
Qed.

Lemma map_counts (f : AccountTxn.t -> AccountTxn.t) (ty : LinkedType) (id : Id)
  (j : list AccountTxn.t) :
  (forall t, linkedTo ty id (f t) = linkedTo ty id t) ->
  linkedCount ty id (map f j) = linkedCount ty id j.
Proof.
  intros H. unfold linkedCount.
  rewrite (filter_map_swap f (linkedTo ty id) (linkedTo ty id) j H).
  apply length_map.
Qed.

Lemma map_ids {A : Type} (key : A -> Id) (f : A -> A) (id : Id) (l : list A) :
  (forall x, key (f x) = key x) ->
  idCount key id (map f l) = idCount key id l.
Proof.
  intros H. unfold idCount.
  rewrite (filter_map_swap f (fun x => String.eqb (key x) id)
             (fun x => String.eqb (key x) id) l)
    by (intros x; rewrite H; reflexivity).
  apply length_map.
Qed.

Lemma retargetIncomeTxn_linked (edited : Income.t) (ty : LinkedType) (id : Id)
  (t : AccountTxn.t) :
  linkedTo ty id (retargetIncomeTxn edited t) = linkedTo ty id t.
Proof.
  unfold retargetIncomeTxn.
  destruct (linkedTo LIncome (Income.id edited) t); reflexivity.
Qed.

Lemma retargetExpenseTxn_linked (edited : Expense.t) (ty : LinkedType) (id : Id)
  (t : AccountTxn.t) :
  linkedTo ty id (retargetExpenseTxn edited t) = linkedTo ty id t.
Proof.
  unfold retargetExpenseTxn.
  destruct (linkedTo LExpense (Expense.id edited) t); reflexivity.
Qed.

Lemma retargetTransferTxn_linked (edited : Transfer.t) (fromName toName : string)
  (ty : LinkedType) (id : Id) (t : AccountTxn.t) :
  linkedTo ty id (retargetTransferTxn edited fromName toName t) = linkedTo ty id t.
Proof.
  unfold retargetTransferTxn.
  destruct (linkedTo LTransfer (Transfer.id edited) t); reflexivity.
Qed.

Lemma replaceIncome_id (edited i : Income.t) :
  Income.id (replaceIncome edited i) = Income.id i.
Proof.
  unfold replaceIncome.
  destruct (String.eqb_spec (Income.id i) (Income.id edited)); congruence.
Qed.

Lemma replaceExpense_id (edited e : Expense.t) :
  Expense.id (replaceExpense edited e) = Expense.id e.
Proof.
  unfold replaceExpense.
  destruct (String.eqb_spec (Expense.id e) (Expense.id edited)); congruence.
Qed.

Lemma replaceTransfer_id (edited t : Transfer.t) :
  Transfer.id (replaceTransfer edited t) = Transfer.id t.
Proof.
  unfold replaceTransfer.
  destruct (String.eqb_spec (Transfer.id t) (Transfer.id edited)); congruence.
Qed.

Lemma applyOp_counted (o : Op) (s : Store.t) :
  journalCounted s -> journalCounted (applyOp o s).
Proof.
  intros [Hlen Hcnt].
  destruct o as [id txnId inc | id | edited | id txnId exp | id | edited
                 | id t1 t2 tr | id | edited | id v | id];
    cbn [applyOp].
  - (* addIncome *)
    unfold addIncome, journalCounted, linkedCount, idCount.
    cbn [Store.accountTxns Store.incomes Store.expenses Store.transfers
         List.filter length linkedTo AccountTxn.linkedType AccountTxn.linkedId
         LinkedType_eqb andb Income.id].
    split; [lia |]. intros id'. destruct (Hcnt id') as (H1 & H2 & H3).
    unfold linkedCount, idCount in H1, H2, H3.
    destruct (String.eqb id id'); cbn [length]; repeat split; lia.
  - (* delIncome *)
    unfold delIncome. destruct (find _ (Store.incomes s)); [| split; assumption].
    unfold journalCounted.
    cbn [Store.accountTxns Store.incomes Store.expenses Store.transfers].
    split.
    + pose proof (length_filter_split (linkedTo LIncome id) (Store.accountTxns s)).
      pose proof (length_filter_split (fun i => String.eqb (Income.id i) id)
                    (Store.incomes s)).
      destruct (Hcnt id) as (H1 & _). unfold linkedCount, idCount in H1. lia.
    + intros id'. destruct (Hcnt id') as (H1 & H2 & H3).
      rewrite !del_counts, del_ids. cbn [LinkedType_eqb andb].
      destruct (String.eqb id' id); repeat split; assumption || reflexivity.
  - (* updateIncome *)
    unfold updateIncome.
    destruct (find _ (Store.incomes s)); [| split; assumption].
    unfold journalCounted.
    cbn [Store.accountTxns Store.incomes Store.expenses Store.transfers].
    rewrite !length_map. split; [exact Hlen |].
    intros id'. destruct (Hcnt id') as (H1 & H2 & H3).
    rewrite !map_counts by (intros ?; apply retargetIncomeTxn_linked).
    rewrite map_ids by (intros ?; apply replaceIncome_id).
    repeat split; assumption.
  - (* addExpense *)
    unfold addExpense, journalCounted, linkedCount, idCount.
    cbn [Store.accountTxns Store.incomes Store.expenses Store.transfers
         List.filter length linkedTo AccountTxn.linkedType AccountTxn.linkedId
         LinkedType_eqb andb Expense.id].
    split; [lia |]. intros id'. destruct (Hcnt id') as (H1 & H2 & H3).
    unfold linkedCount, idCount in H1, H2, H3.
    destruct (String.eqb id id'); cbn [length]; repeat split; lia.
  - (* delExpense *)
    unfold delExpense. destruct (find _ (Store.expenses s)); [| split; assumption].
    unfold journalCounted.
    cbn [Store.accountTxns Store.incomes Store.expenses Store.transfers].
    split.
    + pose proof (length_filter_split (linkedTo LExpense id) (Store.accountTxns s)).
      pose proof (length_filter_split (fun e => String.eqb (Expense.id e) id)
                    (Store.expenses s)).
      destruct (Hcnt id) as (_ & H2 & _). unfold linkedCount, idCount in H2. lia.
    + intros id'. destruct (Hcnt id') as (H1 & H2 & H3).
      rewrite !del_counts, del_ids. cbn [LinkedType_eqb andb].
      destruct (String.eqb id' id); repeat split; assumption || reflexivity.
  - (* updateExpense *)
    unfold updateExpense.
    destruct (find _ (Store.expenses s)); [| split; assumption].
    unfold journalCounted.
    cbn [Store.accountTxns Store.incomes Store.expenses Store.transfers].
    rewrite !length_map. split; [exact Hlen |].
    intros id'. destruct (Hcnt id') as (H1 & H2 & H3).
    rewrite !map_counts by (intros ?; apply retargetExpenseTxn_linked).
    rewrite map_ids by (intros ?; apply replaceExpense_id).
    repeat split; assumption.
  - (* addTransfer *)
    unfold addTransfer. destruct (transferRejected tr); [split; assumption |].
    unfold journalCounted, linkedCount, idCount.
    cbn [Store.accountTxns Store.incomes Store.expenses Store.transfers
         List.filter length linkedTo AccountTxn.linkedType AccountTxn.linkedId
         LinkedType_eqb andb Transfer.id].
    split; [lia |]. intros id'. destruct (Hcnt id') as (H1 & H2 & H3).
    unfold linkedCount, idCount in H1, H2, H3.
    destruct (String.eqb id id'); cbn [length]; repeat split; lia.
  - (* delTransfer *)
    unfold delTransfer. destruct (find _ (Store.transfers s)); [| split; assumption].
    unfold journalCounted.
    cbn [Store.accountTxns Store.incomes Store.expenses Store.transfers].
    split.
    + pose proof (length_filter_split (linkedTo LTransfer id) (Store.accountTxns s)).
      pose proof (length_filter_split (fun t => String.eqb (Transfer.id t) id)
                    (Store.transfers s)).
      destruct (Hcnt id) as (_ & _ & H3). unfold linkedCount, idCount in H3. lia.
    + intros id'. destruct (Hcnt id') as (H1 & H2 & H3).
      rewrite !del_counts, del_ids. cbn [LinkedType_eqb andb].
      destruct (String.eqb id' id); repeat split; assumption || reflexivity.
  - (* updateTransfer *)
    unfold updateTransfer.
    destruct (find _ (Store.transfers s)); [| split; assumption].
    unfold journalCounted.
    cbn [Store.accountTxns Store.incomes Store.expenses Store.transfers].
    rewrite !length_map. split; [exact Hlen |].
    intros id'. destruct (Hcnt id') as (H1 & H2 & H3).
    rewrite !map_counts by (intros ?; apply retargetTransferTxn_linked).
    rewrite map_ids by (intros ?; apply replaceTransfer_id).
    repeat split; assumption.
  - (* addInvestment *)
    split; assumption.
  - (* delInvestment *)
    unfold delInvestment.
    destruct (find _ (Store.investments s)); split; assumption.
Qed.

(** X20.  After any sequence of mutations of the ledger on a store with
    nothing recorded, edits of any kind included, the journal has exactly
    one entry per income, one per expense and two per transfer: in all,
    and for the records under each id. *)
Theorem journal_counted (s0 : Store.t) (ops : list Op) :
  ledgerEmpty s0 -> journalCounted (run ops s0).
Proof.
  intros (HI & HE & HT & HJ).
  assert (H0 : journalCounted s0).
  { unfold journalCounted, linkedCount, idCount. rewrite HI, HE, HT, HJ.
    split; [reflexivity |]. intros id. repeat split. }
  clear HI HE HT HJ. revert s0 H0. unfold run.
  induction ops as [| o ops IH]; intros s0 H0; cbn [fold_left]; [exact H0 |].
  apply IH. apply applyOp_counted. exact H0.
Qed.

Lemma journal_counted_witness : journalCounted (run mixedHistory zeroAccounts).
Proof. apply journal_counted. repeat split. Defined.

(* ====================================================================== *)
(** * The projector away from UTC *)
(* ====================================================================== *)

Lemma newDateLocal_ofLocal (tz y m d : Z) :
  100 <= y -> 1 <= m <= 12 ->
  newDateLocal tz y (m - 1) d = ofLocal tz (Date.mk y m d 0).
Proof.
  intros Hy Hm. unfold newDateLocal, ofLocal.
  replace ((0 <=? y) && (y <=? 99)) with false
    by (symmetry; apply andb_false_iff; right; apply Z.leb_gt; lia).
  rewrite Z.div_small by lia. rewrite Z.mod_small by lia.
  replace (y + 0) with y by lia. replace (m - 1 + 1) with m by lia.
  reflexivity.
Qed.

Lemma firstOfMonthFromYM_local (tz y m : Z) :
  100 <= y <= 9999 -> 1 <= m <= 12 ->
  firstOfMonthFromYM tz (ymString y m) = Some (ofLocal tz (Date.mk y m 1 0)).
Proof.
  intros Hy Hm. unfold firstOfMonthFromYM.
  rewrite splitNumbers_ymString by lia.
  replace (m =? 0) with false by (symmetry; apply Z.eqb_neq; lia).
  rewrite newDateLocal_ofLocal by lia. reflexivity.
Qed.

Lemma projectedDate_local (tz y m : Z) (e : Expense.t) (ye me de : Z) :
  -1440 < tz < 1440 -> 100 <= y <= 9999 -> 1 <= m <= 12 ->
  validDate ye me de -> Expense.date e = isoDate ye me de ->
  projectedDate tz (ymString y m) e
  = Some (toISODate
            (ofLocal tz (Date.mk y m (Z.min 28 (getDate tz (Date.mk ye me de 0))) 0))).
Proof.
  intros Htz Hy Hm Hv He. unfold projectedDate.
  rewrite firstOfMonthFromYM_local by assumption.
  assert (Hl : validLocal (Date.mk y m 1 0)).
  { unfold validLocal. cbn [Date.year Date.month Date.day Date.minute].
    pose proof (daysInMonth_bounds y m). lia. }
  unfold getFullYear, getMonth. rewrite (shift_back tz _ Htz Hl).
  cbn [Date.year Date.month].
  rewrite He, (parseISODate_isoDate _ _ _ Hv).
  rewrite newDateLocal_ofLocal by lia. reflexivity.
Qed.

(** X21.  Away from UTC the projector dates its rows a day early.  East
    of Greenwich the row falls on the day before the day [min(28, d)] of
    the month, [d] being the day of the expense, which for an expense of
    the first of a month is the last day of the month before; west of
    Greenwich it falls on the day [min(28, d')] where [d'] is the day of
    the month of the eve of the expense. *)
Theorem projection_off_utc (tz y m ye me de : Z) (e : Expense.t) :
  100 <= y <= 9999 -> 1 <= m <= 12 ->
  validDate ye me de -> Expense.date e = isoDate ye me de ->
  (0 < tz < 1440 ->
   projectedDate tz (ymString y m) e
   = Some (if 1 <? Z.min 28 de then isoDate y m (Z.min 28 de - 1)
           else if 1 <? m then isoDate y (m - 1) (daysInMonth y (m - 1))
           else isoDate (y - 1) 12 31))
  /\ (-1440 < tz < 0 ->
      projectedDate tz (ymString y m) e
      = Some (isoDate y m (Z.min 28 (Date.day (prevDay (Date.mk ye me de 0)))))).
Proof.
  intros Hy Hm Hv He. split.
  - intros Htz.
    rewrite (projectedDate_local tz y m e ye me de) by (assumption || lia).
    f_equal. unfold getDate, ofLocal, shiftMinutes.
    cbn [Date.year Date.month Date.day Date.minute].
    destruct (Z.ltb_spec (0 + tz) 0); [lia |].
    destruct (Z.leb_spec 1440 (0 + tz)); [lia |].
    cbn [Date.day].
    destruct (Z.ltb_spec (0 + - tz) 0); [| lia].
    unfold prevDay. cbn [Date.year Date.month Date.day Date.minute].
    unfold toISODate.
    destruct (Z.ltb_spec 1 (Z.min 28 de));
      [| destruct (Z.ltb_spec 1 m)];
      cbn [Date.year Date.month Date.day];
      match goal with
      | |- (if ?c then _ else _) = _ =>
        replace c with true
          by (symmetry; apply andb_true_iff; split; apply Z.leb_le; lia)
      end; reflexivity.
  - intros Htz.
    rewrite (projectedDate_local tz y m e ye me de) by (assumption || lia).
    f_equal. unfold getDate.
    assert (Hd : Date.day (shiftMinutes (Date.mk ye me de 0) tz)
                 = Date.day (prevDay (Date.mk ye me de 0))).
    { unfold shiftMinutes. cbn [Date.minute].
      destruct (Z.ltb_spec (0 + tz) 0); [reflexivity | lia]. }
    rewrite Hd. unfold ofLocal, shiftMinutes.
    cbn [Date.year Date.month Date.day Date.minute].
    destruct (Z.ltb_spec (0 + - tz) 0); [lia |].
    destruct (Z.leb_spec 1440 (0 + - tz)); [lia |].
    unfold toISODate. cbn [Date.year Date.month Date.day].
    replace ((0 <=? y) && (y <=? 9999)) with true
      by (symmetry; apply andb_true_iff; split; apply Z.leb_le; lia).
    reflexivity.
Qed.

Lemma projection_off_utc_witness :
  projectedDate 180 (ymString 2024 3)
    (Expense.mk "e9" "2024-01-01" "Rent" 500%Q true None "A" None)
  = Some "2024-02-29".
Proof.
  assert (Hy : 100 <= 2024 <= 9999) by lia.
  assert (Hm : 1 <= 3 <= 12) by lia.
  assert (Hv : validDate 2024 1 1) by (unfold validDate; cbn; lia).
  assert (Htz : 0 < 180 < 1440) by lia.
  exact (proj1 (projection_off_utc 180 2024 3 2024 1 1
                  (Expense.mk "e9" "2024-01-01" "Rent" 500%Q true None "A" None)
                  Hy Hm Hv eq_refl) Htz).
Defined.

(* ====================================================================== *)
(** * The filters of the trend chart *)
(* ====================================================================== *)

Lemma twelve (k : Z) :
  1 <= k <= 12 ->
  k = 1 \/ k = 2 \/ k = 3 \/ k = 4 \/ k = 5 \/ k = 6 \/ k = 7 \/ k = 8
  \/ k = 9 \/ k = 10 \/ k = 11 \/ k = 12.
Proof. lia. Qed.

Lemma monthIndexFromName_label (k : Z) (label : string) :
  1 <= k <= 12 ->
  nth_error MONTH_LABELS (Z.to_nat (k - 1)) = Some label ->
  monthIndexFromName label = k - 1 /\ String.eqb label "All" = false.
Proof.
  intros Hk. destruct (twelve k Hk) as [-> | [-> | [-> | [-> | [-> | [-> | [-> | [->
    | [-> | [-> | [-> | ->]]]]]]]]]]];
    cbn; intros H; injection H as <-; split; reflexivity.
Qed.

Lemma monthFrom_ymString (y k : Z) :
  1 <= k <= 12 -> Number_ (monthFrom (ymString y k)) = Some k.
Proof.
  intros Hk. unfold monthFrom, ymString, pad4.
  destruct (twelve k Hk) as [-> | [-> | [-> | [-> | [-> | [-> | [-> | [->
    | [-> | [-> | [-> | ->]]]]]]]]]]]; reflexivity.
Qed.

Lemma yearFrom_ymString (y k : Z) : yearFrom (ymString y k) = pad4 y.
Proof. reflexivity. Qed.

(** X22.  The filters of the trend chart.  With the month filter on
    "All" the chart shows the rows of the trend whose month key starts
    with the chosen year.  With the filter on the [k]-th month name it
    shows only rows of that year whose month number is [k], each labelled
    with that name, and it shows the row of the month [k] of the year
    when the trend has one. *)
Theorem trend_filters (s : Store.t) (chartYear : string) :
  map TrendPoint.row (mergedTrend s chartYear "All")
  = List.filter (fun row => String.eqb (yearFrom (TrendRow.month row)) chartYear)
      (mergedTrendRaw s)
  /\ forall (k : Z) (label : string),
       1 <= k <= 12 ->
       nth_error MONTH_LABELS (Z.to_nat (k - 1)) = Some label ->
       Forall (fun p =>
                 In (TrendPoint.row p) (mergedTrendRaw s)
                 /\ yearFrom (TrendRow.month (TrendPoint.row p)) = chartYear
                 /\ Number_ (monthFrom (TrendRow.month (TrendPoint.row p))) = Some k
                 /\ TrendPoint.xLabel p = Some label)
         (mergedTrend s chartYear label)
       /\ forall (y : Z) (row : TrendRow.t),
            In row (mergedTrendRaw s) ->
            TrendRow.month row = ymString y k -> chartYear = pad4 y ->
            In (TrendPoint.mk row (Some label)) (mergedTrend s chartYear label).
Proof.
  split.
  - unfold mergedTrend. cbn [String.eqb Ascii.eqb Bool.eqb].
    rewrite map_map. cbn [TrendPoint.row]. apply map_id.
  - intros k label Hk Hlabel.
    destruct (monthIndexFromName_label k label Hk Hlabel) as [Hidx HnotAll].
    unfold mergedTrend. rewrite HnotAll, Hidx.
    replace (k - 1 + 1) with k by lia. split.
    + apply List.Forall_forall. intros p Hp. apply in_map_iff in Hp.
      destruct Hp as (row & <- & Hrow). cbn [TrendPoint.row TrendPoint.xLabel].
      apply filter_In in Hrow. destruct Hrow as [Hrow Hmonth].
      apply filter_In in Hrow. destruct Hrow as [Hrow Hyear].
      apply String.eqb_eq in Hyear.
      destruct (Number_ (monthFrom (TrendRow.month row))) as [n |] eqn:En;
        [| discriminate Hmonth].
      apply Z.eqb_eq in Hmonth. subst n.
      repeat split; try assumption.
      unfold monthNameFromYM. rewrite En.
      replace (k =? 0) with false by (symmetry; apply Z.eqb_neq; lia).
      exact Hlabel.
    + intros y row Hrow Hmonth Hyear.
      apply in_map_iff. exists row. split.
      * f_equal. unfold monthNameFromYM. rewrite Hmonth, monthFrom_ymString by exact Hk.
        replace (k =? 0) with false by (symmetry; apply Z.eqb_neq; lia).
        exact Hlabel.
      * apply filter_In. split.
        -- apply filter_In. split; [exact Hrow |].
           rewrite Hmonth, yearFrom_ymString, Hyear. apply String.eqb_refl.
        -- rewrite Hmonth, monthFrom_ymString by exact Hk. apply Z.eqb_refl.
Qed.

Lemma trend_filters_witness :
  In (TrendPoint.mk
        (nth 2 (mergedTrendRaw trendStore) (TrendRow.mk "" 0%Q 0%Q 0%Q 0%Q))
        (Some "Feb"))
     (mergedTrend trendStore "2024" "Feb").
Proof.
  assert (Hk : 1 <= 2 <= 12) by lia.
  apply (proj2 (proj2 (trend_filters trendStore "2024") 2 "Feb" Hk eq_refl) 2024).
  - vm_compute. right. right. left. reflexivity.
  - reflexivity.
  - reflexivity.
Defined.

(** ** Accounts and goals: adding and deleting again *)

Lemma filter_app_fresh {A : Type} (key : A -> Id) (id : Id) (l : list A) (x : A) :
  ~ In id (map key l) -> key x = id ->
  List.filter (fun y => negb (String.eqb (key y) id)) (l ++ [x]) = l.
Proof.
  intros Hfresh Hx. rewrite List.filter_app. cbn [List.filter].
  rewrite Hx, String.eqb_refl. cbn [negb].
  rewrite (filter_fresh key id l Hfresh). apply app_nil_r.
Qed.

(** X23.  An account, and a goal with a contribution to it, recorded
    under unused ids and deleted again leave the store as it was:
    deleting the goal takes the contribution with it.  A new account
    adds its balance to the sum of the balances and changes no other
    account. *)
Theorem account_and_goal_round_trip (s : Store.t) :
  (forall (id : Id) (acc : Account.t),
      ~ In id (map Account.id (Store.accounts s)) ->
      delAccount id (addAccount id acc s) = s
      /\ (totalAccountBalances (Store.accounts (addAccount id acc s))
          == totalAccountBalances (Store.accounts s) + Account.balance acc)%Q)
  /\ (forall (id cid : Id) (p : Project.t) (pc : ProjectContribution.t),
      ~ In id (map Project.id (Store.projects s)) ->
      ~ In id (map ProjectContribution.projectId (Store.projectContribs s)) ->
      ProjectContribution.projectId pc = id ->
      delProject id (addProjectContribution cid pc (addProject id p s)) = s)
  /\ (forall (cid : Id) (pc : ProjectContribution.t),
      ~ In cid (map ProjectContribution.id (Store.projectContribs s)) ->
      delProjectContribution cid (addProjectContribution cid pc s) = s).
Proof.
  split; [| split].
  - intros id acc Hfresh. split.
    + unfold delAccount, addAccount. cbn.
      rewrite (filter_app_fresh Account.id id) by (exact Hfresh || reflexivity).
      destruct s; reflexivity.
    + rewrite !totalAccountBalances_sum. unfold addAccount. cbn [Store.accounts].
      clear Hfresh.
      induction (Store.accounts s) as [| a l IH]; cbn [app sumBalances Account.balance].
      * ring.
      * rewrite IH. ring.
  - intros id cid p pc Hp Hc Hpc. unfold delProject, addProjectContribution, addProject.
    cbn. rewrite Hpc, String.eqb_refl. cbn [negb].
    rewrite (filter_app_fresh Project.id id) by (exact Hp || reflexivity).
    rewrite (filter_fresh ProjectContribution.projectId id) by exact Hc.
    destruct s; reflexivity.
  - intros cid pc Hc. unfold delProjectContribution, addProjectContribution.
    cbn. rewrite String.eqb_refl. cbn [negb].
    rewrite (filter_fresh ProjectContribution.id cid) by exact Hc.
    destruct s; reflexivity.
Qed.

Lemma account_and_goal_round_trip_witness :
  delProject "g7"
    (addProjectContribution "c7" (ProjectContribution.mk "" "g7" "2024-03-01" 25%Q)
       (addProject "g7" (Project.mk "" "Trip" 900%Q "2025-01-01" None) goalStore))
  = goalStore.
Proof.
  apply (proj1 (proj2 (account_and_goal_round_trip goalStore))).
  - vm_compute. intros [H | [H | []]]; discriminate H.
  - vm_compute. intros [H | [H | [H | [H | []]]]]; discriminate H.
  - reflexivity.
Defined.

(* ====================================================================== *)
(** * The table of expenses against the expense card *)
(* ====================================================================== *)

Lemma insertExpense_perm (localeCompare : string -> string -> Z)
  (e : Expense.t) (l : list Expense.t) :
  Permutation (insertExpense localeCompare e l) (e :: l).
Proof.
  induction l as [| x l IH]; cbn [insertExpense]; [apply Permutation_refl |].
  destruct (localeCompare (Expense.date e) (Expense.date x) <=? 0);
    [apply Permutation_refl |].
  apply Permutation_trans with (x :: e :: l);
    [apply perm_skip; exact IH | apply perm_swap].
Qed.

Lemma sortExpenses_perm (localeCompare : string -> string -> Z) (l : list Expense.t) :
  Permutation (sortExpenses localeCompare l) l.
Proof.
  induction l as [| x l IH]; cbn [sortExpenses fold_right]; [apply perm_nil |].
  apply Permutation_trans with (x :: sortExpenses localeCompare l);
    [apply insertExpense_perm | apply perm_skip; exact IH].
Qed.

Lemma filter_perm {A : Type} (f : A -> bool) (l1 l2 : list A) :
  Permutation l1 l2 -> Permutation (List.filter f l1) (List.filter f l2).
Proof.
  induction 1 as [| x l1 l2 H IH | x y l | l1 l2 l3 H1 IH1 H2 IH2]; cbn [List.filter].
  - apply perm_nil.
  - destruct (f x); [apply perm_skip |]; exact IH.
  - destruct (f x), (f y); try apply Permutation_refl. apply perm_swap.
  - eapply Permutation_trans; eassumption.
Qed.

Lemma sumQ_perm (l1 l2 : list Q) : Permutation l1 l2 -> (sumQ l1 == sumQ l2)%Q.
Proof.
  induction 1 as [| x l1 l2 H IH | x y l | l1 l2 l3 H1 IH1 H2 IH2]; cbn [sumQ].
  - reflexivity.
  - rewrite IH. reflexivity.
  - ring.
  - rewrite IH1. exact IH2.
Qed.

Lemma filter_none {A : Type} (f : A -> bool) (l : list A) :
  Forall (fun x => f x = false) l -> List.filter f l = [].
Proof.
  induction 1 as [| x l Hx Hl IH]; cbn [List.filter]; [reflexivity |].
  rewrite Hx. exact IH.
Qed.

Lemma projected_tagged (tz : Z) (expenses : list Expense.t) (month : string)
  (rows : list Expense.t) :
  monthExpensesProjectedOnly tz expenses month = Some rows ->
  Forall (fun row => isProjected row = true) rows.
Proof.
  unfold monthExpensesProjectedOnly. intros H.
  destruct (projectedRows tz month expenses) as [all |] eqn:Hall; [| discriminate H].
  cbn [option_map] in H. injection H as <-.
  apply Forall_filter_keep.
  eapply List.Forall_impl; [| exact (projectedRows_sound _ _ _ _ Hall)].
  intros row (e & d & _ & -> & _).
  unfold isProjected, projectedRow. cbn [Expense.id]. apply includes_app.
Qed.

(** X24.  The table of expenses of a month holds the recorded expenses
    of the month and the projected rows, and nothing else.  When no
    recorded expense has an id with the tag of the projected rows, the
    rows that the table offers for editing and deleting are the recorded
    expenses of the month, and their amounts add up to the figure of the
    expense card: projected rows count for nothing in it. *)
Theorem table_of_expenses (localeCompare : string -> string -> Z) (tz : Z)
  (s : Store.t) (month : string) (rows projected : list Expense.t) :
  monthExpensesProjectedOnly tz (Store.expenses s) month = Some projected ->
  monthExpensesForDisplay localeCompare tz (Store.expenses s) month = Some rows ->
  Permutation rows (monthExpensesReal (Store.expenses s) month ++ projected)
  /\ (Forall (fun e => isProjected e = false) (Store.expenses s) ->
      Permutation (List.filter (fun e => negb (isProjected e)) rows)
        (monthExpensesReal (Store.expenses s) month)
      /\ (sumQ (map Expense.amount (List.filter (fun e => negb (isProjected e)) rows))
          == expenseThisMonth s month)%Q).
Proof.
  intros Hproj Hrows. unfold monthExpensesForDisplay in Hrows.
  rewrite Hproj in Hrows. cbn [option_map] in Hrows. injection Hrows as <-.
  assert (HP : Permutation
                 (sortExpenses localeCompare
                    (monthExpensesReal (Store.expenses s) month ++ projected))
                 (monthExpensesReal (Store.expenses s) month ++ projected))
    by apply sortExpenses_perm.
  split; [exact HP |]. intros Hreal.
  assert (HF : Permutation
                 (List.filter (fun e => negb (isProjected e))
                    (sortExpenses localeCompare
                       (monthExpensesReal (Store.expenses s) month ++ projected)))
                 (monthExpensesReal (Store.expenses s) month)).
  { eapply Permutation_trans; [apply filter_perm; exact HP |].
    rewrite List.filter_app.
    rewrite (filter_all (fun e => negb (isProjected e))
               (monthExpensesReal (Store.expenses s) month)).
    2: { intros e He. apply filter_In in He.
         rewrite (proj1 (List.Forall_forall _ _) Hreal e (proj1 He)). reflexivity. }
    assert (Hnone : List.filter (fun e => negb (isProjected e)) projected = []).
    { apply filter_none.
      eapply List.Forall_impl; [| exact (projected_tagged _ _ _ _ Hproj)].
      intros e He. cbn beta. rewrite He. reflexivity. }
    rewrite Hnone, app_nil_r. apply Permutation_refl. }
  split; [exact HF |].
  rewrite (sumQ_perm _ _ (Permutation_map Expense.amount HF)).
  unfold expenseThisMonth. rewrite fold_sum_acc. ring.
Qed.

Lemma table_of_expenses_witness :
  (sumQ (map Expense.amount
           (List.filter (fun e => negb (isProjected e))
              (sortExpenses byteCompare
                 (monthExpensesReal (Store.expenses rentStore) "2024-03"
                  ++ [Expense.mk "e1__proj__2024-03" "2024-03-05" "Rent" 500%Q true
                        (Expense.recurrence rent) "A" (Some "(Projected)")]))))
   == expenseThisMonth rentStore "2024-03")%Q.
Proof.
  assert (Hreal : Forall (fun e => isProjected e = false) (Store.expenses rentStore))
    by (repeat constructor).
  exact (proj2 (proj2 (table_of_expenses byteCompare 0 rentStore "2024-03" _ _
                         eq_refl eq_refl) Hreal)).
Defined.
